(** * Secure data transfer with an anomaly-scoring IDS: the scorer and the attack scripts

    A shallow embedding of
    - [ids_service/inference.py]: [predict_handshake], [predict_file];
    - [attack_simulator.py]: the four attack scenarios and the script body;
    - [run_full_security_tests.py]: [run_test] and [main];
    - [upload_corrupted_file.py], [client/client.py] and
      [test_server_connection.py]: their functions and script bodies;
    and the properties the specification states about them, followed by
    further properties of the code.

    Python numbers are modelled by their exact values: a finite double,
    and a Python int, is a rational, kept canonical ([Qc]), next to the
    two infinities and NaN. Every float operation that the modelled code
    performs on such values is either a comparison, or an operation whose
    IEEE result is exact on the inputs it gets here (noted where it is
    used), or the conversion of an int to a float, which raises
    [OverflowError] on an int that is too large ([fits_float]). *)

From Stdlib Require Import ZArith QArith Qcanon Lia Ascii String.
From Stdlib Require Import Floats.PrimFloat Uint63.
From stdpp Require Import base numbers list strings gmap.

Open Scope string_scope.

(** ** Exceptions and fallible computations *)

(** The exception classes the modelled code can meet. All of them derive
    from Python's [Exception], which is what every handler of the sources
    catches. *)
Inductive pyexc : Type :=
| AttributeError
| IndexError
| TypeError
| ValueError
| OverflowError
| JSONDecodeError
| ConnectionError
| ReadTimeout
| TimeoutExpired
| OSError
| EOFError
| RuntimeError (msg : string).

Inductive result (A : Type) : Type :=
| Ok (a : A)
| Raise (e : pyexc).
Arguments Ok {A} a.
Arguments Raise {A} e.

#[global] Instance result_ret : MRet result := fun A a => Ok a.
#[global] Instance result_bind : MBind result := fun A B f m =>
  match m with
  | Ok a => f a
  | Raise e => Raise e
  end.

(** The computation returns: it does not raise. *)
Definition returns {A : Type} (r : result A) : bool :=
  match r with
  | Ok _ => true
  | Raise _ => false
  end.

(** [seq[i]] on a Python list or array row. *)
Definition index {A : Type} (l : list A) (i : nat) : result A :=
  match l !! i with
  | Some x => Ok x
  | None => Raise IndexError
  end.

(** ** Floats *)

Inductive float64 : Type :=
| Fin (q : Qc)
| PosInf
| NegInf
| NaN.

(** [a > b] on floats: false as soon as one side is NaN. *)
Definition float_gt (a b : float64) : bool :=
  match a, b with
  | NaN, _ | _, NaN => false
  | Fin x, Fin y => bool_decide (y < x)%Qc
  | PosInf, PosInf => false
  | PosInf, _ => true
  | NegInf, _ => false
  | Fin _, PosInf => false
  | Fin _, NegInf => true
  end.

(** Python's conversion of an int to a float rounds to the nearest
    double, ties to even, and raises [OverflowError] when the result
    would be [2^1024] in magnitude or more: that is, from
    [2^1024 - 2^970] on, the midpoint between the largest double
    [2^1024 - 2^971] and [2^1024]. Every finite double is below that
    limit, so a number that is not below it is an int. *)
Definition float_limit : Z := Z.shiftl 1 1024 - Z.shiftl 1 970.

(** The number [q] is below the limit in magnitude: it is a finite
    double, or an int that [float(q)] converts. *)
Definition fits_float (q : Qc) : bool :=
  bool_decide (Z.abs (Qnum q) < float_limit * Z.pos (Qden q))%Z.

(** The float literals of the sources, by their exact binary64 values:
    [0.5] is a half, [0.4] is [3602879701896397 / 2^53] and [0.1] is
    [3602879701896397 / 2^55]. *)
Definition lit_0_5 : Qc := Q2Qc (1 # 2).
Definition lit_0_4 : Qc := Q2Qc (3602879701896397 # 9007199254740992).
Definition lit_0_1 : Qc := Q2Qc (3602879701896397 # 36028797018963968).

Definition in_unit_interval (x : float64) : Prop :=
  match x with
  | Fin q => (0 <= q)%Qc /\ (q <= 1)%Qc
  | _ => False
  end.

(** [x] is strictly greater than the number [t]. *)
Definition above (x : float64) (t : Qc) : Prop :=
  match x with
  | Fin q => (t < q)%Qc
  | PosInf => True
  | NegInf | NaN => False
  end.

(** ** ids_service/inference.py *)

Module Inference.

(** A value of a feature dictionary: a number (a float, or an int by its
    exact value), or an object that does not convert to a float (a string
    of letters, a list, ...). *)
Inductive cell : Type :=
| Num (x : float64)
| Obj.

(** A feature dictionary, in insertion order. *)
Definition features := list (string * cell).

Definition keys (d : features) : list string := d.*1.

(** A numeric array of shape (rows, columns). *)
Definition matrix := list (list float64).

(** [pd.DataFrame(records)] for records over the same keys: one row per
    record, one column per key, in the order of the dictionary. The scorer
    builds it from one record. *)
Definition DataFrame (records : list features) : list (list cell) :=
  map (fun d => d.*2) records.

(** *** sklearn.preprocessing.StandardScaler

    Library code, embedded from its documentation: [z = (x - u) / s] with
    [u] the mean and [s] the standard deviation of the fitted column;
    "if a variance is zero, we can't achieve unit variance, and the data
    is left as-is, giving a scaling factor of 1"; "NaNs are treated as
    missing values: disregarded in fit, and maintained in transform".
    Input validation converts the frame to an array of doubles: it
    refuses what is not a number, infinities, and arrays with no row or
    no column, and the conversion of an int that is too large for a
    double raises [OverflowError].

    On the one-row frames that the scorer builds, the float operations of
    fit and transform are exact (the sum of one number, a division by 1,
    [x - x]), so computing with the exact values loses nothing there. *)
Section StandardScaler.

(** The square root used for the standard deviation of a column whose
    variance is not zero. *)
Variable sqrt : Qc -> Qc.

Definition check_cell (c : cell) : result float64 :=
  match c with
  | Obj => Raise ValueError
  | Num PosInf | Num NegInf => Raise ValueError
  | Num (Fin q) => if fits_float q then Ok (Fin q) else Raise OverflowError
  | Num NaN => Ok NaN
  end.

Fixpoint check_row (r : list cell) : result (list float64) :=
  match r with
  | [] => Ok []
  | c :: r' => x ← check_cell c; xs ← check_row r'; Ok (x :: xs)
  end.

Fixpoint check_rows (X : list (list cell)) : result matrix :=
  match X with
  | [] => Ok []
  | r :: X' => r1 ← check_row r; rs ← check_rows X'; Ok (r1 :: rs)
  end.

Definition n_features (X : matrix) : nat :=
  match X with
  | [] => 0
  | r :: _ => length r
  end.

Definition check_array (X : list (list cell)) : result matrix :=
  M ← check_rows X;
  if bool_decide (length M = 0%nat) then Raise ValueError
  else if bool_decide (n_features M = 0%nat) then Raise ValueError
  else Ok M.

(** The entries of column [j] that are not NaN. *)
Definition column (X : matrix) (j : nat) : list Qc :=
  omap (fun r => match r !! j with Some (Fin q) => Some q | _ => None end) X.

Definition total (c : list Qc) : Qc := foldr Qcplus 0%Qc c.

Definition count (c : list Qc) : Qc := Q2Qc (inject_Z (Z.of_nat (length c))).

Definition mean (c : list Qc) : Qc := (total c / count c)%Qc.

Definition variance (c : list Qc) : Qc :=
  let u := mean c in
  (total (map (fun x => (x - u) * (x - u)) c) / count c)%Qc.

Definition scale (c : list Qc) : Qc :=
  if decide (variance c = 0%Qc) then 1%Qc else sqrt (variance c).

Record fitted : Type := { mean_ : list Qc; scale_ : list Qc }.

Definition fit (X : matrix) : fitted :=
  let cols := map (column X) (seq 0 (n_features X)) in
  {| mean_ := map mean cols; scale_ := map scale cols |}.

Definition transform_entry (x : float64) (u s : Qc) : float64 :=
  match x with
  | Fin q => Fin ((q - u) / s)%Qc
  | _ => NaN
  end.

Fixpoint transform_row (r : list float64) (us ss : list Qc) : list float64 :=
  match r, us, ss with
  | x :: r', u :: us', s :: ss' => transform_entry x u s :: transform_row r' us' ss'
  | _, _, _ => []
  end.

Definition transform (sc : fitted) (X : matrix) : matrix :=
  map (fun r => transform_row r (mean_ sc) (scale_ sc)) X.

Definition fit_transform (X : list (list cell)) : result matrix :=
  M ← check_array X;
  Ok (transform (fit M) M).

End StandardScaler.

(** *** The model object

    A model is whatever object the caller passes: it may or may not have a
    [predict_proba] method and a [predict] method, and a method may raise.
    Methods are functions of the array they are handed. *)
Record model : Type := {
  predict_proba : option (matrix -> result (list (list float64)));
  predict : option (matrix -> result (list float64))
}.

Section Predict.

Variable sqrt : Qc -> Qc.

(** The [try] block of [predict_handshake]. *)
Definition predict_handshake_try (f : features) (m : model)
  : result (float64 * string) :=
  let feature_df := DataFrame [f] in
  normalized_features ← fit_transform sqrt feature_df;
  anomaly_score ←
    match predict_proba m with
    | Some proba =>
        probabilities ← proba normalized_features;
        row0 ← index probabilities 0;
        if bool_decide (1 < length row0)%nat then index row0 1 else index row0 0
    | None =>
        match predict m with
        | Some pred => labels ← pred normalized_features; index labels 0
        | None => Raise AttributeError
        end
    end;
  let threshold := Fin lit_0_5 in
  let verdict := if float_gt anomaly_score threshold then "suspicious" else "normal" in
  Ok (anomaly_score, verdict).

Definition predict_handshake (f : features) (m : model) : float64 * string :=
  match predict_handshake_try f m with
  | Ok r => r
  | Raise _ => (Fin lit_0_1, "normal")
  end.

(** The [try] block of [predict_file]. *)
Definition predict_file_try (f : features) (m : model)
  : result (float64 * string) :=
  let feature_df := DataFrame [f] in
  normalized_features ← fit_transform sqrt feature_df;
  anomaly_score ←
    match predict_proba m with
    | Some proba =>
        probabilities ← proba normalized_features;
        row0 ← index probabilities 0;
        if bool_decide (1 < length row0)%nat then index row0 1 else index row0 0
    | None =>
        match predict m with
        | Some pred => labels ← pred normalized_features; index labels 0
        | None => Raise AttributeError
        end
    end;
  let threshold := Fin lit_0_4 in
  let verdict := if float_gt anomaly_score threshold then "suspicious" else "normal" in
  Ok (anomaly_score, verdict).

Definition predict_file (f : features) (m : model) : float64 * string :=
  match predict_file_try f m with
  | Ok r => r
  | Raise _ => (Fin lit_0_1, "normal")
  end.

End Predict.

(** The feature names of the two schemas (the columns the training data is
    built with). *)
Definition handshake_schema : list string :=
  ["handshake_duration"; "key_size"; "signature_valid"; "client_entropy";
   "server_entropy"; "retry_count"; "timestamp_hour"; "ip_reputation";
   "geolocation_risk"; "protocol_version"].

Definition file_schema : list string :=
  ["file_size"; "file_entropy"; "file_type_risk"; "encryption_strength";
   "upload_duration"; "compression_ratio"; "metadata_anomaly";
   "transfer_speed"; "packet_loss"; "concurrent_uploads"].

(** A finite number that converts to a double: a finite float, or an int
    below the limit of the conversion. *)
Definition finite_cell (c : cell) : Prop :=
  match c with
  | Num (Fin q) => fits_float q = true
  | _ => False
  end.

(** A finite number of any size: a finite float, or any int. *)
Definition finite_number (c : cell) : Prop :=
  match c with
  | Num (Fin _) => True
  | _ => False
  end.

(** A dictionary conforms to a schema when its keys are the schema's and
    every value is a finite number that converts to a double. *)

Definition conforms (schema : list string) (f : features) : Prop :=
  keys f ≡ₚ schema /\ Forall finite_cell f.*2.

(** The outputs of the model lie in [0,1]: the rows of [predict_proba],
    or the labels of [predict] when the model has no [predict_proba]. *)
Definition outputs_in_unit_interval (m : model) : Prop :=
  match predict_proba m with
  | Some proba => forall X P, proba X = Ok P -> Forall (Forall in_unit_interval) P
  | None => forall pred X L, predict m = Some pred -> pred X = Ok L ->
                             Forall in_unit_interval L
  end.

(** [s] is what the model puts out on the array [X], at the place the
    scorers read: the entry 1 of the first row of [predict_proba] (the
    entry 0 when that row has one entry), or the first label of
    [predict] when the model has no [predict_proba]. *)
Definition model_output (m : model) (X : matrix) (s : float64) : Prop :=
  match predict_proba m with
  | Some proba =>
      exists P row0, proba X = Ok P /\ P !! 0%nat = Some row0 /\
        row0 !! (if bool_decide (1 < length row0)%nat then 1%nat else 0%nat) = Some s
  | None =>
      exists pred L, predict m = Some pred /\ pred X = Ok L /\ L !! 0%nat = Some s
  end.

(** The pair a scorer returns for the score [s] at threshold [t]. *)
Definition scored (s : float64) (t : Qc) : float64 * string :=
  (s, if float_gt s (Fin t) then "suspicious" else "normal").

(** *** Sample inputs *)

Definition num (q : Q) : cell := Num (Fin (Q2Qc q)).

(** Two handshake dictionaries over the same keys, with different values
    and in a different order. *)
Definition quiet_handshake : features :=
  [("handshake_duration", num (3 # 10)); ("key_size", num 128);
   ("signature_valid", num 1); ("client_entropy", num (15 # 2));
   ("server_entropy", num (15 # 2)); ("retry_count", num 0);
   ("timestamp_hour", num 14); ("ip_reputation", num (4 # 5));
   ("geolocation_risk", num (1 # 10)); ("protocol_version", num 2)].

(** The first dictionary with an int of 401 digits as its key size. *)
Definition oversized_handshake : features :=
  [("handshake_duration", num (3 # 10));
   ("key_size", Num (Fin (Q2Qc (inject_Z (10 ^ 400)))));
   ("signature_valid", num 1); ("client_entropy", num (15 # 2));
   ("server_entropy", num (15 # 2)); ("retry_count", num 0);
   ("timestamp_hour", num 14); ("ip_reputation", num (4 # 5));
   ("geolocation_risk", num (1 # 10)); ("protocol_version", num 2)].

Definition noisy_handshake : features :=
  [("key_size", num 32); ("handshake_duration", num 9);
   ("signature_valid", num 0); ("client_entropy", num 2);
   ("server_entropy", num (15 # 2)); ("retry_count", num 12);
   ("timestamp_hour", num 3); ("ip_reputation", num (1 # 100));
   ("geolocation_risk", num (99 # 100)); ("protocol_version", num 1)].

(** A classifier that answers with a probability row chosen by the first
    entry of the row it is given. *)
Definition threshold_classifier : model :=
  {| predict_proba := Some (fun X =>
       match X with
       | (Fin q :: _) :: _ =>
           if decide (q < 1)%Qc
           then Ok [[Fin (Q2Qc (4 # 5)); Fin (Q2Qc (1 # 5))]]
           else Ok [[Fin (Q2Qc (1 # 10)); Fin (Q2Qc (9 # 10))]]
       | _ => Raise ValueError
       end);
     predict := None |}.

(** A classifier that answers 0.9 for a row that holds a NaN and 0.1 for
    any other row. *)
Definition nan_detector : model :=
  {| predict_proba := Some (fun X =>
       match X with
       | row :: _ =>
           if existsb (fun x => match x with NaN => true | _ => false end) row
           then Ok [[Fin (Q2Qc (1 # 10)); Fin (Q2Qc (9 # 10))]]
           else Ok [[Fin (Q2Qc (9 # 10)); Fin (Q2Qc (1 # 10))]]
       | [] => Raise ValueError
       end);
     predict := None |}.

(** An outlier detector: no [predict_proba], and [predict] labels a row
    with 1 (inlier) or -1 (outlier). *)
Definition outlier_detector : model :=
  {| predict_proba := None;
     predict := Some (fun X => Ok (map (fun _ => Fin (Q2Qc (-1))) X)) |}.

(** [None] passed as the model: no method at all. *)
Definition missing_model : model :=
  {| predict_proba := None; predict := None |}.

(** A square root for the scaler: five Newton steps from 1. *)
Definition newton_sqrt (q : Qc) : Qc :=
  Nat.iter 5 (fun x => ((x + q / x) / Q2Qc 2)%Qc) 1%Qc.

End Inference.

(** ** attack_simulator.py *)

Module Simulator.

(** *** Python values that come out of [response.json()]

    A number is kept by its exact value, an int and a finite float
    alike; a number that is not below the limit of [fits_float] is an
    int (a float literal of that size is read as infinity, which has no
    place here, as NaN has none). *)

#[local] Set Warnings "-register-all".
Inductive json : Type :=
| JNull
| JBool (b : bool)
| JNum (q : Qc)
| JStr (s : string)
| JList (l : list json)
| JDict (d : list (string * json)).

Fixpoint assoc (k : string) (d : list (string * json)) : option json :=
  match d with
  | [] => None
  | (k', v) :: d' => if decide (k = k') then Some v else assoc k d'
  end.

(** [v.get(k, default)]: only a dict has the method. *)
Definition get (v : json) (k : string) (dflt : json) : result json :=
  match v with
  | JDict d => Ok (default dflt (assoc k d))
  | _ => Raise AttributeError
  end.

Definition isinstance_dict (v : json) : bool :=
  match v with
  | JDict _ => true
  | _ => false
  end.

(** Truth value of an object in [if v:] and [not v]. *)
Definition truthy (v : json) : bool :=
  match v with
  | JNull => false
  | JBool b => b
  | JNum q => negb (bool_decide (q = 0%Qc))
  | JStr s => negb (bool_decide (s = ""))
  | JList l => negb (bool_decide (l = []))
  | JDict d => negb (bool_decide (d = []))
  end.

(** The number an object counts as in a comparison with a float; [True]
    and [False] are the integers 1 and 0, other objects raise. *)
Definition number (v : json) : result Qc :=
  match v with
  | JNum q => Ok q
  | JBool b => Ok (if b then 1%Qc else 0%Qc)
  | _ => Raise TypeError
  end.

(** [v > lit] and [v <= lit] against a float literal. *)
Definition gt (v : json) (lit : Qc) : result bool :=
  q ← number v; Ok (bool_decide (lit < q)%Qc).

Definition le (v : json) (lit : Qc) : result bool :=
  q ← number v; Ok (bool_decide (q <= lit)%Qc).

(** [f"{v:.2f}"]: formats a float, a bool, and an int after converting it
    to a float, which raises [OverflowError] on an int that is too
    large; raises on anything that is not a number. The text is only
    printed, so the model keeps the success or failure alone. *)
Definition format_2f (v : json) : result unit :=
  q ← number v; if fits_float q then Ok tt else Raise OverflowError.

Definition lower_ascii (c : ascii) : ascii :=
  let n := nat_of_ascii c in
  if (65 <=? n)%nat && (n <=? 90)%nat then ascii_of_nat (n + 32) else c.

Fixpoint lower_string (s : string) : string :=
  match s with
  | EmptyString => EmptyString
  | String c s' => String (lower_ascii c) (lower_string s')
  end.

(** [v.lower()]: only a str has the method. *)
Definition lower (v : json) : result string :=
  match v with
  | JStr s => Ok (lower_string s)
  | _ => Raise AttributeError
  end.

(** [sub in s] on strings. *)
Fixpoint contains (sub s : string) : bool :=
  String.prefix sub s ||
  match s with
  | EmptyString => false
  | String _ s' => contains sub s'
  end.

(** The float literals of the script that are not thresholds of the
    scorer: [0.8] and [0.85] (only used to choose what is printed). *)
Definition lit_0_8 : Qc := Q2Qc (3602879701896397 # 4503599627370496).
Definition lit_0_85 : Qc := Q2Qc (7656119366529843 # 9007199254740992).

(** *** Bytes *)

Abbreviation bytes := (list N).

Definition bytes_of_string (s : string) : bytes :=
  map N_of_ascii (list_ascii_of_string s).

(** [base64.b64encode(data).decode()]. *)
Definition b64_alphabet : list ascii :=
  list_ascii_of_string
    "ABCDEFGHIJKLMNOPQRSTUVWXYZabcdefghijklmnopqrstuvwxyz0123456789+/".

Definition b64_char (n : N) : ascii :=
  nth (N.to_nat n) b64_alphabet "="%char.

Fixpoint b64encode (data : bytes) : string :=
  match data with
  | [] => ""
  | [a] =>
      String (b64_char (N.shiftr a 2))
        (String (b64_char (N.shiftl (N.land a 3) 4)) "==")
  | [a; b] =>
      String (b64_char (N.shiftr a 2))
        (String (b64_char (N.lor (N.shiftl (N.land a 3) 4) (N.shiftr b 4)))
           (String (b64_char (N.shiftl (N.land b 15) 2)) "="))
  | a :: b :: c :: rest =>
      String (b64_char (N.shiftr a 2))
        (String (b64_char (N.lor (N.shiftl (N.land a 3) 4) (N.shiftr b 4)))
           (String (b64_char (N.lor (N.shiftl (N.land b 15) 2) (N.shiftr c 6)))
              (String (b64_char (N.land c 63)) (b64encode rest))))
  end.

(** *** The network, the random source and the script's heap *)

(** The body of an answer: empty; a text that [response.json()] parses,
    kept as the value it parses to; or another text, on which
    [response.json()] raises. *)
Inductive content : Type :=
| NoContent
| JsonText (j : json)
| OtherText (s : string).

Record response : Type := { status_code : Z; body : content }.

(** [response.text], as a truth value. *)
Definition has_text (r : response) : bool :=
  match body r with
  | NoContent => false
  | _ => true
  end.

(** [response.json()]. *)
Definition json_of (r : response) : result json :=
  match body r with
  | JsonText j => Ok j
  | _ => Raise JSONDecodeError
  end.

Inductive payload : Type :=
| JsonBody (j : json)
| FileBody (filename : string) (data : bytes) (content_type : string).

Record request : Type := {
  url : string;
  sent_payload : payload;
  bearer : option json;
  timeout : Z
}.

(** What is outside the script: the configuration read from the process
    environment, the server behind the network (it answers a request, or
    the transport raises, as a function of all requests made so far, the
    current one last), and the bytes [os.urandom] hands out. *)
Record environment : Type := {
  SERVER_URL : string;
  TEST_EMAIL : string;
  TEST_PASSWORD : string;
  network : list request -> result response;
  entropy : nat -> N
}.

(** A [BytesIO] object: its buffer and its read position. *)
Record BytesIO : Type := { buffer : bytes; position : nat }.

(** The counters of the brute-force loop (local variables that the loop
    body and its exception handler both update). *)
Record counters : Type := {
  failed_count : nat;
  success_count : nat;
  suspicious_count : nat
}.

Definition zero : counters :=
  {| failed_count := 0; success_count := 0; suspicious_count := 0 |}.

(** What the script changes as it runs: the requests it has made (oldest
    first), its [BytesIO] objects, how many random bytes it has drawn, and
    the counters. *)
Record world : Type := {
  sent : list request;
  heap : list BytesIO;
  drawn : nat;
  tally : counters
}.

Definition start : world :=
  {| sent := []; heap := []; drawn := 0; tally := zero |}.

(** Computations of the script: they read the environment, change the
    world and return or raise. The world survives an exception. *)
Definition M (A : Type) : Type := environment -> world -> result A * world.

#[global] Instance M_ret : MRet M := fun A a _ w => (Ok a, w).
#[global] Instance M_bind : MBind M := fun A B f m env w =>
  match m env w with
  | (Ok a, w') => f a env w'
  | (Raise e, w') => (Raise e, w')
  end.

Definition lift {A : Type} (r : result A) : M A := fun _ w => (r, w).

Definition ask : M environment := fun env w => (Ok env, w).

(** [try: body  except Exception as e: handler]. *)
Definition try_except {A : Type} (body : M A) (handler : pyexc -> M A) : M A :=
  fun env w =>
    match body env w with
    | (Ok a, w') => (Ok a, w')
    | (Raise e, w') => handler e env w'
    end.

(** [BytesIO(data)]: a new object, read position at the start. *)
Definition new_BytesIO (data : bytes) : M nat := fun _ w =>
  (Ok (length (heap w)),
   {| sent := sent w;
      heap := (heap w ++ [{| buffer := data; position := 0 |}])%list;
      drawn := drawn w;
      tally := tally w |}).

(** [fp.read()]: the bytes from the read position to the end; the
    position moves to the end. *)
Definition read (fp : nat) : M bytes := fun _ w =>
  match heap w !! fp with
  | Some io =>
      (Ok (drop (position io) (buffer io)),
       {| sent := sent w;
          heap := <[fp := {| buffer := buffer io;
                             position := max (position io) (length (buffer io)) |}]> (heap w);
          drawn := drawn w;
          tally := tally w |})
  | None => (Raise ValueError, w)
  end.

(** [os.urandom(n)]. *)
Definition urandom (n : nat) : M bytes := fun env w =>
  (Ok (map (fun i => (entropy env i mod 256)%N) (seq (drawn w) n)),
   {| sent := sent w; heap := heap w; drawn := drawn w + n; tally := tally w |}).

Definition send (rq : request) : M response := fun env w =>
  let log := (sent w ++ [rq])%list in
  (network env log,
   {| sent := log; heap := heap w; drawn := drawn w; tally := tally w |}).

(** [requests.post(url, json=..., headers=..., timeout=...)]. *)
Definition post_json (u : string) (j : json) (token : option json) (t : Z) : M response :=
  send {| url := u; sent_payload := JsonBody j; bearer := token; timeout := t |}.

(** [requests.post(url, files={'file': (name, fp, type)}, ...)]: the
    library builds the multipart body from [fp.read()]. *)
Definition post_files (u : string) (name : string) (fp : nat) (ctype : string)
    (token : option json) (t : Z) : M response :=
  data ← read fp;
  send {| url := u; sent_payload := FileBody name data ctype; bearer := token; timeout := t |}.

(** [response.json() if response.text else {}]. *)
Definition json_or_empty (r : response) : result json :=
  if has_text r then json_of r else Ok (JDict []).

Definition get_auth_token : M json :=
  env ← ask;
  try_except
    (response ← post_json (SERVER_URL env ++ "/auth/login")
                  (JDict [("email", JStr (TEST_EMAIL env));
                          ("password", JStr (TEST_PASSWORD env))])
                  None 5;
     if bool_decide (status_code response = 200%Z) then
       data ← lift (json_of response);
       lift (get data "token" JNull)
     else mret JNull)
    (fun _ => mret JNull).

(** *** TEST 2: tampered ciphertext *)

Definition legitimate_data : bytes :=
  bytes_of_string "This is supposed to be encrypted data with AES-GCM".

(** [for i in idxs: data[i] = data[i] ^ 0xFF] on a bytearray. *)
Fixpoint flip_bytes (data : bytes) (idxs : list nat) : result bytes :=
  match idxs with
  | [] => Ok data
  | i :: idxs' =>
      b ← index data i;
      flip_bytes (<[i := N.lxor b 255]> data) idxs'
  end.

(** [range(lo, hi)]. *)
Definition range (lo hi : nat) : list nat := seq lo (hi - lo).

Definition tampered_upload_demo : M bool :=
  env ← ask;
  token ← get_auth_token;
  if negb (truthy token) then mret false else
  try_except
    (tampered_data ← lift (flip_bytes legitimate_data (range 10 20));
     fp ← new_BytesIO tampered_data;
     response ← post_files (SERVER_URL env ++ "/files/upload")
                  "tampered_file.encrypted" fp "application/octet-stream"
                  (Some token) 10;
     let status := status_code response in
     response_data ← lift (json_or_empty response);
     let passed := bool_decide (status ∈ [400; 403; 500]%Z) in
     if passed then
       error_msg ← lift (get response_data "error" (JStr ""));
       details_msg ← lift (get response_data "details" (JDict []));
       ids_info ← lift (get details_msg "ids" (JDict []));
       anomaly_score ← lift (if isinstance_dict ids_info
                             then get ids_info "anomaly_score" (JNum 0)
                             else Ok (JNum 0));
       flagged ← lift (gt anomaly_score lit_0_5);
       _ ← lift (if (flagged : bool) then format_2f anomaly_score else Ok tt);
       high ← lift (gt anomaly_score lit_0_8);
       _ ← lift (if (high : bool) then format_2f anomaly_score
                 else (moderate ← gt anomaly_score lit_0_5; format_2f anomaly_score));
       mret passed
     else mret passed)
    (fun _ => mret false).

(** *** TEST 3: wrong ECDH key *)

Definition fake_public_key : string :=
  b64encode (bytes_of_string "FAKE_PUBLIC_KEY_INJECTED_BY_ATTACKER").

Definition mitm_wrong_key : M bool :=
  env ← ask;
  token ← get_auth_token;
  if negb (truthy token) then mret false else
  try_except
    (response ← post_json (SERVER_URL env ++ "/handshake/init")
                  (JDict [("publicKey", JStr fake_public_key)]) (Some token) 5;
     let status := status_code response in
     response_data ← lift (json_or_empty response);
     if bool_decide (status = 200%Z) then
       handshake_id ← lift (get response_data "handshakeId" JNull);
       if truthy handshake_id then
         validate_response ← post_json (SERVER_URL env ++ "/handshake/validate")
                               (JDict [("handshakeId", handshake_id)]) (Some token) 5;
         validate_data ← lift (json_or_empty validate_response);
         verified ← lift (get validate_data "verified" (JBool false));
         ids_result ← lift (get validate_data "idsResult" (JDict []));
         anomaly_score ← lift (if isinstance_dict ids_result
                               then get ids_result "anomaly_score" (JNum 0)
                               else Ok (JNum 0));
         _ ← lift (format_2f anomaly_score);
         let passed := negb (truthy verified)
                       || negb (bool_decide (status_code validate_response = 200%Z)) in
         if passed then
           high ← lift (gt anomaly_score lit_0_85);
           _ ← lift (if (high : bool) then format_2f anomaly_score else Ok tt);
           mret passed
         else mret passed
       else mret false
     else mret true)
    (fun _ => mret false).

(** *** Replay *)

Definition test_content : bytes :=
  bytes_of_string "Initial legitimate file upload".

(** The [for i in range(3)] loop over one [replay_files] dictionary, that
    is over one [BytesIO] object [fp]. [Some b]: the function returned [b]
    from inside the loop; [None]: the loop ran to its end. *)
Fixpoint replay_loop (idxs : list nat) (u : string) (fp : nat) (token : json)
  : M (option bool) :=
  match idxs with
  | [] => mret None
  | i :: idxs' =>
      replay_response ← post_files u "replay_attack.txt" fp "text/plain" (Some token) 10;
      replay_data ← lift (json_or_empty replay_response);
      error_msg ← lift (get replay_data "error" (JStr ""));
      lowered ← lift (lower error_msg);
      if contains "replay" lowered || contains "nonce" lowered
      then mret (Some true)
      else replay_loop idxs' u fp token
  end.

Definition replay_attack_demo : M bool :=
  env ← ask;
  token ← get_auth_token;
  if negb (truthy token) then mret false else
  try_except
    (fp0 ← new_BytesIO test_content;
     initial_response ← post_files (SERVER_URL env ++ "/files/upload")
                          "initial_upload.txt" fp0 "text/plain" (Some token) 10;
     fp1 ← new_BytesIO test_content;
     returned ← replay_loop (range 0 3) (SERVER_URL env ++ "/files/upload") fp1 token;
     match returned with
     | Some b => mret b
     | None => mret true
     end)
    (fun _ => mret false).

(** *** Brute force *)

Definition set_tally (c : counters) : M unit := fun _ w =>
  (Ok tt, {| sent := sent w; heap := heap w; drawn := drawn w; tally := c |}).

Definition get_tally : M counters := fun _ w => (Ok (tally w), w).

(** [failed_count += 1], [success_count += 1], [suspicious_count += 1]. *)
Definition incr_failed : M unit :=
  c ← get_tally;
  set_tally {| failed_count := S (failed_count c);
               success_count := success_count c;
               suspicious_count := suspicious_count c |}.

Definition incr_success : M unit :=
  c ← get_tally;
  set_tally {| failed_count := failed_count c;
               success_count := S (success_count c);
               suspicious_count := suspicious_count c |}.

Definition incr_suspicious : M unit :=
  c ← get_tally;
  set_tally {| failed_count := failed_count c;
               success_count := success_count c;
               suspicious_count := S (suspicious_count c) |}.

(** One pass through the body of [for i in range(attempts)]. *)
Definition attempt (token : json) : M unit :=
  env ← ask;
  key ← urandom 32;
  let fake_key := b64encode key in
  try_except
    (response ← post_json (SERVER_URL env ++ "/handshake/init")
                  (JDict [("publicKey", JStr fake_key)]) (Some token) 2;
     if bool_decide (status_code response = 200%Z) then
       data ← lift (json_of response);
       handshake_id ← lift (get data "handshakeId" JNull);
       if truthy handshake_id then
         validate_response ← post_json (SERVER_URL env ++ "/handshake/validate")
                               (JDict [("handshakeId", handshake_id)]) (Some token) 2;
         validate_data ← lift (json_or_empty validate_response);
         ids_result ← lift (if isinstance_dict validate_data
                            then get validate_data "idsResult" (JDict [])
                            else Ok (JDict []));
         anomaly_score ← lift (if isinstance_dict ids_result
                               then get ids_result "anomaly_score" (JNum 0)
                               else Ok (JNum 0));
         flagged ← lift (gt anomaly_score lit_0_5);
         _ ← (if (flagged : bool) then incr_suspicious else mret tt);
         clean ← lift (if bool_decide (status_code validate_response = 200%Z)
                       then le anomaly_score lit_0_5
                       else Ok false);
         if (clean : bool) then incr_success else incr_failed
       else mret tt
     else incr_failed)
    (fun _ => incr_failed).

Fixpoint attempts_loop (idxs : list nat) (token : json) : M unit :=
  match idxs with
  | [] => mret tt
  | i :: idxs' => _ ← attempt token; attempts_loop idxs' token
  end.

(** Python's [float(n)] of a count. *)
Definition float_of_nat (n : nat) : float :=
  PrimFloat.of_uint63 (Uint63.of_Z (Z.of_nat n)).

(** [failed_count > attempts * 0.3], in binary64 arithmetic. *)
Definition many_failures (failed attempts : nat) : bool :=
  PrimFloat.ltb (PrimFloat.mul (float_of_nat attempts) 0x1.3333333333333p-2%float)
                (float_of_nat failed).

Definition bruteforce_handshake (attempts : nat) : M bool :=
  token ← get_auth_token;
  if negb (truthy token) then mret false else
  try_except
    (_ ← set_tally zero;
     _ ← attempts_loop (range 0 attempts) token;
     c ← get_tally;
     let passed := many_failures (failed_count c) attempts
                   || bool_decide (0 < suspicious_count c)%nat in
     mret passed)
    (fun _ => mret false).

(** *** The requests the scenarios make, and what they read in the answers

    Used to state what the scenarios do; the scenarios above do not use
    these definitions. *)

(** The world after more requests have been made. *)
Definition logged (w : world) (rqs : list request) : world :=
  {| sent := (sent w ++ rqs)%list; heap := heap w; drawn := drawn w; tally := tally w |}.

Definition login_request (env : environment) : request :=
  {| url := SERVER_URL env ++ "/auth/login";
     sent_payload := JsonBody (JDict [("email", JStr (TEST_EMAIL env));
                                      ("password", JStr (TEST_PASSWORD env))]);
     bearer := None;
     timeout := 5 |}.

(** The token [get_auth_token] reads in the outcome of the login request. *)
Definition token_in (outcome : result response) : json :=
  match outcome with
  | Ok r =>
      if bool_decide (status_code r = 200%Z) then
        match body r with
        | JsonText (JDict d) => default JNull (assoc "token" d)
        | _ => JNull
        end
      else JNull
  | Raise _ => JNull
  end.

Definition upload_request (env : environment) (token : json)
    (name : string) (data : bytes) (ctype : string) : request :=
  {| url := SERVER_URL env ++ "/files/upload";
     sent_payload := FileBody name data ctype;
     bearer := Some token;
     timeout := 10 |}.

Definition init_request (env : environment) (token : json) (key : bytes) (t : Z) : request :=
  {| url := SERVER_URL env ++ "/handshake/init";
     sent_payload := JsonBody (JDict [("publicKey", JStr (b64encode key))]);
     bearer := Some token;
     timeout := t |}.

Definition validate_request (env : environment) (token : json) (handshake_id : json) (t : Z)
  : request :=
  {| url := SERVER_URL env ++ "/handshake/validate";
     sent_payload := JsonBody (JDict [("handshakeId", handshake_id)]);
     bearer := Some token;
     timeout := t |}.

(** A number that [f"{v:.2f}"] can format: a bool, a float, or an int that
    converts to a float (below [2^1024 - 2^970] in magnitude). *)
Definition is_number (v : json) : Prop :=
  match v with
  | JNum q => fits_float q = true
  | JBool _ => True
  | _ => False
  end.

(** The statuses the tamper scenario counts as a rejection. *)
Definition reject_statuses : list Z := [400; 403; 500]%Z.

(** A body of the upload endpoint that the tamper scenario can read:
    empty, or a JSON object whose [details], when present, is an object,
    and whose [details.ids.anomaly_score], when present, is a number
    that can be formatted. *)
Definition upload_body_readable (c : content) : Prop :=
  match c with
  | NoContent => True
  | JsonText (JDict d) =>
      match default (JDict []) (assoc "details" d) with
      | JDict dd =>
          match default (JDict []) (assoc "ids" dd) with
          | JDict ids => is_number (default (JNum 0) (assoc "anomaly_score" ids))
          | _ => True
          end
      | _ => False
      end
  | _ => False
  end.

(** A body that parses: empty, or JSON. *)
Definition body_parses (c : content) : Prop :=
  match c with
  | OtherText _ => False
  | _ => True
  end.

(** What the forged-key scenario reads in a readable validate body: the
    [verified] field (default [False]). The body is readable when it is
    empty, or a JSON object whose [idsResult], when it is an object,
    holds a number that can be formatted under [anomaly_score] if
    anything. *)
Definition validate_body_readable (c : content) : Prop :=
  match c with
  | NoContent => True
  | JsonText (JDict d) =>
      match default (JDict []) (assoc "idsResult" d) with
      | JDict ids => is_number (default (JNum 0) (assoc "anomaly_score" ids))
      | _ => True
      end
  | _ => False
  end.

Definition verified_in (c : content) : json :=
  match c with
  | JsonText (JDict d) => default (JBool false) (assoc "verified" d)
  | _ => JBool false
  end.

(** The [handshakeId] of an init body, [None] standing for Python's. *)
Definition handshake_id_in (c : content) : json :=
  match c with
  | JsonText (JDict d) => default JNull (assoc "handshakeId" d)
  | _ => JNull
  end.

(** The world after a new [BytesIO] over [data] was created and handed to
    one upload [rq]: the object sits at the end of the heap, read to its
    end. *)
Definition uploaded (w : world) (rq : request) (data : bytes) : world :=
  {| sent := (sent w ++ [rq])%list;
     heap := (heap w ++ [{| buffer := data; position := length data |}])%list;
     drawn := drawn w;
     tally := tally w |}.

(** Flipping the bytes at positions [lo, hi) of a byte string. *)
Definition flipped (lo hi : nat) (data : bytes) : bytes :=
  imap (fun i b => if bool_decide (lo <= i < hi)%nat then N.lxor b 255 else b) data.

Definition is_init (env : environment) (rq : request) : Prop :=
  url rq = SERVER_URL env ++ "/handshake/init".

(** The next [n] bytes of the random source. *)
Definition next_bytes (env : environment) (w : world) (n : nat) : bytes :=
  map (fun i => (entropy env i mod 256)%N) (seq (drawn w) n).

(** The anomaly score the brute-force loop reads in a validate body:
    [idsResult.anomaly_score], 0 when a level is missing or is not an
    object; [None] when reading raises (a body that is not JSON, a score
    that is not a number). *)
Definition score_in (c : content) : option Qc :=
  let read_number (v : json) : option Qc :=
    match v with
    | JNum q => Some q
    | JBool b => Some (if b then 1%Qc else 0%Qc)
    | _ => None
    end in
  match c with
  | NoContent => Some 0%Qc
  | OtherText _ => None
  | JsonText (JDict d) =>
      match default (JDict []) (assoc "idsResult" d) with
      | JDict ids => read_number (default (JNum 0) (assoc "anomaly_score" ids))
      | _ => Some 0%Qc
      end
  | JsonText _ => Some 0%Qc
  end.

(** What one brute-force attempt meets. *)
Inductive observation : Type :=
| TransportError
| InitRejected (status : Z)
| Unreadable
| NoHandshakeId
| Scored (validate_status : Z) (score : Qc).

(** The observation of the attempt made from world [w]. *)
Definition observe (env : environment) (token : json) (w : world) : observation :=
  let rq1 := init_request env token (next_bytes env w 32) 2 in
  match network env (sent w ++ [rq1])%list with
  | Raise _ => TransportError
  | Ok r1 =>
      if bool_decide (status_code r1 = 200%Z) then
        match body r1 with
        | JsonText (JDict d) =>
            let h := default JNull (assoc "handshakeId" d) in
            if truthy h then
              match network env (sent w ++ [rq1; validate_request env token h 2])%list with
              | Raise _ => TransportError
              | Ok r2 =>
                  match score_in (body r2) with
                  | Some s => Scored (status_code r2) s
                  | None => Unreadable
                  end
              end
            else NoHandshakeId
        | _ => Unreadable
        end
      else InitRejected (status_code r1)
  end.

(** What the loop does to its counters on an attempt: suspicious means
    a score above 0.5, success means a 200 validate response with a
    score of at most 0.5, an attempt without handshake id changes no
    counter, and every other attempt is a failure (transport errors,
    rejections, unreadable answers among them). *)
Definition classify (o : observation) (c : counters) : counters :=
  match o with
  | Scored st s =>
      {| failed_count :=
           if bool_decide (st = 200%Z /\ (s <= lit_0_5)%Qc)
           then failed_count c else S (failed_count c);
         success_count :=
           if bool_decide (st = 200%Z /\ (s <= lit_0_5)%Qc)
           then S (success_count c) else success_count c;
         suspicious_count :=
           if bool_decide (lit_0_5 < s)%Qc
           then S (suspicious_count c) else suspicious_count c |}
  | NoHandshakeId => c
  | TransportError | InitRejected _ | Unreadable =>
      {| failed_count := S (failed_count c);
         success_count := success_count c;
         suspicious_count := suspicious_count c |}
  end.

(** The attempts the loop counts in no class: the init request was
    answered with status 200 and a JSON object that holds no handshake
    id (the [if handshake_id:] has no [else]). *)
Definition uncounted (o : observation) : bool :=
  match o with
  | NoHandshakeId => true
  | _ => false
  end.

(** The observations of [n] attempts in a row, from world [w] on. *)
Fixpoint observations (n : nat) (env : environment) (token : json) (w : world)
  : list observation :=
  match n with
  | O => []
  | S n' => observe env token w :: observations n' env token (attempt token env w).2
  end.

(** The keys of [n] attempts in a row. *)
Fixpoint attempt_keys (n : nat) (env : environment) (token : json) (w : world)
  : list bytes :=
  match n with
  | O => []
  | S n' => next_bytes env w 32 :: attempt_keys n' env token (attempt token env w).2
  end.

(** The world after [fp.read()] on the object [io] stored at [fp]. *)
Definition read_to_end (w : world) (fp : nat) (io : BytesIO) : world :=
  {| sent := sent w;
     heap := <[fp := {| buffer := buffer io;
                        position := max (position io) (length (buffer io)) |}]> (heap w);
     drawn := drawn w;
     tally := tally w |}.

(** A replay upload carrying [data]. *)
Definition replay_request (env : environment) (token : json) (data : bytes) : request :=
  upload_request env token "replay_attack.txt" data "text/plain".

Definition forged_key : bytes :=
  bytes_of_string "FAKE_PUBLIC_KEY_INJECTED_BY_ATTACKER".

(** The requests of the forged-key scenario after the login: the init
    request, and the validate request when the init answer has status 200
    and a handshake id. *)
Definition forged_key_requests (env : environment) (token : json) (w : world)
  : list request :=
  let rq1 := init_request env token forged_key 5 in
  match network env (sent w ++ [login_request env; rq1])%list with
  | Ok r1 =>
      if bool_decide (status_code r1 = 200%Z) && truthy (handshake_id_in (body r1))
      then [rq1; validate_request env token (handshake_id_in (body r1)) 5]
      else [rq1]
  | Raise _ => [rq1]
  end.

(** The requests of one brute-force attempt made from world [w]. *)
Definition attempt_requests (env : environment) (token : json) (w : world)
  : list request :=
  let rq1 := init_request env token (next_bytes env w 32) 2 in
  match network env (sent w ++ [rq1])%list with
  | Ok r1 =>
      if bool_decide (status_code r1 = 200%Z) && truthy (handshake_id_in (body r1))
      then [rq1; validate_request env token (handshake_id_in (body r1)) 2]
      else [rq1]
  | Raise _ => [rq1]
  end.

(** The world after one attempt from [w] that made the requests [rqs] and
    left the counters at [c]. *)
Definition attempted (w : world) (rqs : list request) (c : counters) : world :=
  {| sent := (sent w ++ rqs)%list; heap := heap w; drawn := drawn w + 32; tally := c |}.

(** The world after [n] attempts in a row. *)
Fixpoint after_attempts (n : nat) (env : environment) (token : json) (w : world)
  : world :=
  match n with
  | O => w
  | S n' => after_attempts n' env token (attempt token env w).2
  end.

(** The world in which the brute-force loop starts: logged in, counters
    at zero. *)
Definition loop_start (env : environment) (w : world) : world :=
  {| sent := (sent w ++ [login_request env])%list;
     heap := heap w;
     drawn := drawn w;
     tally := zero |}.

#[global] Instance is_init_dec (env : environment) (rq : request)
  : Decision (is_init env rq).
Proof. unfold is_init. apply _. Defined.

(** *** Sample servers *)

Definition answer (status : Z) (c : content) : result response :=
  Ok {| status_code := status; body := c |}.

Definition local_config (net : list request -> result response) : environment :=
  {| SERVER_URL := "http://localhost:5000/api";
     TEST_EMAIL := "test@example.com";
     TEST_PASSWORD := "Test123!@#";
     network := net;
     entropy := fun i => N.of_nat (7 * i + 3) |}.

Definition login_url : string := "http://localhost:5000/api/auth/login".
Definition init_url : string := "http://localhost:5000/api/handshake/init".
Definition validate_url : string := "http://localhost:5000/api/handshake/validate".

Definition grants_token : result response :=
  answer 200 (JsonText (JDict [("token", JStr "eyJhbGciOi")])).

(** Nothing listens: every request ends in a connection error. *)
Definition unreachable : environment :=
  local_config (fun _ => Raise ConnectionError).

(** A server that logs the user in and accepts everything else with an
    empty JSON object. *)
Definition lenient : environment :=
  local_config (fun log =>
    match last log with
    | Some rq =>
        if bool_decide (url rq = login_url) then grants_token
        else answer 200 (JsonText (JDict [("message", JStr "ok")]))
    | None => Raise ConnectionError
    end).

(** A server behind a framework whose error pages are not JSON: upload
    and handshake requests end in a plain-text error. *)
Definition plain_text_errors : environment :=
  local_config (fun log =>
    match last log with
    | Some rq =>
        if bool_decide (url rq = login_url) then grants_token
        else if bool_decide (url rq = init_url)
        then answer 429 (OtherText "Too many requests, please try again later.")
        else answer 500 (OtherText "Internal Server Error")
    | None => Raise ConnectionError
    end).

(** A server that rejects with JSON bodies: uploads with 403 and an IDS
    score, handshake inits with 400, and flags validations as anomalous. *)
Definition strict : environment :=
  local_config (fun log =>
    match last log with
    | Some rq =>
        if bool_decide (url rq = login_url) then grants_token
        else if bool_decide (url rq = init_url)
        then answer 400 (JsonText (JDict [("error", JStr "Invalid public key")]))
        else if bool_decide (url rq = validate_url)
        then answer 403 (JsonText (JDict [("verified", JBool false)]))
        else answer 403 (JsonText (JDict
               [("error", JStr "File rejected");
                ("details", JDict [("ids", JDict [("anomaly_score", JNum (Q2Qc (9 # 10)))])])]))
    | None => Raise ConnectionError
    end).

(** A server that accepts a forged key at init and reports the handshake
    not verified at validate. *)
Definition validates_late : environment :=
  local_config (fun log =>
    match last log with
    | Some rq =>
        if bool_decide (url rq = login_url) then grants_token
        else if bool_decide (url rq = init_url)
        then answer 200 (JsonText (JDict [("handshakeId", JStr "hs-1");
                                          ("serverPublicKey", JStr "BPk")]))
        else if bool_decide (url rq = validate_url)
        then answer 200 (JsonText (JDict
               [("verified", JBool false);
                ("idsResult", JDict [("anomaly_score", JNum (Q2Qc (9 # 10)));
                                     ("verdict", JStr "suspicious")])]))
        else answer 403 NoContent
    | None => Raise ConnectionError
    end).

(** *** The script body ([if __name__ == "__main__":]) *)

(** The list [results] and the summary [(passed, total)] computed from
    it. The body ends after printing the summary. *)
Definition main : M (list (string * bool) * (nat * nat)) :=
  r1 ← tampered_upload_demo;
  r2 ← mitm_wrong_key;
  r3 ← replay_attack_demo;
  r4 ← bruteforce_handshake 50;
  let results := [("MITM Tampered Ciphertext", r1); ("MITM Wrong Key", r2);
                  ("Replay Attack", r3); ("Brute Force Handshake", r4)] in
  let passed := length (filter (fun r => r.2 = true) results) in
  let total := length results in
  mret (results, (passed, total)).

End Simulator.

(** ** Process exit status

    A Python script that runs to its end exits with status 0; one that
    ends on an uncaught exception exits with status 1. *)
Definition exit_status {A : Type} (r : result A) : Z :=
  match r with
  | Ok _ => 0
  | Raise _ => 1
  end.

Definition attack_simulator_py (env : Simulator.environment) : Z :=
  exit_status (Simulator.main env Simulator.start).1.

(** ** run_full_security_tests.py *)

Module Harness.

(** What running [sys.executable script_path] does: the child exits with
    a status after some seconds, never exits, or cannot be started. *)
Inductive child : Type :=
| Exits (seconds : Z) (returncode : Z)
| NeverExits
| CannotStart.

(** [subprocess.run(..., timeout=t).returncode]: the call raises
    [TimeoutExpired] when the child is still running after [t] seconds. *)
Definition subprocess_run (c : child) (t : Z) : result Z :=
  match c with
  | Exits seconds returncode =>
      if bool_decide (t < seconds)%Z then Raise TimeoutExpired else Ok returncode
  | NeverExits => Raise TimeoutExpired
  | CannotStart => Raise OSError
  end.

(** What the operator does at the [input(...)] prompt. *)
Inductive prompt : Type :=
| Enter
| EndOfInput
| CtrlC.

(** The machine the suite runs on. *)
Record host : Type := {
  path_exists : string -> bool;
  operator : prompt;
  program : string -> child
}.

(** How a call of [main] ends. [KeyboardInterrupt] is not an [Exception]
    and has a handler of its own at the bottom of the script. *)
Inductive ending : Type :=
| Return (success : bool)
| KeyboardInterrupt
| Error (e : pyexc).

(** [run_test]: the scripts launched so far are threaded through, the one
    launched here is added last. *)
Definition run_test (h : host) (test_name script_path description : string)
    (launched : list string) : (bool * Z) * list string :=
  let launched' := (launched ++ [script_path])%list in
  match subprocess_run (program h script_path) 300 with
  | Ok returncode => ((bool_decide (returncode = 0%Z), returncode), launched')
  | Raise TimeoutExpired => ((false, (-1)%Z), launched')
  | Raise _ => ((false, (-1)%Z), launched')
  end.

Definition required_scripts : list string :=
  ["client/client.py"; "attack_simulator.py"; "upload_corrupted_file.py"].

Definition check_prerequisites (h : host) : bool :=
  let issues := filter (fun script => path_exists h script = false) required_scripts in
  bool_decide (issues = []).

(** [main], with the list of launched scripts next to its ending. *)
Definition main (h : host) : ending * list string :=
  match operator h with
  | EndOfInput => (Error EOFError, [])
  | CtrlC => (KeyboardInterrupt, [])
  | Enter =>
      if negb (check_prerequisites h) then (Return false, [])
      else
        let test_results := [] in
        let '((passed, code), launched) :=
          run_test h "TEST 1: Normal Secure Upload" "client/client.py"
            "Performs normal secure upload with handshake - should have IDS probability < 0.3"
            [] in
        let test_results :=
          (test_results ++ [("TEST 1: Normal Secure Upload", passed)])%list in
        let '((passed, code), launched) :=
          run_test h "TEST 2-4: MITM & Attack Scenarios" "attack_simulator.py"
            "Simulates MITM attacks (tampered ciphertext, wrong keys), replay, brute force"
            launched in
        let test_results :=
          (test_results ++ [("TEST 2-4: MITM & Attack Scenarios", passed)])%list in
        let '((passed, code), launched) :=
          run_test h "TEST 5-7: Corrupted File Detection" "upload_corrupted_file.py"
            "Tests corrupted PNG, PDF, and other malicious file detection"
            launched in
        let test_results :=
          (test_results ++ [("TEST 5-7: Corrupted File Detection", passed)])%list in
        let passed_count := length (filter (fun r => r.2 = true) test_results) in
        let total_count := length test_results in
        (Return (bool_decide (passed_count = total_count)), launched)
  end.

(** The bottom of the script: [sys.exit(0 if success else 1)], and
    [sys.exit(1)] in both handlers. *)
Definition exit_code (e : ending) : Z :=
  match e with
  | Return success => if success then 0 else 1
  | KeyboardInterrupt => 1
  | Error _ => 1
  end.

Definition run_full_security_tests_py (h : host) : Z := exit_code (main h).1.

(** A script invocation exceeds the ceiling of [t] seconds. *)
Definition exceeds_ceiling (c : child) (t : Z) : Prop :=
  match c with
  | Exits seconds _ => (t < seconds)%Z
  | NeverExits => True
  | CannotStart => False
  end.

(** *** Sample hosts *)

(** A host with every script in place and an operator who presses Enter;
    the attack simulator runs for half a minute against [env], the other
    two scripts exit with status 0. *)
Definition lab (env : Simulator.environment) : host :=
  {| path_exists := fun _ => true;
     operator := Enter;
     program := fun script =>
       if bool_decide (script = "attack_simulator.py")
       then Exits 30 (attack_simulator_py env)
       else Exits 5 0 |}.

(** A host on which the first script, the normal upload, never exits. *)
Definition stalled : host :=
  {| path_exists := fun _ => true;
     operator := Enter;
     program := fun script =>
       if bool_decide (script = "client/client.py") then NeverExits else Exits 5 0 |}.

End Harness.

(** ** Scripts that also use the file system *)

(** A value the input validation of the scaler lets through: NaN, or a
    finite number that converts to a double. *)
Definition passes_validation (x : float64) : Prop :=
  match x with
  | Fin q => fits_float q = true
  | NaN => True
  | PosInf | NegInf => False
  end.

(** What the scaler turns a value of a one-row frame into. *)
Definition scaled_alone (x : float64) : float64 :=
  match x with
  | Fin _ => Fin 0%Qc
  | _ => NaN
  end.

(** The float literals [0.75] and [0.3] of the two scripts below, by
    their exact binary64 values. *)
Definition lit_0_75 : Qc := Q2Qc (3 # 4).
Definition lit_0_3 : Qc := Q2Qc (5404319552844595 # 18014398509481984).

Module Disk.

Import Simulator.

(** What is outside a script: what [attack_simulator.py] has outside it,
    the text [str(e)] of an exception, and what the operating system
    answers when the script creates the directory or the file at a
    path: it lets it, or the call raises (a path it may not write to, a
    medium that is full or read-only, ...). *)
Record setting : Type := {
  base : environment;
  str : pyexc -> string;
  grants : string -> result unit
}.

(** What a script changes: the state of the requests, and the files, by
    path. The files are regular files that the script can examine and
    read; directories are not entries of their own. *)
Record machine : Type := {
  web : world;
  files : gmap string bytes
}.

Definition F (A : Type) : Type := setting -> machine -> result A * machine.

#[global] Instance F_ret : MRet F := fun A a _ d => (Ok a, d).
#[global] Instance F_bind : MBind F := fun A B f m s d =>
  match m s d with
  | (Ok a, d') => f a s d'
  | (Raise e, d') => (Raise e, d')
  end.

Definition pure {A : Type} (r : result A) : F A := fun _ d => (r, d).

Definition setting_of : F setting := fun s d => (Ok s, d).

(** [try: body  except Exception as e: handler], and the bare [except:]. *)
Definition attempt_or {A : Type} (body : F A) (handler : pyexc -> F A) : F A :=
  fun s d =>
    match body s d with
    | (Ok a, d') => (Ok a, d')
    | (Raise e, d') => handler e s d'
    end.

(** A computation of [attack_simulator.py]'s kind, run in this script. *)
Definition online {A : Type} (m : M A) : F A := fun s d =>
  let (r, w) := m (base s) (web d) in
  (r, {| web := w; files := files d |}).

(** [os.path.exists(path)], [Path(path).exists()]. *)
Definition path_exists (path : string) : F bool := fun _ d =>
  (Ok (bool_decide (is_Some (files d !! path))), d).

(** [with open(path, 'rb') as f: ... f.read() ...]. *)
Definition read_file (path : string) : F bytes := fun _ d =>
  match files d !! path with
  | Some data => (Ok data, d)
  | None => (Raise OSError, d)
  end.

(** [Path(path).mkdir(exist_ok=True)]: raises [FileExistsError] (an
    [OSError]) when the path is a regular file, and whatever the
    operating system raises when it refuses to create the directory;
    nothing changes for a directory that is there. *)
Definition mkdir_exist_ok (path : string) : F unit := fun s d =>
  match files d !! path with
  | Some _ => (Raise OSError, d)
  | None => (grants s path, d)
  end.

(** [with open(path, 'wb') as f: f.write(data)]: raises what the
    operating system raises when it refuses the file. *)
Definition write_file (path : string) (data : bytes) : F unit := fun s d =>
  match grants s path with
  | Ok _ => (Ok tt, {| web := web d; files := <[path := data]> (files d) |})
  | Raise e => (Raise e, d)
  end.

(** [os.path.basename(path)], with [/] as the separator. *)
Fixpoint basename (path : string) : string :=
  match path with
  | EmptyString => EmptyString
  | String c rest =>
      if contains "/" rest then basename rest
      else if bool_decide (c = "/"%char) then rest
      else path
  end.

(** [text[:n]]. *)
Definition prefix_of (n : nat) (text : string) : string := String.substring 0 n text.

(** [response.text] of an answer whose body is not JSON. *)
Definition raw_text (r : response) : string :=
  match body r with
  | OtherText text => text
  | _ => ""
  end.

(** The JSON number of an integer. *)
Definition int (z : Z) : json := JNum (Q2Qc (inject_Z z)).

(** [v < lit] against a float literal. *)
Definition lt (v : json) (lit : Qc) : result bool :=
  q ← number v; Ok (bool_decide (q < lit)%Qc).

(** [v == text]. *)
Definition is_text (v : json) (text : string) : bool :=
  match v with
  | JStr s => bool_decide (s = text)
  | _ => false
  end.

(** [v[:n]]: strings and lists can be sliced, the other objects raise. *)
Definition sliced (v : json) : result unit :=
  match v with
  | JStr _ | JList _ => Ok tt
  | _ => Raise TypeError
  end.

Definition begin (w : world) (fs : gmap string bytes) : machine :=
  {| web := w; files := fs |}.

(** The machine after one more request. *)
Definition requested (d : machine) (rq : request) : machine :=
  {| web := logged (web d) [rq]; files := files d |}.

(** A sample [str(e)]: the name of the exception. *)
Definition describe (e : pyexc) : string :=
  match e with
  | AttributeError => "AttributeError"
  | IndexError => "IndexError"
  | TypeError => "TypeError"
  | ValueError => "ValueError"
  | OverflowError => "OverflowError"
  | JSONDecodeError => "JSONDecodeError"
  | ConnectionError => "ConnectionError"
  | ReadTimeout => "ReadTimeout"
  | TimeoutExpired => "TimeoutExpired"
  | OSError => "OSError"
  | EOFError => "EOFError"
  | RuntimeError msg => msg
  end.

(** A sample setting: every directory and file can be created. *)
Definition against (env : environment) : setting :=
  {| base := env; str := describe; grants := fun _ => Ok tt |}.

(** A sample setting in which nothing can be created. *)
Definition read_only (env : environment) : setting :=
  {| base := env; str := describe; grants := fun _ => Raise OSError |}.

End Disk.

(** ** upload_corrupted_file.py *)

Module Corrupted.

Import Simulator.
Import Disk.

Definition TEST_FILES_DIR : string := "test_files".

(** [TEST_FILES_DIR / name], as a string. *)
Definition in_test_files (name : string) : string := TEST_FILES_DIR ++ "/" ++ name.

(** The script has its own copy of [get_auth_token], the same text. *)
Definition get_auth_token : F json := online Simulator.get_auth_token.

Definition upload_file (filepath : string) (token : json) (expected_rejection : bool)
  : F (bool * json) :=
  s ← setting_of;
  present ← path_exists filepath;
  if negb (present : bool) then mret (false, JDict [("error", JStr "File not found")]) else
  attempt_or
    (let filename := basename filepath in
     content ← read_file filepath;
     response ← online (send {| url := SERVER_URL (base s) ++ "/files/upload";
                                sent_payload := FileBody filename content
                                                  "application/octet-stream";
                                bearer := Some token;
                                timeout := 10 |});
     let status := status_code response in
     let response_data :=
       match json_or_empty response with
       | Ok data => data
       | Raise _ => JDict [("raw_response", JStr (prefix_of 200 (raw_text response)))]
       end in
     details ← pure (get response_data "details" (JDict []));
     ids_info ← pure (get details "ids" (JDict []));
     validation_info ← pure (get details "validation" (JDict []));
     anomaly_score ← pure (if isinstance_dict ids_info
                           then get ids_info "anomaly_score" (JNum 0)
                           else if isinstance_dict validation_info
                           then get validation_info "risk_score" (JNum 0)
                           else Ok (JNum 0));
     verdict ← pure (get response_data "status" (JStr ""));
     error_msg ← pure (get response_data "error" (JStr ""));
     if expected_rejection then
       let passed := bool_decide (status ∈ [400; 403]%Z) in
       if passed then
         let result_details :=
           JDict [("status", int status); ("anomaly_score", anomaly_score);
                  ("verdict", verdict); ("error", error_msg)] in
         _ ← pure (format_2f anomaly_score);
         high ← pure (gt anomaly_score lit_0_75);
         _ ← pure (if (high : bool) then Ok true else gt anomaly_score lit_0_5);
         lowered ← pure (lower error_msg);
         _ ← pure (if is_text verdict "corrupted" then Ok "" else lower verdict);
         mret (true, result_details)
       else
         mret (false,
               JDict [("status", int status);
                      ("error", JStr "File was accepted but should have been rejected")])
     else
       let passed := bool_decide (status = 200%Z) in
       let result_details :=
         JDict [("status", int status); ("anomaly_score", anomaly_score)] in
       if passed then
         _ ← pure (format_2f anomaly_score);
         low ← pure (lt anomaly_score lit_0_3);
         mret (passed, result_details)
       else mret (passed, result_details))
    (fun e => mret (false, JDict [("error", JStr (str s e))])).

(** The request [upload_file] makes for a file with the given content. *)
Definition upload_request (s : setting) (token : json) (filepath : string)
    (content : bytes) : request :=
  {| url := SERVER_URL (base s) ++ "/files/upload";
     sent_payload := FileBody (basename filepath) content "application/octet-stream";
     bearer := Some token;
     timeout := 10 |}.

(** The loop of [test_corrupted_png] over the candidate files: the first
    one that exists is uploaded and decides. *)
Fixpoint first_candidate (candidates : list string) (token : json) : F (bool * json) :=
  match candidates with
  | [] => mret (false, JDict [("error", JStr "File not found")])
  | filepath :: rest =>
      present ← path_exists filepath;
      if (present : bool) then
        outcome ← upload_file filepath token true;
        if (outcome.1 : bool) then
          score ← pure (get outcome.2 "anomaly_score" (JNum 0));
          _ ← pure (format_2f score);
          mret (true, outcome.2)
        else
          _ ← pure (get outcome.2 "error" (JStr "Unknown error"));
          mret (false, outcome.2)
      else first_candidate rest token
  end.

Definition test_corrupted_png (token : json) : F (bool * json) :=
  if negb (truthy token) then mret (false, JDict []) else
  first_candidate [in_test_files "corrupted_png.png";
                   in_test_files "corrupted_image.jpg"] token.

(** [b"%PDF-1.4\n" + b"\x00" * 500 + b"Invalid PDF content without proper
    structure"]. *)
Definition corrupted_data : bytes :=
  (bytes_of_string "%PDF-1.4" ++ [10%N] ++ replicate 500 0%N
   ++ bytes_of_string "Invalid PDF content without proper structure")%list.

Definition test_corrupted_pdf (token : json) : F (bool * json) :=
  if negb (truthy token) then mret (false, JDict []) else
  let corrupted_pdf := in_test_files "corrupted_document.pdf" in
  present ← path_exists corrupted_pdf;
  _ ← (if (present : bool) then mret tt
       else (_ ← mkdir_exist_ok TEST_FILES_DIR;
             write_file corrupted_pdf corrupted_data));
  outcome ← upload_file corrupted_pdf token true;
  if (outcome.1 : bool) then
    score ← pure (get outcome.2 "anomaly_score" (JNum 0));
    _ ← pure (format_2f score);
    mret outcome
  else
    _ ← pure (get outcome.2 "error" (JStr "Unknown error"));
    mret outcome.

(** The PDF fixture is in place, or can be put there: no regular file
    sits at [test_files], and the operating system lets the script
    create the directory and the file. *)
Definition fixture_ready (s : setting) (d : machine) : bool :=
  bool_decide (is_Some (files d !! in_test_files "corrupted_document.pdf"))
  || (bool_decide (files d !! TEST_FILES_DIR = None)
      && returns (grants s TEST_FILES_DIR)
      && returns (grants s (in_test_files "corrupted_document.pdf"))).

(** One of the three optional files of [test_other_corrupted_files]: when
    it exists it is uploaded and its result is appended. *)
Definition optional_upload (label name : string) (token : json)
    (results : list (string * bool)) : F (list (string * bool)) :=
  present ← path_exists (in_test_files name);
  if (present : bool) then
    outcome ← upload_file (in_test_files name) token true;
    mret (results ++ [(label, outcome.1)])%list
  else mret results.

Definition test_other_corrupted_files (token : json) : F bool :=
  if negb (truthy token) then mret false else
  let results := [] in
  results ← optional_upload "Excessive Nulls" "excessive_nulls.bin" token results;
  results ← optional_upload "Repeated Pattern" "repeated_pattern.bin" token results;
  results ← optional_upload "Suspicious Encrypted" "suspicious_encrypted.bin" token results;
  if bool_decide (results = []) then mret false else
  let passed_count := length (filter (fun r => r.2 = true) results) in
  let total_count := length results in
  mret (bool_decide (passed_count = total_count)).

(** How the script body ends: on [exit(1)], or at its last line with the
    list [results]. *)
Inductive ending : Type :=
| Exit (code : Z)
| Done (results : list (string * bool)).

Definition main : F ending :=
  token ← get_auth_token;
  if negb (truthy token) then mret (Exit 1) else
  let results := [] in
  png ← test_corrupted_png token;
  let results := (results ++ [("Corrupted PNG", png.1)])%list in
  pdf ← test_corrupted_pdf token;
  let results := (results ++ [("Corrupted PDF", pdf.1)])%list in
  result_other ← test_other_corrupted_files token;
  let results := (results ++ [("Other Corrupted Files", result_other)])%list in
  mret (Done results).

(** A sample directory: a PNG file cut after its signature. *)
Definition fixtures : gmap string bytes :=
  {[ "test_files/corrupted_png.png" := [137; 80; 78; 71; 13; 10; 26; 10]%N ]}.

(** The exit status of the process. *)
Definition upload_corrupted_file_py (s : setting) (d : machine) : Z :=
  match (main s d).1 with
  | Ok (Exit code) => code
  | Ok (Done _) => 0
  | Raise _ => 1
  end.

End Corrupted.

(** ** client/client.py *)

Module Client.

Import Simulator.
Import Disk.

(** The script has its own copy of [get_auth_token], the same text. *)
Definition get_auth_token : F json := online Simulator.get_auth_token.

(** [None], or the dict of the handshake. *)
Definition perform_normal_handshake (token : json) : F json :=
  s ← setting_of;
  attempt_or
    (key ← online (urandom 32);
     let valid_public_key := b64encode key in
     init_response ← online (post_json (SERVER_URL (base s) ++ "/handshake/init")
                               (JDict [("publicKey", JStr valid_public_key)])
                               (Some token) 5);
     if negb (bool_decide (status_code init_response = 200%Z)) then mret JNull else
     init_data ← pure (json_of init_response);
     handshake_id ← pure (get init_data "handshakeId" JNull);
     server_public_key ← pure (get init_data "serverPublicKey" JNull);
     _ ← pure (sliced handshake_id);
     validate_response ← online (post_json (SERVER_URL (base s) ++ "/handshake/validate")
                                   (JDict [("handshakeId", handshake_id)])
                                   (Some token) 5);
     if negb (bool_decide (status_code validate_response = 200%Z)) then mret JNull else
     validate_data ← pure (json_of validate_response);
     verified ← pure (get validate_data "verified" (JBool false));
     session_key ← pure (get validate_data "sessionKey" JNull);
     ids_result ← pure (get validate_data "idsResult" (JDict []));
     anomaly_score ← pure (if isinstance_dict ids_result
                           then get ids_result "anomaly_score" (JNum 0)
                           else Ok (JNum 0));
     verdict ← pure (if isinstance_dict ids_result
                     then get ids_result "verdict" (JStr "unknown")
                     else Ok (JStr "unknown"));
     _ ← pure (format_2f anomaly_score);
     mret (JDict [("handshake_id", handshake_id); ("session_key", session_key);
                  ("verified", verified); ("ids_result", ids_result)]))
    (fun _ => mret JNull).

(** [b"This is a normal secure file upload test. " * 10]. *)
Definition default_content : bytes :=
  mjoin (replicate 10 (bytes_of_string "This is a normal secure file upload test. ")).

Definition upload_file_securely (token : json) (filepath : option string)
    (content : option bytes) (filename : string) : F (bool * json) :=
  s ← setting_of;
  attempt_or
    (content ← match content with
               | Some data => mret data
               | None =>
                   match filepath with
                   | Some path =>
                       present ← (if bool_decide (path = "") then mret false
                                  else path_exists path);
                       if (present : bool) then read_file path else mret default_content
                   | None => mret default_content
                   end
               end;
     response ← online (fp ← new_BytesIO content;
                        post_files (SERVER_URL (base s) ++ "/files/upload") filename fp
                          "text/plain" (Some token) 10);
     let status := status_code response in
     let response_data :=
       match json_or_empty response with
       | Ok data => data
       | Raise _ => JDict [("raw_response", JStr (prefix_of 200 (raw_text response)))]
       end in
     if bool_decide (status = 200%Z) then
       details ← pure (get response_data "details" (JDict []));
       anomaly_score ← pure (if isinstance_dict details
                             then get details "anomaly_score" (JNum 0)
                             else Ok (JNum 0));
       verdict ← pure (if isinstance_dict details
                       then get details "verdict" (JStr "normal")
                       else Ok (JStr "normal"));
       _ ← pure (format_2f anomaly_score);
       low ← pure (lt anomaly_score lit_0_3);
       if (low : bool) then
         mret (true, JDict [("status", JStr "success"); ("anomaly_score", anomaly_score);
                            ("verdict", verdict)])
       else
         moderate ← pure (lt anomaly_score lit_0_5);
         if (moderate : bool) then
           mret (true, JDict [("status", JStr "success"); ("anomaly_score", anomaly_score);
                              ("verdict", verdict);
                              ("warning", JStr "Moderate IDS score")])
         else
           mret (true, JDict [("status", JStr "success"); ("anomaly_score", anomaly_score);
                              ("verdict", verdict);
                              ("warning", JStr "High IDS score for normal file")])
     else
       error_msg ← pure (get response_data "error" (JStr "Unknown error"));
       mret (false, JDict [("status", JStr "failed"); ("status_code", int status);
                           ("error", error_msg)]))
    (fun e => mret (false, JDict [("error", JStr (str s e))])).

Definition main : F bool :=
  token ← get_auth_token;
  if negb (truthy token) then mret false else
  handshake_result ← perform_normal_handshake token;
  verified ← (if truthy handshake_result
              then pure (get handshake_result "verified" JNull)
              else mret JNull);
  if negb (truthy handshake_result) || negb (truthy verified) then mret false else
  ids_result ← pure (get handshake_result "ids_result" (JDict []));
  handshake_anomaly ← pure (if isinstance_dict ids_result
                            then get ids_result "anomaly_score" (JNum 0)
                            else Ok (JNum 0));
  low ← pure (lt handshake_anomaly lit_0_3);
  _ ← pure (format_2f handshake_anomaly);
  outcome ← upload_file_securely token None None "test_secure.txt";
  if (outcome.1 : bool) then
    anomaly_score ← pure (get outcome.2 "anomaly_score" (JNum 0));
    _ ← pure (format_2f handshake_anomaly);
    _ ← pure (format_2f anomaly_score);
    low ← pure (lt handshake_anomaly lit_0_3);
    _ ← pure (if (low : bool) then lt anomaly_score lit_0_3 else Ok false);
    mret true
  else
    _ ← pure (get outcome.2 "error" (JStr "Unknown error"));
    mret false.

(** [success = main(); exit(0 if success else 1)]. *)
Definition client_py (s : setting) (d : machine) : Z :=
  match (main s d).1 with
  | Ok true => 0
  | Ok false => 1
  | Raise _ => 1
  end.

End Client.

(** ** test_server_connection.py *)

Module Connection.

Import Simulator.

Definition test_urls : list string :=
  ["http://localhost:5000/api/health";
   "http://127.0.0.1:5000/api/health";
   "http://localhost:5000/health";
   "http://127.0.0.1:5000/health"].

(** The [for] loop over the URLs. [get] is the server side of
    [requests.get(url, timeout=5)]: it answers, or the transport raises,
    as a function of the URLs requested so far (the current one last).
    The loop returns [found] and the URLs it has requested. *)
Fixpoint probe (get : list string -> result response) (tried urls : list string)
  : bool * list string :=
  match urls with
  | [] => (false, tried)
  | url :: rest =>
      let tried := (tried ++ [url])%list in
      match get tried with
      | Ok response =>
          if bool_decide (status_code response = 200%Z) then (true, tried)
          else probe get tried rest
      | Raise _ => probe get tried rest
      end
  end.

Definition test_connection (get : list string -> result response) : bool * list string :=
  probe get [] test_urls.

(** [success = test_connection(); sys.exit(0 if success else 1)]. *)
Definition test_server_connection_py (get : list string -> result response) : Z :=
  if (test_connection get).1 then 0 else 1.

(** The answer to the request for [tried] is a 200. *)
Definition answers_200 (get : list string -> result response) (tried : list string) : Prop :=
  exists response, get tried = Ok response /\ status_code response = 200%Z.

(** Sample hosts: nothing listens; the server listens on 127.0.0.1 only. *)
Definition down : list string -> result response := fun _ => Raise ConnectionError.

Definition loopback_only : list string -> result response := fun tried =>
  match last tried with
  | Some "http://127.0.0.1:5000/api/health" => answer 200 (OtherText "OK")
  | Some "http://127.0.0.1:5000/health" => answer 404 (OtherText "Not Found")
  | _ => Raise ConnectionError
  end.

End Connection.

(** ** Further sample servers and hosts *)

(** A server that logs the user in, stores the first upload and answers
    every later request with a replay error. *)
Definition detects_replay : Simulator.environment :=
  Simulator.local_config (fun log =>
    match log with
    | [_] => Simulator.grants_token
    | [_; _] => Simulator.answer 200
                  (Simulator.JsonText
                     (Simulator.JDict [("message", Simulator.JStr "stored")]))
    | _ => Simulator.answer 409
             (Simulator.JsonText
                (Simulator.JDict
                   [("error", Simulator.JStr "Replay detected: NONCE reuse")]))
    end).

(** A server that logs the user in and refuses everything else with a
    plain-text page. *)
Definition refuses_in_plain_text : Simulator.environment :=
  Simulator.local_config (fun log =>
    match last log with
    | Some rq =>
        if bool_decide (Simulator.url rq = Simulator.login_url)
        then Simulator.grants_token
        else Simulator.answer 403 (Simulator.OtherText "Forbidden")
    | None => Raise ConnectionError
    end).

(** A server that accepts everything and reports an anomaly score of 0.97
    for each upload. *)
Definition accepts_with_high_score : Simulator.environment :=
  Simulator.local_config (fun log =>
    match last log with
    | Some rq =>
        if bool_decide (Simulator.url rq = Simulator.login_url)
        then Simulator.grants_token
        else Simulator.answer 200
               (Simulator.JsonText
                  (Simulator.JDict
                     [("message", Simulator.JStr "File uploaded");
                      ("details",
                       Simulator.JDict
                         [("anomaly_score", Simulator.JNum (Q2Qc (97 # 100)));
                          ("verdict", Simulator.JStr "suspicious")])]))
    | None => Raise ConnectionError
    end).

(** A host whose operator leaves the prompt with Ctrl-C. *)
Definition unattended : Harness.host :=
  {| Harness.path_exists := fun _ => true;
     Harness.operator := Harness.CtrlC;
     Harness.program := fun _ => Harness.Exits 5 0 |}.

(** * Properties *)

(** ** The scorer *)

Section InferenceFacts.

Import Inference.

Variable sqrt : Qc -> Qc.

Lemma float_gt_above (x : float64) (t : Qc) :
  float_gt x (Fin t) = true <-> above x t.
Proof.
  destruct x; simpl; try (split; [discriminate | contradiction]).
  - apply bool_decide_eq_true.
  - split; auto.
Qed.

Lemma count_one (q : Qc) : count [q] = 1%Qc.
Proof. apply Qc_is_canon. reflexivity. Qed.

Lemma mean_one (q : Qc) : mean [q] = q.
Proof.
  unfold mean, total. rewrite count_one. cbn [foldr].
  field. apply Q_apart_0_1.
Qed.

Lemma variance_one (q : Qc) : variance [q] = 0%Qc.
Proof.
  unfold variance, total. rewrite mean_one, count_one. cbn [foldr map].
  field. apply Q_apart_0_1.
Qed.

Lemma scale_one (q : Qc) : scale sqrt [q] = 1%Qc.
Proof. unfold scale. rewrite variance_one. reflexivity. Qed.

(** A row of finite numbers that convert passes the input validation
    unchanged. *)
Lemma check_row_finite (qs : list Qc) :
  Forall (fun q => fits_float q = true) qs ->
  check_row (map (fun q => Num (Fin q)) qs) = Ok (map Fin qs).
Proof.
  induction 1 as [|q qs Hq _ IH]; [reflexivity|].
  cbn [map check_row check_cell]. rewrite Hq, IH. reflexivity.
Qed.

Lemma check_array_finite (qs : list Qc) :
  Forall (fun q => fits_float q = true) qs ->
  qs <> [] ->
  check_array [map (fun q => Num (Fin q)) qs] = Ok [map Fin qs].
Proof.
  intros Hfit Hq. unfold check_array. cbn [check_rows].
  rewrite check_row_finite by exact Hfit. cbn [mbind result_bind length n_features].
  rewrite bool_decide_eq_false_2 by discriminate.
  rewrite bool_decide_eq_false_2; [reflexivity|].
  rewrite length_map. destruct qs; [congruence | discriminate].
Qed.

Lemma finite_cells (cs : list cell) :
  Forall finite_cell cs ->
  exists qs, cs = map (fun q => Num (Fin q)) qs /\
             Forall (fun q => fits_float q = true) qs.
Proof.
  induction 1 as [|c cs Hc _ (qs & -> & Hqs)]; [exists []; split; [reflexivity | constructor]|].
  destruct c as [[q| | |]|]; try contradiction.
  exists (q :: qs). split; [reflexivity | constructor; assumption].
Qed.

(** The columns of a one-row array are the singletons of its entries. *)
Lemma columns_one_row (qs : list Qc) :
  map (column [map Fin qs]) (seq 0 (length qs)) = map (fun q => [q]) qs.
Proof.
  induction qs as [|q qs IH]; [reflexivity|].
  simpl. f_equal. rewrite <- fmap_S_seq, <- IH.
  rewrite <- list_fmap_compose. reflexivity.
Qed.

Lemma transform_one_row (qs : list Qc) :
  transform_row (map Fin qs) (map mean (map (fun q => [q]) qs))
    (map (scale sqrt) (map (fun q => [q]) qs))
  = replicate (length qs) (Fin 0%Qc).
Proof.
  induction qs as [|q qs IH]; [reflexivity|].
  cbn [map length replicate transform_row transform_entry].
  rewrite IH, mean_one, scale_one. do 2 f_equal. field. apply Q_apart_0_1.
Qed.

(** Fitting the scaler on one row of finite numbers and transforming
    that row gives the zero row. *)
Lemma fit_transform_one_row (f : features) :
  Forall finite_cell f.*2 -> f <> [] ->
  fit_transform sqrt (DataFrame [f]) = Ok [replicate (length f) (Fin 0%Qc)].
Proof.
  intros Hfin Hne. destruct (finite_cells _ Hfin) as (qs & Hqs & Hfit).
  assert (Hlen : length qs = length f).
  { pose proof (f_equal length Hqs) as Hl.
    rewrite length_fmap, length_map in Hl. congruence. }
  assert (Hq : qs <> []) by (intros ->; destruct f; [congruence | discriminate]).
  unfold fit_transform, DataFrame. cbn [map]. rewrite Hqs, (check_array_finite qs Hfit Hq).
  unfold transform, fit. cbn [mbind result_bind map mean_ scale_ n_features].
  rewrite length_map, columns_one_row, transform_one_row, Hlen. reflexivity.
Qed.

Lemma fit_transform_empty :
  fit_transform sqrt (DataFrame [[]]) = Raise ValueError.
Proof. reflexivity. Qed.

(** Two dictionaries over the same keys have as many entries. *)
Lemma same_keys_length (f1 f2 : features) :
  NoDup (keys f1) -> NoDup (keys f2) ->
  keys f1 ⊆ keys f2 -> keys f2 ⊆ keys f1 ->
  length f1 = length f2.
Proof.
  intros N1 N2 S12 S21.
  assert (P : keys f1 ≡ₚ keys f2).
  { apply NoDup_Permutation; [assumption..|]. intros k. split; [apply S12 | apply S21]. }
  apply Permutation_length in P. unfold keys in P.
  rewrite !length_fmap in P. exact P.
Qed.

Lemma fit_transform_same (f1 f2 : features) :
  NoDup (keys f1) -> NoDup (keys f2) ->
  keys f1 ⊆ keys f2 -> keys f2 ⊆ keys f1 ->
  Forall finite_cell f1.*2 -> Forall finite_cell f2.*2 ->
  fit_transform sqrt (DataFrame [f1]) = fit_transform sqrt (DataFrame [f2]).
Proof.
  intros N1 N2 S12 S21 F1 F2.
  pose proof (same_keys_length f1 f2 N1 N2 S12 S21) as Hlen.
  destruct f1 as [|e1 f1].
  - destruct f2; [reflexivity | discriminate].
  - destruct f2 as [|e2 f2]; [discriminate|].
    rewrite !fit_transform_one_row by (assumption || discriminate).
    rewrite Hlen. reflexivity.
Qed.

(** C1, as the code has it. Two feature dictionaries over the same keys,
    with finite numeric values that convert to a double (finite floats,
    and ints below [2^1024 - 2^970] in magnitude), get the same
    (anomaly_score, verdict) pair from [predict_handshake], and from
    [predict_file], whatever the model: the scaler is fit on the one
    row built from the request, so the array handed to the model is
    the zero row whatever the values. *)
Theorem same_keys_same_prediction (m : model) (f1 f2 : features) :
  NoDup (keys f1) -> NoDup (keys f2) ->
  keys f1 ⊆ keys f2 -> keys f2 ⊆ keys f1 ->
  Forall finite_cell f1.*2 -> Forall finite_cell f2.*2 ->
  (f1 <> [] ->
     fit_transform sqrt (DataFrame [f1]) = Ok [replicate (length f1) (Fin 0%Qc)] /\
     fit_transform sqrt (DataFrame [f2]) = Ok [replicate (length f1) (Fin 0%Qc)]) /\
  predict_handshake sqrt f1 m = predict_handshake sqrt f2 m /\
  predict_file sqrt f1 m = predict_file sqrt f2 m.
Proof.
  intros N1 N2 S12 S21 F1 F2.
  pose proof (fit_transform_same f1 f2 N1 N2 S12 S21 F1 F2) as Heq.
  split; [|split].
  - intros Hne. rewrite <- Heq. split; apply fit_transform_one_row; assumption.
  - unfold predict_handshake, predict_handshake_try. cbv zeta. rewrite Heq. reflexivity.
  - unfold predict_file, predict_file_try. cbv zeta. rewrite Heq. reflexivity.
Qed.

Lemma verdict_cases (s : float64) (t : Qc) (v : string) :
  v = (if float_gt s (Fin t) then "suspicious" else "normal") ->
  (v = "suspicious" <-> above s t) /\ (v = "normal" <-> ~ above s t).
Proof.
  intros ->. rewrite <- float_gt_above.
  destruct (float_gt s (Fin t)); split; split; intros H;
    solve [reflexivity | discriminate | exfalso; apply H; reflexivity].
Qed.

Lemma predict_handshake_verdict (f : features) (m : model) :
  (predict_handshake sqrt f m).2 =
  if float_gt (predict_handshake sqrt f m).1 (Fin lit_0_5)
  then "suspicious" else "normal".
Proof.
  unfold predict_handshake, predict_handshake_try. cbv zeta.
  destruct (fit_transform sqrt (DataFrame [f])) as [X|]; [|reflexivity].
  cbn [mbind result_bind].
  match goal with |- context [mbind _ ?c] => destruct c as [a|] end; reflexivity.
Qed.

Lemma predict_file_verdict (f : features) (m : model) :
  (predict_file sqrt f m).2 =
  if float_gt (predict_file sqrt f m).1 (Fin lit_0_4)
  then "suspicious" else "normal".
Proof.
  unfold predict_file, predict_file_try. cbv zeta.
  destruct (fit_transform sqrt (DataFrame [f])) as [X|]; [|reflexivity].
  cbn [mbind result_bind].
  match goal with |- context [mbind _ ?c] => destruct c as [a|] end; reflexivity.
Qed.

(** C2. The verdict of [predict_handshake] is "suspicious" exactly when
    the returned score is strictly greater than 0.5 and "normal"
    otherwise; for [predict_file] the threshold is 0.4. *)
Theorem verdict_is_threshold (f : features) (m : model) :
  ((predict_handshake sqrt f m).2 = "suspicious"
     <-> above (predict_handshake sqrt f m).1 lit_0_5) /\
  ((predict_handshake sqrt f m).2 = "normal"
     <-> ~ above (predict_handshake sqrt f m).1 lit_0_5) /\
  ((predict_file sqrt f m).2 = "suspicious"
     <-> above (predict_file sqrt f m).1 lit_0_4) /\
  ((predict_file sqrt f m).2 = "normal"
     <-> ~ above (predict_file sqrt f m).1 lit_0_4).
Proof.
  pose proof (verdict_cases _ _ _ (predict_handshake_verdict f m)) as [H1 H2].
  pose proof (verdict_cases _ _ _ (predict_file_verdict f m)) as [H3 H4].
  tauto.
Qed.

Lemma check_row_Obj (r : list cell) :
  Obj ∈ r -> exists e, check_row r = Raise e.
Proof.
  induction r as [|c r IH]; intros H; [inversion H|].
  cbn [check_row].
  destruct (check_cell c) as [x|e] eqn:Hc; [|cbn; eauto].
  apply elem_of_cons in H as [<-|H]; [discriminate Hc|].
  destruct (IH H) as [e ->]. cbn. eauto.
Qed.

(** What the try blocks raise on: a dictionary with a value that is not a
    number, an empty dictionary, a model without [predict_proba] and
    without [predict]. *)
Lemma failures_raise (f : features) (m : model) :
  Obj ∈ f.*2 \/ f = [] \/ (predict_proba m = None /\ predict m = None) ->
  (exists e, predict_handshake_try sqrt f m = Raise e) /\
  (exists e, predict_file_try sqrt f m = Raise e).
Proof.
  intros H. unfold predict_handshake_try, predict_file_try. cbv zeta.
  destruct H as [H|[->|[Hp Hq]]].
  - unfold fit_transform, check_array, DataFrame. cbn [map check_rows].
    destruct (check_row_Obj _ H) as [e ->]. cbn. eauto.
  - cbn. eauto.
  - destruct (fit_transform sqrt (DataFrame [f])) as [X|e]; [|cbn; eauto].
    rewrite Hp, Hq. cbn. eauto.
Qed.

(** C3. When anything raises inside the prediction (no usable model,
    features the scaler refuses, a method of the model raising), the
    exception stays inside: [predict_handshake] and [predict_file]
    return the pair (0.1, "normal"). *)
Theorem failure_returns_safe_default (f : features) (m : model) :
  ((exists e, predict_handshake_try sqrt f m = Raise e) ->
     predict_handshake sqrt f m = (Fin lit_0_1, "normal")) /\
  ((exists e, predict_file_try sqrt f m = Raise e) ->
     predict_file sqrt f m = (Fin lit_0_1, "normal")) /\
  (Obj ∈ f.*2 \/ f = [] \/ (predict_proba m = None /\ predict m = None) ->
     predict_handshake sqrt f m = (Fin lit_0_1, "normal") /\
     predict_file sqrt f m = (Fin lit_0_1, "normal")).
Proof.
  assert (H1 : (exists e, predict_handshake_try sqrt f m = Raise e) ->
               predict_handshake sqrt f m = (Fin lit_0_1, "normal")).
  { intros [e H]. unfold predict_handshake. rewrite H. reflexivity. }
  assert (H2 : (exists e, predict_file_try sqrt f m = Raise e) ->
               predict_file sqrt f m = (Fin lit_0_1, "normal")).
  { intros [e H]. unfold predict_file. rewrite H. reflexivity. }
  split; [exact H1|]. split; [exact H2|].
  intros H. destruct (failures_raise f m H) as [Hh Hf]. auto.
Qed.

Lemma index_Forall {A : Type} (P : A -> Prop) (l : list A) (i : nat) (x : A) :
  Forall P l -> index l i = Ok x -> P x.
Proof.
  intros HP. unfold index. destruct (l !! i) as [y|] eqn:E; [|discriminate].
  intros [= <-]. exact (proj1 (Forall_lookup P l) HP i y E).
Qed.

Lemma default_in_unit_interval : in_unit_interval (Fin lit_0_1).
Proof. split; discriminate. Qed.

Lemma model_output_read (m : model) (X : matrix) (s : float64) :
  match predict_proba m with
  | Some proba =>
      probabilities ← proba X;
      row0 ← index probabilities 0;
      if bool_decide (1 < length row0)%nat then index row0 1 else index row0 0
  | None =>
      match predict m with
      | Some pred => labels ← pred X; index labels 0
      | None => Raise AttributeError
      end
  end = Ok s <-> model_output m X s.
Proof.
  assert (Hindex : forall (A : Type) (l : list A) (i : nat) (x : A),
            index l i = Ok x <-> l !! i = Some x).
  { intros A l i x. unfold index. destruct (l !! i); split; congruence. }
  unfold model_output. destruct (predict_proba m) as [proba|].
  - destruct (proba X) as [P|e]; cbn [mbind result_bind].
    + split.
      * intros H. destruct (index P 0) as [row0|] eqn:E0; [|discriminate H].
        cbn [mbind result_bind] in H. exists P, row0. split; [reflexivity|].
        split; [apply Hindex; exact E0|].
        destruct (bool_decide (1 < length row0)%nat); apply Hindex; exact H.
      * intros (P' & row0 & [= <-] & H0 & Hs). apply Hindex in H0. rewrite H0.
        cbn [mbind result_bind].
        destruct (bool_decide (1 < length row0)%nat); apply Hindex; exact Hs.
    + split; [discriminate|]. intros (P' & row0' & [=] & _).
  - destruct (predict m) as [pred|].
    + destruct (pred X) as [L|e] eqn:EL; cbn [mbind result_bind].
      * split.
        -- intros H. exists pred, L. split; [reflexivity|]. split; [exact EL|].
           apply Hindex. exact H.
        -- intros (pred' & L' & [= <-] & HL & Hs). rewrite EL in HL.
           injection HL as <-. apply Hindex. exact Hs.
      * split; [discriminate|]. intros (pred' & L' & [= <-] & HL & _).
        rewrite EL in HL. discriminate.
    + split; [discriminate|]. intros (pred' & L' & [=] & _).
Qed.

(** What the scorers return, by what the scaler and the model do. *)
Lemma predict_handshake_cases (f : features) (m : model) :
  (predict_handshake sqrt f m = (Fin lit_0_1, "normal") /\
   ((exists e, fit_transform sqrt (DataFrame [f]) = Raise e) \/
    exists X, fit_transform sqrt (DataFrame [f]) = Ok X /\ forall s, ~ model_output m X s)) \/
  exists X s, fit_transform sqrt (DataFrame [f]) = Ok X /\ model_output m X s /\
              predict_handshake sqrt f m = scored s lit_0_5.
Proof.
  unfold predict_handshake, predict_handshake_try. cbv zeta.
  destruct (fit_transform sqrt (DataFrame [f])) as [X|e]; [|left; split; eauto].
  cbn [mbind result_bind]. pose proof (model_output_read m X) as Hread.
  match goal with |- context [mbind _ ?c] => destruct c as [s|e] eqn:Hs end.
  - right. exists X, s. split; [reflexivity|]. split; [apply Hread; reflexivity|reflexivity].
  - left. split; [reflexivity|]. right. exists X. split; [reflexivity|].
    intros s Hout. apply Hread in Hout. discriminate.
Qed.

Lemma predict_file_cases (f : features) (m : model) :
  (predict_file sqrt f m = (Fin lit_0_1, "normal") /\
   ((exists e, fit_transform sqrt (DataFrame [f]) = Raise e) \/
    exists X, fit_transform sqrt (DataFrame [f]) = Ok X /\ forall s, ~ model_output m X s)) \/
  exists X s, fit_transform sqrt (DataFrame [f]) = Ok X /\ model_output m X s /\
              predict_file sqrt f m = scored s lit_0_4.
Proof.
  unfold predict_file, predict_file_try. cbv zeta.
  destruct (fit_transform sqrt (DataFrame [f])) as [X|e]; [|left; split; eauto].
  cbn [mbind result_bind]. pose proof (model_output_read m X) as Hread.
  match goal with |- context [mbind _ ?c] => destruct c as [s|e] eqn:Hs end.
  - right. exists X, s. split; [reflexivity|]. split; [apply Hread; reflexivity|reflexivity].
  - left. split; [reflexivity|]. right. exists X. split; [reflexivity|].
    intros s Hout. apply Hread in Hout. discriminate.
Qed.

Lemma model_output_in_unit_interval (m : model) (X : matrix) (s : float64) :
  outputs_in_unit_interval m -> model_output m X s -> in_unit_interval s.
Proof.
  unfold outputs_in_unit_interval, model_output.
  destruct (predict_proba m) as [proba|].
  - intros Hall (P & row0 & HP & H0 & Hs).
    pose proof (proj1 (Forall_lookup _ _) (Hall X P HP) _ _ H0) as Hrow.
    exact (proj1 (Forall_lookup _ _) Hrow _ _ Hs).
  - intros Hall (pred & L & Hp & HL & Hs).
    exact (proj1 (Forall_lookup _ _) (Hall pred X L Hp HL) _ _ Hs).
Qed.

(** C9, as the code has it. For every feature dictionary and every
    model whose outputs lie in [0,1] (the rows of [predict_proba], or
    the labels of [predict] when there is no [predict_proba]), the
    score returned by [predict_handshake] and by [predict_file] lies
    in [0,1]. The score is the model's output on the scaled row,
    unchanged, or 0.1 when the scaler or the model raises. *)
Theorem score_in_unit_interval (f : features) (m : model) :
  outputs_in_unit_interval m ->
  (in_unit_interval (predict_handshake sqrt f m).1 /\
   in_unit_interval (predict_file sqrt f m).1) /\
  ((exists X, fit_transform sqrt (DataFrame [f]) = Ok X /\
              model_output m X (predict_handshake sqrt f m).1 /\
              model_output m X (predict_file sqrt f m).1) \/
   ((predict_handshake sqrt f m).1 = Fin lit_0_1 /\
    (predict_file sqrt f m).1 = Fin lit_0_1 /\
    ((exists e, fit_transform sqrt (DataFrame [f]) = Raise e) \/
     exists X, fit_transform sqrt (DataFrame [f]) = Ok X /\
               forall s, ~ model_output m X s))).
Proof.
  intros Hm.
  destruct (predict_handshake_cases f m) as [[Hh Hwhy]|(X & s & HX & Hout & Hh)].
  - destruct (predict_file_cases f m) as [[Hf _]|(X & s & HX & Hout & _)].
    + rewrite Hh, Hf. cbn [fst]. split.
      * split; apply default_in_unit_interval.
      * right. split; [reflexivity|]. split; [reflexivity | exact Hwhy].
    + exfalso. destruct Hwhy as [[e He]|(X' & HX' & Hnone)].
      * rewrite HX in He. discriminate.
      * rewrite HX in HX'. injection HX' as <-. exact (Hnone s Hout).
  - destruct (predict_file_cases f m) as [[_ Hwhy]|(X' & s' & HX' & Hout' & Hf)].
    + exfalso. destruct Hwhy as [[e He]|(X' & HX' & Hnone)].
      * rewrite HX in He. discriminate.
      * rewrite HX in HX'. injection HX' as <-. exact (Hnone s Hout).
    + rewrite HX in HX'. injection HX' as <-.
      rewrite Hh, Hf. unfold scored. cbn [fst]. split.
      * split; eapply model_output_in_unit_interval; eassumption.
      * left. exists X. split; [exact HX|]. split; assumption.
Qed.

End InferenceFacts.

Section InferenceWitnesses.

Import Inference.

Lemma quiet_keys : NoDup (keys quiet_handshake).
Proof. refine (bool_decide_unpack _ _). vm_compute. exact I. Defined.

Lemma noisy_keys : NoDup (keys noisy_handshake).
Proof. refine (bool_decide_unpack _ _). vm_compute. exact I. Defined.

Lemma quiet_in_noisy : keys quiet_handshake ⊆ keys noisy_handshake.
Proof. refine (bool_decide_unpack _ _). vm_compute. exact I. Defined.

Lemma noisy_in_quiet : keys noisy_handshake ⊆ keys quiet_handshake.
Proof. refine (bool_decide_unpack _ _). vm_compute. exact I. Defined.

Lemma quiet_finite : Forall finite_cell quiet_handshake.*2.
Proof. repeat constructor. Defined.

Lemma noisy_finite : Forall finite_cell noisy_handshake.*2.
Proof. repeat constructor. Defined.

Lemma same_keys_same_prediction_witness :
  predict_handshake newton_sqrt quiet_handshake threshold_classifier
  = predict_handshake newton_sqrt noisy_handshake threshold_classifier /\
  predict_file newton_sqrt quiet_handshake threshold_classifier
  = predict_file newton_sqrt noisy_handshake threshold_classifier.
Proof.
  exact (proj2 (same_keys_same_prediction newton_sqrt threshold_classifier
                  quiet_handshake noisy_handshake
                  quiet_keys noisy_keys quiet_in_noisy noisy_in_quiet
                  quiet_finite noisy_finite)).
Defined.

Lemma failure_returns_safe_default_witness :
  predict_handshake newton_sqrt quiet_handshake missing_model = (Fin lit_0_1, "normal") /\
  predict_file newton_sqrt quiet_handshake missing_model = (Fin lit_0_1, "normal").
Proof.
  apply (proj2 (proj2 (failure_returns_safe_default newton_sqrt quiet_handshake
                         missing_model))).
  right. right. split; reflexivity.
Defined.

(** C1 as stated fails: two dictionaries over the same keys, all values
    finite numbers, one of them the int [10^400]. The scaler raises
    [OverflowError] on that one and the scorers answer the default,
    where the other dictionary gets the answer of the model. *)
Lemma oversized_value_changes_the_prediction :
  keys quiet_handshake = keys oversized_handshake /\
  Forall finite_number quiet_handshake.*2 /\
  Forall finite_number oversized_handshake.*2 /\
  predict_handshake newton_sqrt quiet_handshake threshold_classifier
    = (Fin (Q2Qc (1 # 5)), "normal") /\
  predict_handshake newton_sqrt oversized_handshake threshold_classifier
    = (Fin lit_0_1, "normal") /\
  predict_file newton_sqrt quiet_handshake threshold_classifier
    <> predict_file newton_sqrt oversized_handshake threshold_classifier.
Proof.
  assert (Hq : fit_transform newton_sqrt (DataFrame [quiet_handshake])
               = Ok [replicate 10 (Fin 0%Qc)]).
  { apply (fit_transform_one_row newton_sqrt quiet_handshake quiet_finite). discriminate. }
  assert (Ho : fit_transform newton_sqrt (DataFrame [oversized_handshake])
               = Raise OverflowError).
  { vm_compute. reflexivity. }
  split; [reflexivity|]. split; [repeat constructor|]. split; [repeat constructor|].
  unfold predict_handshake, predict_handshake_try, predict_file, predict_file_try.
  cbv zeta. rewrite Hq, Ho. split; [reflexivity|]. split; [reflexivity|]. discriminate.
Qed.

(** C9 as stated fails: on a dictionary that conforms to the handshake
    schema, a model that has no [predict_proba] and whose [predict]
    answers with the label -1 gets the score -1. *)
Lemma score_outside_unit_interval :
  conforms handshake_schema quiet_handshake /\
  predict_handshake newton_sqrt quiet_handshake outlier_detector
    = (Fin (Q2Qc (-1)), "normal") /\
  ~ in_unit_interval
      (predict_handshake newton_sqrt quiet_handshake outlier_detector).1.
Proof.
  assert (E : predict_handshake newton_sqrt quiet_handshake outlier_detector
              = (Fin (Q2Qc (-1)), "normal")).
  { unfold predict_handshake, predict_handshake_try. cbv zeta.
    rewrite (fit_transform_one_row newton_sqrt quiet_handshake quiet_finite) by discriminate.
    reflexivity. }
  split; [|split].
  - split; [reflexivity | exact quiet_finite].
  - exact E.
  - rewrite E. intros [H _]. apply H. reflexivity.
Qed.

Lemma threshold_classifier_outputs : outputs_in_unit_interval threshold_classifier.
Proof.
  intros X P HP.
  destruct X as [|[|[q| | |] r] X]; try discriminate.
  destruct (decide (q < 1)%Qc); injection HP as <-;
    repeat constructor; discriminate.
Defined.

Lemma score_in_unit_interval_witness :
  in_unit_interval (predict_handshake newton_sqrt quiet_handshake threshold_classifier).1 /\
  in_unit_interval (predict_file newton_sqrt quiet_handshake threshold_classifier).1.
Proof.
  exact (proj1 (score_in_unit_interval newton_sqrt quiet_handshake threshold_classifier
                  threshold_classifier_outputs)).
Defined.

End InferenceWitnesses.

(** ** The attack scenarios *)

Section SimulatorSteps.

Import Simulator.

Context {A B : Type}.
Implicit Types (env : environment) (w : world).

(** How the computations of the script run, one step at a time. *)

Lemma run_ask (k : environment -> M A) env w : (ask ≫= k) env w = k env env w.
Proof. reflexivity. Qed.

Lemma run_ret (a : A) (k : A -> M B) env w : (mret a ≫= k) env w = k a env w.
Proof. reflexivity. Qed.

Lemma run_lift (r : result A) (k : A -> M B) env w :
  (lift r ≫= k) env w
  = match r with Ok a => k a env w | Raise e => (Raise e, w) end.
Proof. destruct r; reflexivity. Qed.

Lemma run_send (rq : request) (k : response -> M A) env w :
  (send rq ≫= k) env w
  = match network env (sent w ++ [rq])%list with
    | Ok r => k r env (logged w [rq])
    | Raise e => (Raise e, logged w [rq])
    end.
Proof.
  unfold mbind, M_bind, send. fold (logged w [rq]).
  destruct (network env _); reflexivity.
Qed.

(** A handler that returns a value makes the whole statement return. *)
Lemma try_except_returns (body : M A) (a : A) env w :
  exists a', (try_except body (fun _ => mret a) env w).1 = Ok a'.
Proof.
  unfold try_except. destruct (body env w) as [[a'|e] w']; eexists; reflexivity.
Qed.

End SimulatorSteps.

(** The numbers the scripts put in themselves convert to a float. *)
Lemma fits_float_0 : fits_float (Q2Qc 0) = true.
Proof. vm_compute. reflexivity. Qed.

Lemma fits_float_bool (b : bool) : fits_float (if b then 1%Qc else 0%Qc) = true.
Proof. destruct b; vm_compute; reflexivity. Qed.

(** Unfolds the steps of a script whose requests have been answered. *)
Ltac script_steps :=
  repeat first
    [ rewrite run_lift
    | rewrite run_ret
    | rewrite fits_float_0
    | rewrite fits_float_bool
    | progress cbn [Simulator.get default Simulator.isinstance_dict Simulator.gt
                    Simulator.le Simulator.number Simulator.format_2f
                    Simulator.lower Simulator.truthy
                    mbind result_bind mret result_ret fst
                    Simulator.json_or_empty Simulator.has_text Simulator.json_of
                    Simulator.body Simulator.status_code] ].

Ltac decide_all :=
  repeat (match goal with
          | |- context [bool_decide ?P] => destruct (bool_decide P)
          | |- context [fits_float ?q] => destruct (fits_float q) eqn:?
          end; script_steps).

Section SimulatorFacts.

Import Simulator.

Implicit Types (env : environment) (w : world).

Lemma logged_logged w (l1 l2 : list request) :
  logged (logged w l1) l2 = logged w (l1 ++ l2)%list.
Proof. unfold logged. cbn [sent heap drawn tally]. rewrite <- app_assoc. reflexivity. Qed.

(** [get_auth_token] makes one request, never raises, and returns the
    token it reads in the answer, [None] when there is none. *)
Lemma get_auth_token_spec env w :
  get_auth_token env w
  = (Ok (token_in (network env (sent w ++ [login_request env])%list)),
     logged w [login_request env]).
Proof.
  unfold get_auth_token. rewrite run_ask. unfold try_except, post_json.
  fold (login_request env). rewrite run_send.
  unfold token_in. destruct (network env _) as [[st b]|e]; [|reflexivity].
  cbn [status_code]. case_bool_decide; [|reflexivity].
  rewrite run_lift. unfold json_of. cbn [body].
  destruct b as [|j|]; try reflexivity.
  unfold lift, get. destruct j; reflexivity.
Qed.

Lemma run_get_auth_token {A : Type} (k : json -> M A) env w :
  (get_auth_token ≫= k) env w
  = k (token_in (network env (sent w ++ [login_request env])%list)) env
      (logged w [login_request env]).
Proof. unfold mbind at 1, M_bind at 1. rewrite get_auth_token_spec. reflexivity. Qed.

(** An upload of a new [BytesIO] object sends the whole buffer. *)
Lemma run_fresh_upload {A : Type} (data : bytes) (u name ctype : string)
    (token : json) (t : Z) (k : nat -> response -> M A) env w :
  (new_BytesIO data ≫= fun fp => post_files u name fp ctype (Some token) t ≫= k fp) env w
  = let rq := {| url := u; sent_payload := FileBody name data ctype;
                 bearer := Some token; timeout := t |} in
    match network env (sent w ++ [rq])%list with
    | Ok r => k (length (heap w)) r env (uploaded w rq data)
    | Raise e => (Raise e, uploaded w rq data)
    end.
Proof.
  unfold mbind at 1, M_bind at 1, new_BytesIO. cbv zeta.
  unfold mbind at 1, M_bind at 1, post_files.
  unfold mbind at 1, M_bind at 1, read. cbn [heap sent drawn tally].
  rewrite list_lookup_middle by reflexivity.
  cbn [buffer position drop Nat.max].
  rewrite insert_app_r_alt by reflexivity. rewrite Nat.sub_diag. cbn [list_insert insert].
  unfold send, uploaded. cbn [sent heap drawn tally drop].
  destruct (network env _); reflexivity.
Qed.

(** *** The tampered payload *)

Lemma flip_bytes_seq (n lo : nat) (data : bytes) :
  (lo + n <= length data)%nat ->
  exists t, flip_bytes data (seq lo n) = Ok t /\ length t = length data /\
    forall i, t !! i =
      (fun b => if bool_decide (lo <= i < lo + n)%nat then N.lxor b 255 else b)
        <$> data !! i.
Proof.
  revert lo data. induction n as [|n IH]; intros lo data Hlen.
  - exists data. split; [reflexivity|]. split; [reflexivity|].
    intros i. rewrite bool_decide_eq_false_2 by lia.
    destruct (data !! i); reflexivity.
  - cbn [seq flip_bytes]. unfold index.
    destruct (lookup_lt_is_Some_2 data lo ltac:(lia)) as [b Hb]. rewrite Hb.
    cbn [mbind result_bind].
    destruct (IH (S lo) (<[lo := N.lxor b 255]> data)) as (t & Ht & Hl & Hi).
    { rewrite length_insert. lia. }
    exists t. split; [exact Ht|]. split; [rewrite Hl; apply length_insert|].
    intros i. rewrite Hi. destruct (decide (i = lo)) as [->|Hne].
    + rewrite list_lookup_insert_eq by lia. rewrite Hb. cbn [fmap option_fmap option_map].
      rewrite bool_decide_eq_false_2 by lia. rewrite bool_decide_eq_true_2 by lia.
      reflexivity.
    + rewrite list_lookup_insert_ne by congruence.
      destruct (data !! i); [|reflexivity]. cbn [fmap option_fmap option_map].
      destruct (bool_decide (S lo <= i < S lo + n)%nat) eqn:E1.
      * apply bool_decide_eq_true in E1. rewrite bool_decide_eq_true_2 by lia. reflexivity.
      * apply bool_decide_eq_false in E1. rewrite bool_decide_eq_false_2 by lia. reflexivity.
Qed.

(** The loop of the scenario flips the bytes at [lo, hi) and nothing
    else, on any byte string that reaches [hi]. *)
Lemma flip_bytes_range (lo hi : nat) (data : bytes) :
  (lo <= hi <= length data)%nat ->
  flip_bytes data (range lo hi) = Ok (flipped lo hi data).
Proof.
  intros H. unfold range.
  destruct (flip_bytes_seq (hi - lo) lo data ltac:(lia)) as (t & Ht & Hl & Hi).
  rewrite Ht. f_equal. apply list_eq. intros i. unfold flipped.
  rewrite Hi, list_lookup_imap. destruct (data !! i); [|reflexivity].
  cbn [fmap option_fmap option_map].
  destruct (bool_decide (lo <= i < lo + (hi - lo))%nat) eqn:E1.
  - apply bool_decide_eq_true in E1. rewrite bool_decide_eq_true_2 by lia. reflexivity.
  - apply bool_decide_eq_false in E1. rewrite bool_decide_eq_false_2 by lia. reflexivity.
Qed.

Lemma legitimate_data_flipped :
  flip_bytes legitimate_data (range 10 20) = Ok (flipped 10 20 legitimate_data).
Proof. apply flip_bytes_range. cbn. lia. Qed.

(** *** TEST 2 *)

Lemma tampered_upload_run env w :
  let token := token_in (network env (sent w ++ [login_request env])%list) in
  let data := flipped 10 20 legitimate_data in
  let rq := upload_request env token "tampered_file.encrypted" data
              "application/octet-stream" in
  truthy token = true ->
  exists b,
    tampered_upload_demo env w = (Ok b, uploaded (logged w [login_request env]) rq data) /\
    (b = true <->
     exists r, network env (sent w ++ [login_request env; rq])%list = Ok r /\
               status_code r ∈ reject_statuses /\ upload_body_readable (body r)).
Proof.
  intros token data rq Htr.
  unfold tampered_upload_demo.
  rewrite run_ask, run_get_auth_token. fold token. rewrite Htr. cbn [negb].
  unfold try_except. rewrite legitimate_data_flipped, run_lift, run_fresh_upload.
  cbv zeta. fold data. unfold logged at 1. cbn [sent]. rewrite <- app_assoc. cbn [app].
  fold (upload_request env token "tampered_file.encrypted" data "application/octet-stream").
  fold rq.
  generalize (uploaded (logged w [login_request env]) rq data). intros w'.
  destruct (network env (sent w ++ [login_request env; rq])%list) as [[st bd]|e].
  2:{ exists false. split; [reflexivity|]. split; [discriminate|]. intros (r & [=] & _). }
  match goal with
  | |- exists _, ?X = _ /\ _ =>
      enough (exists c, X = (Ok c, w') /\
                (c = true <-> st ∈ reject_statuses /\ upload_body_readable bd))
        as (c0 & Hc & Hiff)
  end.
  { exists c0. split; [exact Hc|]. rewrite Hiff. split.
    - intros [H1 H2]. eexists. split; [reflexivity|]. split; assumption.
    - intros (r & [= <-] & H1 & H2). split; assumption. }
  rewrite run_lift. unfold reject_statuses. cbn [status_code].
  destruct (bool_decide (st ∈ [400%Z; 403%Z; 500%Z])) eqn:Est.
  2:{ apply bool_decide_eq_false in Est. exists false.
      split; [destruct (json_or_empty _); reflexivity|].
      split; [discriminate | tauto]. }
  apply bool_decide_eq_true in Est.
  destruct bd as [|[| | | | |d]|s]; script_steps; cbn [upload_body_readable];
    try (eexists; split; [reflexivity|]; split; [discriminate | tauto]).
  { eexists; split; [reflexivity|]. tauto. }
  generalize (default (JDict []) (assoc "details" d)).
  intros [| | | | |dd]; script_steps;
    try (eexists; split; [reflexivity|]; split; [discriminate | tauto]).
  generalize (default (JDict []) (assoc "ids" dd)).
  intros [| | | | |ids]; script_steps; decide_all;
    try (eexists; split; [reflexivity|]; tauto).
  generalize (default (JNum 0) (assoc "anomaly_score" ids)).
  intros [| | | | |?]; script_steps; decide_all; cbn [is_number];
    try (eexists; split; [reflexivity|]; tauto);
    try (eexists; split; [reflexivity|]; split; [discriminate | tauto]);
    try (eexists; split; [reflexivity|]; split; [discriminate | intros [_ ?]; congruence]).
Qed.

Lemma tampered_upload_unauthenticated env w :
  truthy (token_in (network env (sent w ++ [login_request env])%list)) = false ->
  tampered_upload_demo env w = (Ok false, logged w [login_request env]).
Proof.
  intros Htr. unfold tampered_upload_demo.
  rewrite run_ask, run_get_auth_token, Htr. reflexivity.
Qed.

(** C6, as the code has it. The tamper scenario uploads the legitimate
    byte string with the bytes at positions [10,20) flipped, and nothing
    else after the login. It records a pass exactly when it got a
    token, the upload was answered, the status of the answer is one of
    400, 403, 500, and the body of the answer is readable: empty, or a
    JSON object whose [details], if present, is an object and whose
    [details.ids.anomaly_score], if present, is a number that can be
    formatted (a bool, a float, or an int below [2^1024 - 2^970] in
    magnitude; a larger int makes the formatting raise
    [OverflowError]). So a pass is never recorded on a status outside
    400, 403, 500. It never raises. *)
Theorem tampered_upload_verdict env w :
  let token := token_in (network env (sent w ++ [login_request env])%list) in
  let data := flipped 10 20 legitimate_data in
  let rq := upload_request env token "tampered_file.encrypted" data
              "application/octet-stream" in
  (flip_bytes legitimate_data (range 10 20) = Ok data /\
   length data = length legitimate_data /\
   forall i, data !! i =
     (fun b => if bool_decide (10 <= i < 20)%nat then N.lxor b 255 else b)
       <$> legitimate_data !! i) /\
  sent (tampered_upload_demo env w).2
    = (sent w ++ login_request env :: (if truthy token then [rq] else []))%list /\
  ((tampered_upload_demo env w).1 = Ok true <->
     truthy token = true /\
     exists r, network env (sent w ++ [login_request env; rq])%list = Ok r /\
               status_code r ∈ reject_statuses /\ upload_body_readable (body r)) /\
  (exists b, (tampered_upload_demo env w).1 = Ok b).
Proof.
  intros token data rq. split; [|].
  { split; [exact legitimate_data_flipped|]. split.
    - unfold data, flipped. apply length_imap.
    - intros i. unfold data, flipped. apply list_lookup_imap. }
  destruct (truthy token) eqn:Htr.
  - destruct (tampered_upload_run env w Htr) as (b & Hrun & Hb).
    fold token data rq in Hrun, Hb. rewrite Hrun. cbn [fst snd].
    split; [|split].
    + unfold uploaded, logged. cbn [sent]. rewrite <- app_assoc. reflexivity.
    + split.
      * intros [= ->]. split; [reflexivity|]. apply Hb. reflexivity.
      * intros [_ H]. f_equal. apply Hb. exact H.
    + exists b. reflexivity.
  - rewrite (tampered_upload_unauthenticated env w Htr). cbn [fst snd].
    split; [reflexivity|]. split; [|exists false; reflexivity].
    split; [discriminate|]. intros [[=] _].
Qed.

(** C6 as stated fails: the upload is answered with status 500, one of
    the rejecting statuses, and a body that is not JSON; the scenario
    records a fail. *)
Lemma tampered_upload_rejected_but_failed :
  network plain_text_errors (sent (tampered_upload_demo plain_text_errors start).2)
    = answer 500 (OtherText "Internal Server Error") /\
  (500%Z ∈ reject_statuses) /\
  (tampered_upload_demo plain_text_errors start).1 = Ok false.
Proof.
  split; [vm_compute; reflexivity|]. split; [|vm_compute; reflexivity].
  unfold reject_statuses. repeat constructor.
Qed.

(** *** TEST 3 *)

Lemma mitm_wrong_key_unauthenticated env w :
  truthy (token_in (network env (sent w ++ [login_request env])%list)) = false ->
  mitm_wrong_key env w = (Ok false, logged w [login_request env]).
Proof.
  intros Htr. unfold mitm_wrong_key.
  rewrite run_ask, run_get_auth_token, Htr. reflexivity.
Qed.

Lemma mitm_wrong_key_run env w :
  let token := token_in (network env (sent w ++ [login_request env])%list) in
  let rq1 := init_request env token forged_key 5 in
  truthy token = true ->
  exists b,
    mitm_wrong_key env w
      = (Ok b, logged w (login_request env :: forged_key_requests env token w)) /\
    (b = true <->
     exists r1, network env (sent w ++ [login_request env; rq1])%list = Ok r1 /\
       ((status_code r1 <> 200%Z /\ body_parses (body r1)) \/
        (status_code r1 = 200%Z /\ truthy (handshake_id_in (body r1)) = true /\
         exists r2,
           network env (sent w ++ [login_request env; rq1;
                          validate_request env token (handshake_id_in (body r1)) 5])%list
             = Ok r2 /\
           validate_body_readable (body r2) /\
           (truthy (verified_in (body r2)) = false \/ status_code r2 <> 200%Z)))).
Proof.
  intros token rq1 Htr.
  unfold mitm_wrong_key, forged_key_requests.
  rewrite run_ask, run_get_auth_token. fold token. rewrite Htr. cbn [negb].
  unfold try_except, post_json. fold forged_key.
  change fake_public_key with (b64encode forged_key).
  fold (init_request env token forged_key 5). fold rq1.
  rewrite run_send, logged_logged. cbn [app]. unfold logged at 1. cbn [sent].
  rewrite <- app_assoc. cbn [app].
  destruct (network env (sent w ++ [login_request env; rq1])%list) as [[st bd]|e].
  2:{ exists false. split; [reflexivity|]. split; [discriminate|]. intros (r & [=] & _). }
  cbn [status_code body].
  match goal with
  | |- exists _, ?X = (_, ?W) /\ _ =>
      enough (exists c, X = (Ok c, W) /\
        (c = true <->
         ((st <> 200%Z /\ body_parses bd) \/
          (st = 200%Z /\ truthy (handshake_id_in bd) = true /\
           exists r2,
             network env (sent w ++ [login_request env; rq1;
                            validate_request env token (handshake_id_in bd) 5])%list
               = Ok r2 /\
             validate_body_readable (body r2) /\
             (truthy (verified_in (body r2)) = false \/ status_code r2 <> 200%Z)))))
        as (c0 & Hc & Hiff)
  end.
  { exists c0. split; [exact Hc|]. rewrite Hiff. split.
    - intros H. eexists. split; [reflexivity|]. exact H.
    - intros (r & [= <-] & H). exact H. }
  rewrite run_lift.
  destruct (bool_decide (st = 200%Z)) eqn:Est; cbn [andb].
  2:{ apply bool_decide_eq_false in Est.
      destruct bd as [|j|s]; script_steps; cbn [body_parses];
        (eexists; split; [reflexivity|]); try tauto.
      split; [discriminate | tauto]. }
  apply bool_decide_eq_true in Est. subst st.
  destruct bd as [|[| | | | |d]|s]; script_steps; cbn [handshake_id_in truthy];
    try (eexists; split; [reflexivity|]; split;
         [discriminate | intros [[H _]|(_ & [=] & _)]; congruence]).
  destruct (truthy (default JNull (assoc "handshakeId" d))) eqn:Hh.
  2:{ eexists; split; [reflexivity|]. split;
        [discriminate | intros [[H _]|(_ & [=] & _)]; congruence]. }
  fold (validate_request env token (default JNull (assoc "handshakeId" d)) 5).
  rewrite run_send, logged_logged. cbn [app].
  unfold logged at 1. cbn [sent]. rewrite <- app_assoc. cbn [app].
  destruct (network env (sent w ++ [login_request env; rq1;
              validate_request env token (default JNull (assoc "handshakeId" d)) 5])%list)
    as [[st2 bd2]|e2].
  2:{ eexists; split; [reflexivity|]. split; [discriminate|].
      intros [[H _]|(_ & _ & r2 & [=] & _)]. congruence. }
  match goal with
  | |- exists _, ?X = (_, ?W) /\ _ =>
      enough (exists c, X = (Ok c, W) /\
        (c = true <->
           validate_body_readable bd2 /\
           (truthy (verified_in bd2) = false \/ st2 <> 200%Z)))
        as (c0 & Hc & Hiff)
  end.
  { exists c0. split; [exact Hc|]. rewrite Hiff. split.
    - intros H. right. split; [reflexivity|]. split; [reflexivity|].
      eexists. split; [reflexivity|]. exact H.
    - intros [[H _]|(_ & _ & r2 & [= <-] & H)]; [congruence | exact H]. }
  cbn [status_code body].
  assert (Hread : forall validate_data : list (string * json),
    exists c,
      (let (r, w') :=
         (lift (get (JDict validate_data) "verified" (JBool false)) ≫= fun verified =>
          lift (get (JDict validate_data) "idsResult" (JDict [])) ≫= fun ids_result =>
          lift (if isinstance_dict ids_result
                then get ids_result "anomaly_score" (JNum 0)
                else Ok (JNum 0)) ≫= fun anomaly_score =>
          lift (format_2f anomaly_score) ≫= fun _ =>
          let passed := negb (truthy verified) || negb (bool_decide (st2 = 200%Z)) in
          if passed then
            lift (gt anomaly_score lit_0_85) ≫= fun high : bool =>
            lift (if high then format_2f anomaly_score else Ok tt) ≫= fun _ =>
            mret passed
          else mret passed : M bool) env
           (logged w [login_request env; rq1;
              validate_request env token (default JNull (assoc "handshakeId" d)) 5]) in
       match r with
       | Ok a => (Ok a, w')
       | Raise _ => (mret false : M bool) env w'
       end)
      = (Ok c, logged w [login_request env; rq1;
                 validate_request env token (default JNull (assoc "handshakeId" d)) 5]) /\
      (c = true <->
       validate_body_readable (JsonText (JDict validate_data)) /\
       (truthy (verified_in (JsonText (JDict validate_data))) = false \/ st2 <> 200%Z))).
  { intros vd. cbv zeta. script_steps. cbn [validate_body_readable verified_in].
    generalize (default (JBool false) (assoc "verified" vd)). intros verified.
    generalize (default (JDict []) (assoc "idsResult" vd)). intros ids_result.
    destruct (truthy verified) eqn:Hv;
      destruct (bool_decide (st2 = 200%Z)) eqn:E2;
      [apply bool_decide_eq_true in E2 | apply bool_decide_eq_false in E2
      |apply bool_decide_eq_true in E2 | apply bool_decide_eq_false in E2];
      cbn [negb orb];
      (destruct ids_result as [| | | | |ids]; script_steps;
       [..|generalize (default (JNum 0) (assoc "anomaly_score" ids));
           intros [| | | | |?]; script_steps]);
      decide_all; cbn [is_number];
      (eexists; split; [reflexivity|]);
      first [ split; [discriminate|]; intuition congruence
            | split; [intros _|reflexivity]; intuition congruence ]. }
  destruct bd2 as [|[| | | | |d2]|s2]; script_steps;
    try (cbn [validate_body_readable verified_in];
         eexists; split; [reflexivity|]; split; [discriminate | tauto]).
  - destruct (Hread []) as (c & Hc & Hiff). exists c. split; [exact Hc|].
    rewrite Hiff. cbn. tauto.
  - exact (Hread d2).
Qed.

(** C10, as the code has it. The forged-key scenario sends the base64
    text of a 36-byte ASCII string as [publicKey] to init. It records a
    pass exactly when it got a token, init was answered, and either
    init answered with a status other than 200 and a body that is empty
    or JSON (no validate request is made then), or init answered 200
    with a handshake id, validate was answered with a readable body
    (empty, or a JSON object whose [idsResult.anomaly_score], if
    present, is a number that can be formatted: a bool, a float, or an
    int below [2^1024 - 2^970] in magnitude), and [verified] is false
    or the validate status is not 200. In every other case (init
    answered 200 without a handshake id, a body that cannot be read, a
    score that cannot be formatted, a transport error) it records a
    fail. *)
Theorem forged_key_verdict env w :
  let token := token_in (network env (sent w ++ [login_request env])%list) in
  let rq1 := init_request env token forged_key 5 in
  (fake_public_key = b64encode forged_key /\
   length forged_key = 36%nat /\ Forall (fun b => (b < 128)%N) forged_key) /\
  sent (mitm_wrong_key env w).2
    = (sent w ++ login_request env ::
         (if truthy token then forged_key_requests env token w else []))%list /\
  ((mitm_wrong_key env w).1 = Ok true <->
     truthy token = true /\
     exists r1, network env (sent w ++ [login_request env; rq1])%list = Ok r1 /\
       ((status_code r1 <> 200%Z /\ body_parses (body r1) /\
         forged_key_requests env token w = [rq1]) \/
        (status_code r1 = 200%Z /\ truthy (handshake_id_in (body r1)) = true /\
         exists r2,
           network env (sent w ++ [login_request env; rq1;
                          validate_request env token (handshake_id_in (body r1)) 5])%list
             = Ok r2 /\
           validate_body_readable (body r2) /\
           (truthy (verified_in (body r2)) = false \/ status_code r2 <> 200%Z)))) /\
  (exists b, (mitm_wrong_key env w).1 = Ok b).
Proof.
  intros token rq1. split.
  { split; [reflexivity|]. split; [reflexivity|].
    unfold forged_key. cbn. repeat constructor. }
  destruct (truthy token) eqn:Htr.
  - destruct (mitm_wrong_key_run env w Htr) as (b & Hrun & Hb).
    fold token rq1 in Hrun, Hb. rewrite Hrun. cbn [fst snd].
    split; [reflexivity|]. split; [|exists b; reflexivity].
    split.
    + intros [= ->]. split; [reflexivity|].
      destruct (proj1 Hb eq_refl) as (r1 & Hr1 & H). exists r1. split; [exact Hr1|].
      destruct H as [[Hst Hp]|H]; [left|right; exact H].
      split; [exact Hst|]. split; [exact Hp|].
      unfold forged_key_requests. fold rq1. rewrite Hr1.
      rewrite bool_decide_eq_false_2 by exact Hst. reflexivity.
    + intros [_ (r1 & Hr1 & H)]. f_equal. apply Hb. exists r1. split; [exact Hr1|].
      destruct H as [(Hst & Hp & _)|H]; [left; split; assumption | right; exact H].
  - rewrite (mitm_wrong_key_unauthenticated env w Htr). cbn [fst snd].
    split; [reflexivity|]. split; [|exists false; reflexivity].
    split; [discriminate|]. intros [[=] _].
Qed.

(** C10 as stated fails: init rejects with status 429 and a body that
    is not JSON; the scenario records a fail instead of passing. *)
Lemma forged_key_rejected_but_failed :
  network plain_text_errors (sent (mitm_wrong_key plain_text_errors start).2)
    = answer 429 (OtherText "Too many requests, please try again later.") /\
  429%Z <> 200%Z /\
  (mitm_wrong_key plain_text_errors start).1 = Ok false.
Proof.
  split; [vm_compute; reflexivity|]. split; [discriminate | vm_compute; reflexivity].
Qed.

Example fake_public_key_text :
  fake_public_key = "RkFLRV9QVUJMSUNfS0VZX0lOSkVDVEVEX0JZX0FUVEFDS0VS".
Proof. reflexivity. Qed.

(** *** Brute force *)

Lemma attempt_run (token : json) env w :
  attempt token env w
  = (Ok tt, attempted w (attempt_requests env token w)
              (classify (observe env token w) (tally w))).
Proof.
  unfold attempt, attempt_requests, observe. rewrite run_ask.
  unfold mbind at 1, M_bind at 1, urandom. fold (next_bytes env w 32).
  unfold try_except, post_json.
  fold (init_request env token (next_bytes env w 32) 2).
  set (rq1 := init_request env token (next_bytes env w 32) 2).
  rewrite run_send. unfold logged. cbn [sent heap drawn tally].
  destruct (network env (sent w ++ [rq1])%list) as [[st bd]|e]; [|reflexivity].
  cbn [status_code body].
  destruct (bool_decide (st = 200%Z)) eqn:Est; cbn [andb]; [|reflexivity].
  destruct bd as [|[| | | | |d]|s]; script_steps; cbn [handshake_id_in truthy];
    try reflexivity.
  destruct (truthy (default JNull (assoc "handshakeId" d))) eqn:Hh; [|reflexivity].
  fold (validate_request env token (default JNull (assoc "handshakeId" d)) 2).
  set (rq2 := validate_request env token (default JNull (assoc "handshakeId" d)) 2).
  rewrite run_send. unfold logged. cbn [sent heap drawn tally].
  rewrite <- app_assoc. cbn [app].
  destruct (network env (sent w ++ [rq1; rq2])%list) as [[st2 bd2]|e2]; [|reflexivity].
  cbn [status_code body].
  assert (Hscore : forall anomaly_score : json,
    (let (r, w') :=
       (lift (gt anomaly_score lit_0_5) ≫= fun flagged : bool =>
        (if flagged then incr_suspicious else mret tt) ≫= fun _ =>
        lift (if bool_decide (st2 = 200%Z) then le anomaly_score lit_0_5 else Ok false)
          ≫= fun clean : bool =>
        if clean then incr_success else incr_failed : M unit) env
         {| sent := (sent w ++ [rq1; rq2])%list; heap := heap w;
            drawn := drawn w + 32; tally := tally w |} in
     match r with
     | Ok a => (Ok a, w')
     | Raise _ => incr_failed env w'
     end)
    = (Ok tt, attempted w [rq1; rq2]
                (classify
                   match number anomaly_score with
                   | Ok s => Scored st2 s
                   | Raise _ => Unreadable
                   end (tally w)))).
  { intros [| | | | |?]; script_steps; try reflexivity.
    - destruct (bool_decide (lit_0_5 < (if b then 1 else 0))%Qc) eqn:E1;
        destruct (bool_decide (st2 = 200%Z)) eqn:E2; script_steps;
        [destruct (bool_decide ((if b then 1 else 0) <= lit_0_5)%Qc) eqn:E3| |
         destruct (bool_decide ((if b then 1 else 0) <= lit_0_5)%Qc) eqn:E3|];
        unfold classify, attempted; rewrite E1;
        repeat match goal with
               | H : bool_decide _ = true |- _ => apply bool_decide_eq_true in H
               | H : bool_decide _ = false |- _ => apply bool_decide_eq_false in H
               end;
        first [ rewrite bool_decide_eq_true_2 by tauto
              | rewrite bool_decide_eq_false_2 by tauto ];
        reflexivity.
    - destruct (bool_decide (lit_0_5 < q)%Qc) eqn:E1;
        destruct (bool_decide (st2 = 200%Z)) eqn:E2; script_steps;
        [destruct (bool_decide (q <= lit_0_5)%Qc) eqn:E3| |
         destruct (bool_decide (q <= lit_0_5)%Qc) eqn:E3|];
        unfold classify, attempted; rewrite E1;
        repeat match goal with
               | H : bool_decide _ = true |- _ => apply bool_decide_eq_true in H
               | H : bool_decide _ = false |- _ => apply bool_decide_eq_false in H
               end;
        first [ rewrite bool_decide_eq_true_2 by tauto
              | rewrite bool_decide_eq_false_2 by tauto ];
        reflexivity. }
  destruct bd2 as [|[| | | | |d2]|s2]; script_steps; cbn [score_in];
    try reflexivity; try exact (Hscore (JNum 0)).
  generalize (default (JDict []) (assoc "idsResult" d2)).
  intros [| | | | |ids]; script_steps; try exact (Hscore (JNum 0)).
  generalize (default (JNum 0) (assoc "anomaly_score" ids)). intros v.
  refine (eq_trans (Hscore v) _). destruct v; reflexivity.
Qed.

Lemma attempts_loop_run (idxs : list nat) (token : json) env w :
  attempts_loop idxs token env w
  = (Ok tt, after_attempts (length idxs) env token w).
Proof.
  revert w. induction idxs as [|i idxs IH]; intros w; [reflexivity|].
  cbn [attempts_loop length after_attempts].
  unfold mbind, M_bind. rewrite attempt_run. cbn [snd]. apply IH.
Qed.

Lemma tally_after_attempts (n : nat) (token : json) env w :
  tally (after_attempts n env token w)
  = foldl (fun c o => classify o c) (tally w) (observations n env token w).
Proof.
  revert w. induction n as [|n IH]; intros w; [reflexivity|].
  cbn [after_attempts observations foldl]. rewrite IH, attempt_run. reflexivity.
Qed.

(** Every attempt is a failure or a success, or is counted in no class. *)
Lemma classify_total (obs : list observation) (c : counters) :
  let c' := foldl (fun c o => classify o c) c obs in
  (failed_count c' + success_count c'
   + length (filter (fun o => uncounted o = true) obs)
   = failed_count c + success_count c + length obs)%nat.
Proof.
  revert c. induction obs as [|o obs IH]; intros c; cbn zeta.
  - cbn. lia.
  - cbn [foldl]. specialize (IH (classify o c)). cbn zeta in IH.
    destruct o as [| | | |st s].
    + rewrite filter_cons_False by discriminate. cbn [classify] in *.
      cbn [failed_count success_count length] in *. lia.
    + rewrite filter_cons_False by discriminate. cbn [classify] in *.
      cbn [failed_count success_count length] in *. lia.
    + rewrite filter_cons_False by discriminate. cbn [classify] in *.
      cbn [failed_count success_count length] in *. lia.
    + rewrite filter_cons_True by reflexivity. cbn [classify] in *.
      cbn [length] in *. lia.
    + rewrite filter_cons_False by discriminate. cbn [classify] in *.
      cbn [failed_count success_count length] in *.
      destruct (bool_decide (st = 200%Z /\ (s <= lit_0_5)%Qc)); lia.
Qed.

(** An attempt counted as suspicious is counted as a failure too. *)
Lemma suspicious_among_failures (obs : list observation) (c : counters) :
  (suspicious_count c <= failed_count c)%nat ->
  (suspicious_count (foldl (fun c o => classify o c) c obs)
   <= failed_count (foldl (fun c o => classify o c) c obs))%nat.
Proof.
  revert c. induction obs as [|o obs IH]; intros c Hc; [exact Hc|].
  cbn [foldl]. apply IH.
  destruct o as [| | | |st s]; cbn [classify failed_count suspicious_count]; try lia.
  destruct (bool_decide (st = 200%Z /\ (s <= lit_0_5)%Qc)) eqn:E1;
    destruct (bool_decide (lit_0_5 < s)%Qc) eqn:E2; try lia.
  apply bool_decide_eq_true in E1 as [_ Hle]. apply bool_decide_eq_true in E2.
  exfalso. exact (Qcle_not_lt _ _ Hle E2).
Qed.

Lemma classify_failed (o : observation) (c : counters) :
  (failed_count (classify o c) <= S (failed_count c))%nat.
Proof. destruct o; cbn; try case_bool_decide; lia. Qed.

Lemma failed_after_attempts (n : nat) (token : json) env w :
  (failed_count (tally (after_attempts n env token w))
   <= failed_count (tally w) + n)%nat.
Proof.
  revert w. induction n as [|n IH]; intros w; [cbn; lia|].
  cbn [after_attempts]. etransitivity; [apply IH|].
  rewrite attempt_run. cbn [snd attempted tally].
  pose proof (classify_failed (observe env token w) (tally w)). lia.
Qed.

Lemma observations_length (n : nat) (token : json) env w :
  length (observations n env token w) = n.
Proof. revert w. induction n as [|n IH]; intros w; cbn; [|rewrite IH]; reflexivity. Qed.

Lemma attempt_keys_length (n : nat) (token : json) env w :
  length (attempt_keys n env token w) = n /\
  Forall (fun k => length k = 32%nat) (attempt_keys n env token w).
Proof.
  revert w. induction n as [|n IH]; intros w; [split; [reflexivity | constructor]|].
  cbn [attempt_keys length]. destruct (IH (attempt token env w).2) as [Hl Hf].
  split; [rewrite Hl; reflexivity|]. constructor; [|exact Hf].
  unfold next_bytes. rewrite length_map, length_seq. reflexivity.
Qed.

Lemma append_inj (s a b : string) : s ++ a = s ++ b -> a = b.
Proof. induction s as [|c s IH]; cbn; [auto|]. intros [= H]. auto. Qed.

(** Of the requests of one attempt, the init request is the first one
    and the only one. *)
Lemma attempt_requests_init (token : json) env w :
  filter (is_init env) (attempt_requests env token w)
  = [init_request env token (next_bytes env w 32) 2].
Proof.
  assert (Hinit : forall k, is_init env (init_request env token k 2)) by reflexivity.
  assert (Hval : forall h, ~ is_init env (validate_request env token h 2)).
  { intros h H. unfold is_init in H. cbn [url validate_request] in H.
    apply append_inj in H. discriminate. }
  unfold attempt_requests.
  destruct (network env _) as [r1|e].
  - destruct (bool_decide (status_code r1 = 200%Z) && truthy (handshake_id_in (body r1))).
    + rewrite filter_cons_True by apply Hinit.
      rewrite filter_cons_False by apply Hval. reflexivity.
    + rewrite filter_cons_True by apply Hinit. reflexivity.
  - rewrite filter_cons_True by apply Hinit. reflexivity.
Qed.

Lemma sent_after_attempts (n : nat) (token : json) env w :
  exists new,
    sent (after_attempts n env token w) = (sent w ++ new)%list /\
    filter (is_init env) new
    = map (fun k => init_request env token k 2) (attempt_keys n env token w).
Proof.
  revert w. induction n as [|n IH]; intros w.
  - exists []. split; [cbn; rewrite app_nil_r; reflexivity | reflexivity].
  - cbn [after_attempts attempt_keys map].
    destruct (IH (attempt token env w).2) as (new & Hs & Hf).
    exists (attempt_requests env token w ++ new)%list. split.
    + rewrite Hs, attempt_run. cbn [snd attempted sent]. rewrite app_assoc. reflexivity.
    + rewrite filter_app, attempt_requests_init, Hf. reflexivity.
Qed.

(** [failed_count > 50 * 0.3] in binary64 arithmetic is
    [failed_count > 15]: the product rounds to 15.0. *)
Lemma many_failures_of_50 (failed : nat) :
  (failed <= 50)%nat -> many_failures failed 50 = bool_decide (15 < failed)%nat.
Proof.
  intros H.
  do 51 (destruct failed as [|failed]; [vm_compute; reflexivity|]).
  lia.
Qed.

Lemma failure_fraction (failed : nat) :
  (3 # 10 < inject_Z (Z.of_nat failed) / 50)%Q <-> (15 < failed)%nat.
Proof.
  unfold Qlt, Qdiv, Qmult, Qinv, inject_Z. cbn [Qnum Qden]. lia.
Qed.

Lemma bruteforce_unauthenticated (attempts : nat) env w :
  truthy (token_in (network env (sent w ++ [login_request env])%list)) = false ->
  bruteforce_handshake attempts env w = (Ok false, logged w [login_request env]).
Proof.
  intros Htr. unfold bruteforce_handshake.
  rewrite run_get_auth_token, Htr. reflexivity.
Qed.

Lemma bruteforce_run (attempts : nat) env w :
  let token := token_in (network env (sent w ++ [login_request env])%list) in
  let w' := after_attempts attempts env token (loop_start env w) in
  truthy token = true ->
  bruteforce_handshake attempts env w
  = (Ok (many_failures (failed_count (tally w')) attempts
         || bool_decide (0 < suspicious_count (tally w'))%nat), w').
Proof.
  intros token w' Htr. unfold bruteforce_handshake.
  rewrite run_get_auth_token. fold token. rewrite Htr. cbn [negb].
  unfold try_except.
  unfold mbind at 1, M_bind at 1, set_tally, logged. cbn [sent heap drawn tally].
  fold (loop_start env w).
  unfold mbind at 1, M_bind at 1. rewrite attempts_loop_run.
  unfold range. rewrite length_seq, Nat.sub_0_r. fold w'. reflexivity.
Qed.

(** C7, as the code has it. With a token, the brute-force scenario
    makes 50 init requests, each with the base64 text of 32 bytes from
    [os.urandom]; its counters are what the 50 attempts add up to
    (suspicious: score above 0.5; success: validate answered 200 with
    a score of at most 0.5; no class at all: init answered 200 with a
    JSON object that holds no handshake id; failure: the rest,
    transport errors among them), so that the failures, the successes
    and the attempts counted in no class are 50 together; and it
    passes exactly when [failed_count / 50 > 0.3] or
    [suspicious_count >= 1]. *)
Theorem bruteforce_verdict env w :
  let token := token_in (network env (sent w ++ [login_request env])%list) in
  let out := bruteforce_handshake 50 env w in
  let keys := attempt_keys 50 env token (loop_start env w) in
  let obs := observations 50 env token (loop_start env w) in
  truthy token = true ->
  (length keys = 50%nat /\ Forall (fun k => length k = 32%nat) keys /\
   exists new,
     sent out.2 = ((sent w ++ [login_request env]) ++ new)%list /\
     filter (is_init env) new = map (fun k => init_request env token k 2) keys) /\
  (length obs = 50%nat /\
   tally out.2 = foldl (fun c o => classify o c) zero obs /\
   (failed_count (tally out.2) + success_count (tally out.2)
    + length (filter (fun o => uncounted o = true) obs) = 50)%nat /\
   (suspicious_count (tally out.2) <= failed_count (tally out.2))%nat) /\
  (out.1 = Ok true <->
     (3 # 10 < inject_Z (Z.of_nat (failed_count (tally out.2))) / 50)%Q \/
     (1 <= suspicious_count (tally out.2))%nat) /\
  (exists b, out.1 = Ok b).
Proof.
  intros token out keys obs Htr.
  pose proof (bruteforce_run 50 env w Htr) as Hrun. fold token in Hrun.
  unfold out. rewrite Hrun. cbn [fst snd].
  set (w' := after_attempts 50 env token (loop_start env w)).
  split; [|split; [|split]].
  - destruct (attempt_keys_length 50 token env (loop_start env w)) as [Hl Hf].
    split; [exact Hl|]. split; [exact Hf|].
    exact (sent_after_attempts 50 token env (loop_start env w)).
  - pose proof (tally_after_attempts 50 token env (loop_start env w)) as Ht.
    pose proof (observations_length 50 token env (loop_start env w)) as Hl.
    split; [exact Hl|]. split; [exact Ht|].
    fold w' in Ht. rewrite Ht. cbn [loop_start tally].
    pose proof (classify_total (observations 50 env token (loop_start env w)) zero) as Hc.
    cbn zeta in Hc. rewrite Hl in Hc. cbn [zero failed_count success_count] in Hc.
    split; [exact Hc|].
    apply suspicious_among_failures. cbn. lia.
  - pose proof (failed_after_attempts 50 token env (loop_start env w)) as Hb.
    fold w' in Hb. cbn [loop_start tally zero failed_count] in Hb.
    rewrite many_failures_of_50 by lia. rewrite failure_fraction.
    split.
    + intros [= H]. apply orb_true_iff in H.
      destruct H as [H|H]; apply bool_decide_eq_true in H; [left | right]; lia.
    + intros H. f_equal. apply orb_true_iff.
      destruct H as [H|H]; [left | right]; apply bool_decide_eq_true; lia.
  - eexists. reflexivity.
Qed.

(** *** Replay *)

(** A second [read()] of one [BytesIO] object returns no bytes. *)
Lemma second_read_is_empty (fp : nat) (io : BytesIO) env w :
  heap w !! fp = Some io ->
  exists w1 w2,
    read fp env w = (Ok (drop (position io) (buffer io)), w1) /\
    read fp env w1 = (Ok [], w2).
Proof.
  intros Hio. unfold read. rewrite Hio. eexists. eexists. split; [reflexivity|].
  cbn [heap]. rewrite list_lookup_insert_eq by (eapply lookup_lt_Some; exact Hio).
  cbn [position buffer]. rewrite drop_ge by lia. reflexivity.
Qed.

Lemma run_post_files {A : Type} (u name ctype : string) (fp : nat) (io : BytesIO)
    (token : json) (t : Z) (k : response -> M A) env w :
  heap w !! fp = Some io ->
  (post_files u name fp ctype (Some token) t ≫= k) env w
  = let rq := {| url := u;
                 sent_payload := FileBody name (drop (position io) (buffer io)) ctype;
                 bearer := Some token; timeout := t |} in
    match network env (sent w ++ [rq])%list with
    | Ok r => k r env (logged (read_to_end w fp io) [rq])
    | Raise e => (Raise e, logged (read_to_end w fp io) [rq])
    end.
Proof.
  intros Hio. unfold mbind at 1, M_bind at 1, post_files.
  unfold mbind at 1, M_bind at 1, read. rewrite Hio.
  fold (read_to_end w fp io). cbv zeta.
  unfold send, logged. cbn [sent heap drawn tally read_to_end].
  destruct (network env _); reflexivity.
Qed.

Lemma replay_loop_cons (i : nat) (idxs : list nat) (u : string) (fp : nat) (token : json) :
  replay_loop (i :: idxs) u fp token
  = (replay_response ← post_files u "replay_attack.txt" fp "text/plain" (Some token) 10;
     replay_data ← lift (json_or_empty replay_response);
     error_msg ← lift (get replay_data "error" (JStr ""));
     lowered ← lift (lower error_msg);
     if contains "replay" lowered || contains "nonce" lowered
     then mret (Some true)
     else replay_loop idxs u fp token).
Proof. reflexivity. Qed.

(** Once the object has been read to its end, every pass through the
    replay loop uploads no bytes. *)
Lemma replay_loop_after_first_read (idxs : list nat) (fp : nat) (io : BytesIO)
    (token : json) env w :
  heap w !! fp = Some io -> (length (buffer io) <= position io)%nat ->
  exists r n,
    replay_loop idxs (SERVER_URL env ++ "/files/upload") fp token env w
    = (r, logged w (replicate n (replay_request env token []))) /\
    (n <= length idxs)%nat.
Proof.
  revert w. induction idxs as [|i idxs IH]; intros w Hio Hpos.
  - exists (Ok None), 0%nat. split; [|cbn; lia].
    unfold logged. cbn. rewrite app_nil_r. destruct w; reflexivity.
  - rewrite replay_loop_cons, (run_post_files _ _ _ _ io) by exact Hio. cbv zeta.
    rewrite drop_ge by exact Hpos.
    fold (upload_request env token "replay_attack.txt" [] "text/plain").
    fold (replay_request env token []).
    assert (Hsame : read_to_end w fp io = w).
    { unfold read_to_end. rewrite Nat.max_l by exact Hpos.
      destruct io as [buf pos]. cbn [buffer position].
      rewrite list_insert_id by exact Hio. destruct w; reflexivity. }
    rewrite Hsame.
    set (w1 := logged w [replay_request env token []]).
    destruct (network env _) as [r|e];
      [|eexists; exists 1%nat; split; [reflexivity | cbn; lia]].
    rewrite run_lift. destruct (json_or_empty r) as [replay_data|e];
      [|eexists; exists 1%nat; split; [reflexivity | cbn; lia]].
    rewrite run_lift. destruct (get replay_data "error" (JStr "")) as [error_msg|e];
      [|eexists; exists 1%nat; split; [reflexivity | cbn; lia]].
    rewrite run_lift. destruct (lower error_msg) as [lowered|e];
      [|eexists; exists 1%nat; split; [reflexivity | cbn; lia]].
    destruct (contains "replay" lowered || contains "nonce" lowered);
      [eexists; exists 1%nat; split; [reflexivity | cbn; lia]|].
    destruct (IH w1 Hio Hpos) as (r' & n & Hrun & Hn).
    exists r', (S n). split; [|cbn; lia].
    rewrite Hrun. unfold w1. rewrite logged_logged. reflexivity.
Qed.

(** The uploads of the replay scenario, for every server: after the
    initial upload, the first replay (when it is made) carries the
    payload, and the replays after it (at most two) carry no bytes. *)
Lemma replay_uploads env w :
  let token := token_in (network env (sent w ++ [login_request env])%list) in
  truthy token = true ->
  exists rest,
    sent (replay_attack_demo env w).2
    = (sent w ++ [login_request env;
                  upload_request env token "initial_upload.txt" test_content "text/plain"]
         ++ rest)%list /\
    (rest = [] \/
     exists n, (n <= 2)%nat /\
       rest = replay_request env token test_content
              :: replicate n (replay_request env token [])).
Proof.
  intros token Htr. unfold replay_attack_demo.
  rewrite run_ask, run_get_auth_token. fold token. rewrite Htr. cbn [negb].
  unfold try_except. rewrite run_fresh_upload. cbv zeta.
  fold (upload_request env token "initial_upload.txt" test_content "text/plain").
  set (rq0 := upload_request env token "initial_upload.txt" test_content "text/plain").
  unfold logged at 1. cbn [sent]. rewrite <- app_assoc. cbn [app].
  set (w1 := uploaded (logged w [login_request env]) rq0 test_content).
  assert (Hs1 : sent w1 = (sent w ++ [login_request env; rq0])%list).
  { unfold w1, uploaded, logged. cbn [sent]. rewrite <- app_assoc. reflexivity. }
  destruct (network env (sent w ++ [login_request env; rq0])%list) as [r0|e0].
  2:{ exists []. split; [exact Hs1 | left; reflexivity]. }
  unfold mbind at 1, M_bind at 1, new_BytesIO. cbv zeta.
  set (io := {| buffer := test_content; position := 0 |}).
  set (w2 := {| sent := sent w1; heap := (heap w1 ++ [io])%list;
                drawn := drawn w1; tally := tally w1 |}).
  assert (Hio : heap w2 !! length (heap w1) = Some io).
  { unfold w2. cbn [heap]. apply list_lookup_middle. reflexivity. }
  unfold range. cbn [Nat.sub seq]. rewrite replay_loop_cons.
  unfold mbind at 1, M_bind at 1.
  rewrite (run_post_files _ _ _ _ io) by exact Hio. cbv zeta.
  subst io. cbn [position buffer]. rewrite drop_0.
  set (io := {| buffer := test_content; position := 0 |}) in *.
  fold (upload_request env token "replay_attack.txt" test_content "text/plain").
  fold (replay_request env token test_content).
  set (rq1 := replay_request env token test_content).
  set (w3 := logged (read_to_end w2 (length (heap w1)) io) [rq1]).
  assert (Hs3 : sent w3 = (sent w ++ [login_request env; rq0; rq1])%list).
  { unfold w3, logged, read_to_end. cbn [sent]. unfold w2. cbn [sent].
    rewrite Hs1, <- app_assoc. reflexivity. }
  assert (Hone : forall (r : result bool),
    exists rest,
      sent (r, w3).2 = (sent w ++ login_request env :: rq0 :: rest)%list /\
      (rest = [] \/
       exists n, (n <= 2)%nat /\ rest = rq1 :: replicate n (replay_request env token []))).
  { intros r. exists [rq1]. split; [exact Hs3|]. right. exists 0%nat. split; [lia | reflexivity]. }
  destruct (network env (sent w2 ++ [rq1])%list) as [r1|e1]; [|apply Hone].
  rewrite run_lift. destruct (json_or_empty r1) as [replay_data|e]; [|apply Hone].
  rewrite run_lift. destruct (get replay_data "error" (JStr "")) as [error_msg|e];
    [|apply Hone].
  rewrite run_lift. destruct (lower error_msg) as [lowered|e]; [|apply Hone].
  destruct (contains "replay" lowered || contains "nonce" lowered); [apply Hone|].
  assert (Hio3 : heap w3 !! length (heap w1)
                 = Some {| buffer := test_content; position := length test_content |}).
  { unfold w3, logged, read_to_end. cbn [heap]. unfold w2. cbn [heap].
    rewrite list_lookup_insert_eq by (rewrite length_app; cbn; lia). reflexivity. }
  destruct (replay_loop_after_first_read [1; 2]%nat _ _ token env w3 Hio3 ltac:(reflexivity))
    as (r & n & Hrun & Hn).
  rewrite Hrun.
  exists (rq1 :: replicate n (replay_request env token [])). split.
  - destruct r as [[b|]|e]; cbn [snd mret M_ret]; unfold logged; cbn [sent];
      rewrite Hs3, <- app_assoc; reflexivity.
  - right. exists n. split; [exact Hn | reflexivity].
Qed.

(** C8 at a server that accepts every upload: the scenario makes the
    initial upload and three replays, but the three replays read one
    [BytesIO] object, so only the first replay carries the payload;
    the second and the third carry no bytes. The scenario passes. *)
Theorem replay_sends_empty_payloads :
  map sent_payload (sent (replay_attack_demo lenient start).2)
  = [JsonBody (JDict [("email", JStr "test@example.com");
                      ("password", JStr "Test123!@#")]);
     FileBody "initial_upload.txt" test_content "text/plain";
     FileBody "replay_attack.txt" test_content "text/plain";
     FileBody "replay_attack.txt" [] "text/plain";
     FileBody "replay_attack.txt" [] "text/plain"] /\
  (replay_attack_demo lenient start).1 = Ok true.
Proof. split; vm_compute; reflexivity. Qed.

(** *** The script body *)

Lemma scenario_returns (body : json -> M bool) env w :
  exists b,
    ((token ← get_auth_token;
      if negb (truthy token) then mret false
      else try_except (body token) (fun _ => mret false)) env w).1 = Ok b.
Proof.
  rewrite run_get_auth_token.
  destruct (negb (truthy _)); [exists false; reflexivity|].
  apply try_except_returns.
Qed.

Lemma tampered_upload_returns env w :
  exists b, (tampered_upload_demo env w).1 = Ok b.
Proof. unfold tampered_upload_demo. rewrite run_ask. apply scenario_returns. Qed.

Lemma mitm_wrong_key_returns env w :
  exists b, (mitm_wrong_key env w).1 = Ok b.
Proof. unfold mitm_wrong_key. rewrite run_ask. apply scenario_returns. Qed.

Lemma replay_attack_returns env w :
  exists b, (replay_attack_demo env w).1 = Ok b.
Proof. unfold replay_attack_demo. rewrite run_ask. apply scenario_returns. Qed.

Lemma bruteforce_returns (attempts : nat) env w :
  exists b, (bruteforce_handshake attempts env w).1 = Ok b.
Proof. unfold bruteforce_handshake. apply scenario_returns. Qed.

(** The script body runs to its end whatever the scenarios meet, so the
    process exits with status 0. *)
Lemma attack_simulator_exits_0 env : attack_simulator_py env = 0%Z.
Proof.
  unfold attack_simulator_py, main, mbind, M_bind.
  destruct (tampered_upload_demo env start) as [r1 w1] eqn:E1.
  destruct (tampered_upload_returns env start) as [b1 H1].
  rewrite E1 in H1. cbn [fst] in H1. subst r1.
  destruct (mitm_wrong_key env w1) as [r2 w2] eqn:E2.
  destruct (mitm_wrong_key_returns env w1) as [b2 H2].
  rewrite E2 in H2. cbn [fst] in H2. subst r2.
  destruct (replay_attack_demo env w2) as [r3 w3] eqn:E3.
  destruct (replay_attack_returns env w2) as [b3 H3].
  rewrite E3 in H3. cbn [fst] in H3. subst r3.
  destruct (bruteforce_handshake 50 env w3) as [r4 w4] eqn:E4.
  destruct (bruteforce_returns 50 env w3) as [b4 H4].
  rewrite E4 in H4. cbn [fst] in H4. subst r4.
  reflexivity.
Qed.

End SimulatorFacts.

(** C4 on a host whose server is unreachable: all four scenarios fail, the
    summary is 0/4, and the process still exits with status 0 (as it does
    against every server), so [run_test] counts the script as passed and
    the whole suite exits with status 0. *)
Theorem attack_simulator_exit_ignores_summary :
  (Simulator.main Simulator.unreachable Simulator.start).1
  = Ok ([("MITM Tampered Ciphertext", false); ("MITM Wrong Key", false);
         ("Replay Attack", false); ("Brute Force Handshake", false)],
        (0%nat, 4%nat)) /\
  attack_simulator_py Simulator.unreachable = 0%Z /\
  (forall env, attack_simulator_py env = 0%Z) /\
  (Harness.run_test (Harness.lab Simulator.unreachable)
     "TEST 2-4: MITM & Attack Scenarios" "attack_simulator.py"
     "Simulates MITM attacks (tampered ciphertext, wrong keys), replay, brute force"
     []).1 = (true, 0%Z) /\
  Harness.run_full_security_tests_py (Harness.lab Simulator.unreachable) = 0%Z.
Proof.
  split; [vm_compute; reflexivity|].
  split; [apply attack_simulator_exits_0|].
  split; [exact attack_simulator_exits_0|].
  assert (Hrun : forall n d l,
    Harness.run_test (Harness.lab Simulator.unreachable) n "attack_simulator.py" d l
    = ((true, 0%Z), (l ++ ["attack_simulator.py"])%list)).
  { intros n d l. unfold Harness.run_test, Harness.lab. cbn [Harness.program].
    rewrite bool_decide_eq_true_2 by reflexivity.
    unfold Harness.subprocess_run. rewrite attack_simulator_exits_0. reflexivity. }
  split; [rewrite Hrun; reflexivity|].
  unfold Harness.run_full_security_tests_py, Harness.main.
  change (Harness.operator (Harness.lab Simulator.unreachable)) with Harness.Enter.
  change (Harness.check_prerequisites (Harness.lab Simulator.unreachable)) with true.
  cbv iota. cbn [negb].
  change (Harness.run_test (Harness.lab Simulator.unreachable)
            "TEST 1: Normal Secure Upload" "client/client.py"
            "Performs normal secure upload with handshake - should have IDS probability < 0.3"
            [])
    with ((true, 0%Z), ["client/client.py"]).
  cbv iota zeta beta. rewrite Hrun. reflexivity.
Qed.

Lemma bruteforce_verdict_witness :
  ((Simulator.bruteforce_handshake 50 Simulator.strict Simulator.start).1 = Ok true <->
   (3 # 10 < inject_Z (Z.of_nat (Simulator.failed_count
      (Simulator.tally (Simulator.bruteforce_handshake 50 Simulator.strict Simulator.start).2)))
      / 50)%Q \/
   (1 <= Simulator.suspicious_count
      (Simulator.tally (Simulator.bruteforce_handshake 50 Simulator.strict
                          Simulator.start).2))%nat).
Proof.
  refine (proj1 (proj2 (proj2 (bruteforce_verdict Simulator.strict Simulator.start _)))).
  vm_compute. reflexivity.
Defined.

(** C7 as stated fails: against a server that answers every init
    request with status 200 and a JSON object without a handshake id,
    the scenario makes its 50 attempts and classifies none of them:
    the three counters are zero at the end. *)
Lemma bruteforce_attempts_in_no_class :
  length (filter (Simulator.is_init Simulator.lenient)
            (Simulator.sent (Simulator.bruteforce_handshake 50 Simulator.lenient
                               Simulator.start).2)) = 50 /\
  Simulator.tally (Simulator.bruteforce_handshake 50 Simulator.lenient Simulator.start).2
  = Simulator.zero /\
  (Simulator.bruteforce_handshake 50 Simulator.lenient Simulator.start).1 = Ok false.
Proof. split; [|split]; vm_compute; reflexivity. Qed.

(** ** The test harness *)

Section HarnessFacts.

Import Harness.

Lemma run_test_launches (h : host) (n s d : string) (l : list string) :
  (run_test h n s d l).2 = (l ++ [s])%list.
Proof.
  unfold run_test. destruct (subprocess_run (program h s) 300) as [rc|[]]; reflexivity.
Qed.

(** A script that exceeds the ceiling is a failed test with code -1. *)
Lemma run_test_timeout (h : host) (n s d : string) (l : list string) :
  exceeds_ceiling (program h s) 300 ->
  run_test h n s d l = ((false, (-1)%Z), (l ++ [s])%list).
Proof.
  unfold run_test, exceeds_ceiling, subprocess_run.
  destruct (program h s) as [seconds rc| |]; intros H; [|reflexivity|contradiction].
  rewrite bool_decide_eq_true_2 by exact H. reflexivity.
Qed.

(** With the operator at the prompt and the scripts in place, [main]
    launches the three scripts in order and succeeds when all three
    passed. *)
Lemma main_runs_all (h : host) :
  operator h = Enter -> check_prerequisites h = true ->
  main h
  = (Return
       ((run_test h "" "client/client.py" "" []).1.1
        && (run_test h "" "attack_simulator.py" "" []).1.1
        && (run_test h "" "upload_corrupted_file.py" "" []).1.1),
     required_scripts).
Proof.
  intros Hop Hpre. unfold main. rewrite Hop, Hpre. cbn [negb].
  unfold run_test.
  destruct (subprocess_run (program h "client/client.py") 300) as [rc1|e1];
    destruct (subprocess_run (program h "attack_simulator.py") 300) as [rc2|e2];
    destruct (subprocess_run (program h "upload_corrupted_file.py") 300) as [rc3|e3];
    try destruct e1; try destruct e2; try destruct e3;
    cbn [fst snd andb];
    repeat match goal with
           | |- context [bool_decide (?rc = 0%Z)] => destruct (bool_decide (rc = 0%Z))
           end;
    reflexivity.
Qed.

(** C5, as the code has it. When a script invocation exceeds the
    5-minute ceiling, [run_test] records it as a failed test with code
    -1; the run goes on: all three scripts are launched, in order; and
    the harness exits with status 1. *)
Theorem timeout_fails_the_test_only (h : host) (script : string) :
  operator h = Enter -> check_prerequisites h = true ->
  script ∈ required_scripts ->
  exceeds_ceiling (program h script) 300 ->
  (forall n d l, run_test h n script d l = ((false, (-1)%Z), (l ++ [script])%list)) /\
  (main h).2 = required_scripts /\
  (main h).1 = Return false /\
  run_full_security_tests_py h = 1%Z.
Proof.
  intros Hop Hpre Hin Hex.
  split; [intros n d l; apply run_test_timeout; exact Hex|].
  unfold run_full_security_tests_py. rewrite (main_runs_all h Hop Hpre). cbn [fst snd].
  assert (Hfalse : (run_test h "" "client/client.py" "" []).1.1
                   && (run_test h "" "attack_simulator.py" "" []).1.1
                   && (run_test h "" "upload_corrupted_file.py" "" []).1.1 = false).
  { unfold required_scripts in Hin.
    apply elem_of_cons in Hin as [->|Hin]; [|apply elem_of_cons in Hin as [->|Hin];
      [|apply elem_of_cons in Hin as [->|Hin]; [|inversion Hin]]];
      rewrite (run_test_timeout h _ _ _ _ Hex); cbn [fst snd andb];
      rewrite ?andb_false_r; reflexivity. }
  rewrite Hfalse. repeat split; reflexivity.
Qed.

Lemma timeout_fails_the_test_only_witness :
  (main stalled).2 = required_scripts /\
  (main stalled).1 = Return false /\
  run_full_security_tests_py stalled = 1%Z.
Proof.
  refine (proj2 (timeout_fails_the_test_only stalled "client/client.py" _ _ _ _)).
  - reflexivity.
  - reflexivity.
  - unfold required_scripts. constructor.
  - exact I.
Defined.

(** C5 as stated fails: the first script never exits, and the two
    other scripts are launched after it all the same. *)
Lemma timeout_does_not_abort_the_run :
  exceeds_ceiling (program stalled "client/client.py") 300 /\
  (main stalled).2
  = ["client/client.py"; "attack_simulator.py"; "upload_corrupted_file.py"].
Proof. split; [exact I | reflexivity]. Qed.

End HarnessFacts.

(** * Further properties of the code *)

(** ** The scorer *)

Section InferenceMore.

Import Inference.

Variable sqrt : Qc -> Qc.

(** Both functions read the same score in the same way. *)
Lemma same_score (f : features) (m : model) :
  (exists e e', predict_handshake_try sqrt f m = Raise e /\
                predict_file_try sqrt f m = Raise e') \/
  (exists s, predict_handshake_try sqrt f m
               = Ok (s, if float_gt s (Fin lit_0_5) then "suspicious" else "normal") /\
             predict_file_try sqrt f m
               = Ok (s, if float_gt s (Fin lit_0_4) then "suspicious" else "normal")).
Proof.
  unfold predict_handshake_try, predict_file_try. cbv zeta.
  destruct (fit_transform sqrt (DataFrame [f])) as [X|e]; [|left; cbn; eauto].
  cbn [mbind result_bind].
  match goal with |- context [mbind _ ?c] => destruct c as [s|e] end;
    [right; exists s; split; reflexivity | left; cbn; eauto].
Qed.

Lemma lit_0_4_below_lit_0_5 : (lit_0_4 < lit_0_5)%Qc.
Proof. reflexivity. Qed.

(** X1. On the same features and model, [predict_file] and
    [predict_handshake] return the same score, and the file verdict is the
    stricter one: whatever is "suspicious" as a handshake is "suspicious"
    as a file, and the two verdicts differ exactly when the score is above
    0.4 without being above 0.5. *)
Theorem file_verdict_is_stricter (f : features) (m : model) :
  (predict_file sqrt f m).1 = (predict_handshake sqrt f m).1 /\
  ((predict_handshake sqrt f m).2 = "suspicious" ->
   (predict_file sqrt f m).2 = "suspicious") /\
  ((predict_file sqrt f m).2 <> (predict_handshake sqrt f m).2 <->
   above (predict_handshake sqrt f m).1 lit_0_4 /\
   ~ above (predict_handshake sqrt f m).1 lit_0_5).
Proof.
  assert (Hmono : forall s, above s lit_0_5 -> above s lit_0_4).
  { intros [q| | |]; cbn; auto. intros H.
    eapply Qclt_trans; [exact lit_0_4_below_lit_0_5 | exact H]. }
  unfold predict_handshake, predict_file.
  destruct (same_score f m) as [(e & e' & -> & ->)|(s & -> & ->)]; cbn [fst snd].
  - split; [reflexivity|]. split; [discriminate|].
    split; [intros H; exfalso; apply H; reflexivity|].
    intros [H _]. exfalso. revert H. cbn. discriminate.
  - split; [reflexivity|].
    specialize (Hmono s). rewrite <- !float_gt_above in *.
    destruct (float_gt s (Fin lit_0_5)); destruct (float_gt s (Fin lit_0_4));
      intuition (discriminate || congruence).
Qed.

Lemma check_row_infinite (r : list cell) :
  Num PosInf ∈ r \/ Num NegInf ∈ r -> exists e, check_row r = Raise e.
Proof.
  induction r as [|c r IH]; intros H.
  - destruct H as [H|H]; inversion H.
  - cbn [check_row].
    destruct (check_cell c) as [x|e] eqn:Hc; [|cbn; eauto].
    destruct IH as [e ->]; [|cbn; eauto].
    destruct H as [H|H]; apply elem_of_cons in H as [<-|H]; auto; discriminate Hc.
Qed.

(** X2. A feature dictionary that holds an infinite value is refused by
    the scaler, so both scorers answer (0.1, "normal") for it, whatever
    the model would have said. *)
Theorem infinite_value_gets_default (f : features) (m : model) :
  Num PosInf ∈ f.*2 \/ Num NegInf ∈ f.*2 ->
  predict_handshake sqrt f m = (Fin lit_0_1, "normal") /\
  predict_file sqrt f m = (Fin lit_0_1, "normal").
Proof.
  intros H.
  assert (Hfit : exists e, fit_transform sqrt (DataFrame [f]) = Raise e).
  { unfold fit_transform, check_array, DataFrame. cbn [map check_rows].
    destruct (check_row_infinite _ H) as [e ->]. cbn. eauto. }
  destruct Hfit as [e Hfit].
  unfold predict_handshake, predict_file, predict_handshake_try, predict_file_try.
  cbv zeta. rewrite Hfit. split; reflexivity.
Qed.

End InferenceMore.

Lemma infinite_value_gets_default_witness :
  Inference.predict_handshake Inference.newton_sqrt
    [("key_size", Inference.Num PosInf)] Inference.threshold_classifier
  = (Fin lit_0_1, "normal") /\
  Inference.predict_file Inference.newton_sqrt
    [("key_size", Inference.Num PosInf)] Inference.threshold_classifier
  = (Fin lit_0_1, "normal").
Proof.
  apply (infinite_value_gets_default Inference.newton_sqrt
           [("key_size", Inference.Num PosInf)] Inference.threshold_classifier).
  left. constructor.
Defined.

Section InferenceNaN.

Import Inference.

Variable sqrt : Qc -> Qc.

Lemma check_row_passes (xs : list float64) :
  Forall passes_validation xs -> check_row (map Num xs) = Ok xs.
Proof.
  induction 1 as [|x xs Hx _ IH]; [reflexivity|].
  cbn [map check_row]. rewrite IH. destruct x as [q| | |]; try contradiction.
  - cbn [check_cell]. cbn [passes_validation] in Hx. rewrite Hx. reflexivity.
  - reflexivity.
Qed.

Lemma model_output_functional (m : model) (X : matrix) (s s' : float64) :
  model_output m X s -> model_output m X s' -> s = s'.
Proof.
  unfold model_output. destruct (predict_proba m) as [proba|].
  - intros (P & row0 & HP & H0 & Hs) (P' & row0' & HP' & H0' & Hs').
    rewrite HP in HP'. injection HP' as <-. rewrite H0 in H0'. injection H0' as <-.
    congruence.
  - intros (pred & L & Hp & HL & Hs) (pred' & L' & Hp' & HL' & Hs').
    rewrite Hp in Hp'. injection Hp' as <-. rewrite HL in HL'. injection HL' as <-.
    congruence.
Qed.

Lemma columns_one_row_nan (xs : list float64) :
  map (column [xs]) (seq 0 (length xs))
  = map (fun x => match x with Fin q => [q] | _ => [] end) xs.
Proof.
  induction xs as [|x xs IH]; [reflexivity|].
  cbn [length seq map]. f_equal.
  - destruct x; reflexivity.
  - rewrite <- fmap_S_seq, <- IH. rewrite <- list_fmap_compose. reflexivity.
Qed.

Lemma transform_one_row_nan (xs : list float64) :
  transform_row xs
    (map mean (map (fun x => match x with Fin q => [q] | _ => [] end) xs))
    (map (scale sqrt) (map (fun x => match x with Fin q => [q] | _ => [] end) xs))
  = map scaled_alone xs.
Proof.
  induction xs as [|x xs IH]; [reflexivity|].
  cbn [map transform_row]. rewrite IH. f_equal.
  destruct x as [q| | |]; try reflexivity.
  cbn [transform_entry scaled_alone]. rewrite mean_one, (scale_one sqrt).
  f_equal. field. apply Q_apart_0_1.
Qed.

(** X3. A NaN among the feature values is not refused: on a
    dictionary whose values are NaN or finite numbers that convert to a
    double, [predict_handshake] and [predict_file] hand the model a row
    with NaN at the places of the NaN values and 0 at the places of the
    finite ones, and return what the model puts out on that row. *)
Theorem nan_reaches_the_model (f : features) (xs : list float64) (m : model) :
  f.*2 = map Num xs -> Forall passes_validation xs -> xs <> [] ->
  fit_transform sqrt (DataFrame [f]) = Ok [map scaled_alone xs] /\
  (forall s, model_output m [map scaled_alone xs] s ->
     predict_handshake sqrt f m = scored s lit_0_5 /\
     predict_file sqrt f m = scored s lit_0_4).
Proof.
  intros Hf Hxs Hne.
  assert (Hfit : fit_transform sqrt (DataFrame [f]) = Ok [map scaled_alone xs]).
  { unfold fit_transform, check_array, DataFrame. cbn [map check_rows].
    rewrite Hf, (check_row_passes xs Hxs).
    cbn [mbind result_bind length n_features].
    rewrite bool_decide_eq_false_2 by discriminate.
    rewrite bool_decide_eq_false_2 by (destruct xs; [congruence | discriminate]).
    unfold transform, fit. cbn [mbind result_bind map mean_ scale_ n_features].
    rewrite columns_one_row_nan, transform_one_row_nan. reflexivity. }
  split; [exact Hfit|]. intros s Hout. split.
  - destruct (predict_handshake_cases sqrt f m) as [[_ Hwhy]|(X & s' & HX & Hout' & Hh)].
    + exfalso. destruct Hwhy as [[e He]|(X & HX & Hnone)].
      * rewrite Hfit in He. discriminate.
      * rewrite Hfit in HX. injection HX as <-. exact (Hnone s Hout).
    + rewrite Hfit in HX. injection HX as <-.
      rewrite (model_output_functional m _ s s' Hout Hout'). exact Hh.
  - destruct (predict_file_cases sqrt f m) as [[_ Hwhy]|(X & s' & HX & Hout' & Hh)].
    + exfalso. destruct Hwhy as [[e He]|(X & HX & Hnone)].
      * rewrite Hfit in He. discriminate.
      * rewrite Hfit in HX. injection HX as <-. exact (Hnone s Hout).
    + rewrite Hfit in HX. injection HX as <-.
      rewrite (model_output_functional m _ s s' Hout Hout'). exact Hh.
Qed.

End InferenceNaN.

Lemma nan_reaches_the_model_witness :
  Inference.predict_handshake Inference.newton_sqrt
    [("retry_count", Inference.Num NaN); ("key_size", Inference.num 128)]
    Inference.nan_detector
  = (Fin (Q2Qc (9 # 10)), "suspicious") /\
  Inference.predict_file Inference.newton_sqrt
    [("retry_count", Inference.Num NaN); ("key_size", Inference.num 128)]
    Inference.nan_detector
  = (Fin (Q2Qc (9 # 10)), "suspicious").
Proof.
  apply (proj2 (nan_reaches_the_model Inference.newton_sqrt
                  [("retry_count", Inference.Num NaN); ("key_size", Inference.num 128)]
                  [NaN; Fin (Q2Qc 128)] Inference.nan_detector
                  eq_refl
                  ltac:(repeat constructor) ltac:(discriminate))
          (Fin (Q2Qc (9 # 10)))).
  exists [[Fin (Q2Qc (1 # 10)); Fin (Q2Qc (9 # 10))]], [Fin (Q2Qc (1 # 10)); Fin (Q2Qc (9 # 10))].
  split; [reflexivity|]. split; reflexivity.
Defined.

(** ** The attack scenarios *)

Section SimulatorMore.

Import Simulator.

Implicit Types (env : environment) (w : world).

(** X4. [get_auth_token] never raises and makes one request, the login.
    What it returns is a usable token only when the login was answered
    with status 200 and a JSON object that holds the token; in every
    other case it returns nothing usable. *)
Theorem token_only_from_a_successful_login env w :
  (get_auth_token env w).2 = logged w [login_request env] /\
  exists t,
    (get_auth_token env w).1 = Ok t /\
    (truthy t = true ->
     exists r d,
       network env (sent w ++ [login_request env])%list = Ok r /\
       status_code r = 200%Z /\ body r = JsonText (JDict d) /\
       assoc "token" d = Some t).
Proof.
  rewrite get_auth_token_spec. cbn [fst snd]. split; [reflexivity|].
  eexists. split; [reflexivity|].
  unfold token_in.
  destruct (network env (sent w ++ [login_request env])%list) as [[st bd]|e];
    [|discriminate].
  cbn [status_code body]. case_bool_decide as Hst; [|discriminate].
  destruct bd as [|[| | | | |d]|s]; try discriminate.
  destruct (assoc "token" d) as [t|] eqn:Ht; [|discriminate].
  intros _. eexists. exists d. cbn [status_code body]. auto.
Qed.

Lemma replay_attack_unauthenticated env w :
  truthy (token_in (network env (sent w ++ [login_request env])%list)) = false ->
  replay_attack_demo env w = (Ok false, logged w [login_request env]).
Proof.
  intros Htr. unfold replay_attack_demo.
  rewrite run_ask, run_get_auth_token, Htr. reflexivity.
Qed.

(** X5. Without a usable token no scenario goes further than the login:
    each of the four returns [False] after that one request. *)
Theorem no_token_no_attack env w :
  truthy (token_in (network env (sent w ++ [login_request env])%list)) = false ->
  tampered_upload_demo env w = (Ok false, logged w [login_request env]) /\
  mitm_wrong_key env w = (Ok false, logged w [login_request env]) /\
  replay_attack_demo env w = (Ok false, logged w [login_request env]) /\
  forall attempts,
    bruteforce_handshake attempts env w = (Ok false, logged w [login_request env]).
Proof.
  intros Htr.
  split; [exact (tampered_upload_unauthenticated env w Htr)|].
  split; [exact (mitm_wrong_key_unauthenticated env w Htr)|].
  split; [exact (replay_attack_unauthenticated env w Htr)|].
  intros attempts. exact (bruteforce_unauthenticated attempts env w Htr).
Qed.

Lemma no_token_no_attack_witness :
  tampered_upload_demo unreachable start = (Ok false, logged start [login_request unreachable]) /\
  mitm_wrong_key unreachable start = (Ok false, logged start [login_request unreachable]) /\
  replay_attack_demo unreachable start = (Ok false, logged start [login_request unreachable]) /\
  forall attempts,
    bruteforce_handshake attempts unreachable start
    = (Ok false, logged start [login_request unreachable]).
Proof. apply (no_token_no_attack unreachable start). reflexivity. Defined.

(** *** Flipping bytes *)

Lemma flip_twice (b : N) : N.lxor (N.lxor b 255) 255 = b.
Proof. rewrite N.lxor_assoc, N.lxor_nilpotent, N.lxor_0_r. reflexivity. Qed.

Lemma flip_changes (b : N) : N.lxor b 255 <> b.
Proof.
  intros H. assert (H0 : N.lxor (N.lxor b 255) b = 0%N) by (rewrite H; apply N.lxor_nilpotent).
  rewrite (N.lxor_comm b 255), N.lxor_assoc, N.lxor_nilpotent, N.lxor_0_r in H0.
  discriminate.
Qed.

Lemma flip_stays_a_byte (b : N) : (b < 256)%N -> (N.lxor b 255 < 256)%N.
Proof.
  intros Hb. destruct (N.eq_dec (N.lxor b 255) 0%N) as [->|Hne]; [reflexivity|].
  change 256%N with (2 ^ 8)%N. apply N.log2_lt_pow2; [lia|].
  eapply N.le_lt_trans; [apply N.log2_lxor|].
  apply N.max_lub_lt; [|reflexivity].
  destruct (N.eq_dec b 0%N) as [->|Hb0]; [reflexivity|].
  apply N.log2_lt_pow2; [lia | exact Hb].
Qed.

Lemma flipped_twice (lo hi : nat) (data : bytes) :
  flipped lo hi (flipped lo hi data) = data.
Proof.
  apply list_eq. intros i. unfold flipped. rewrite !list_lookup_imap.
  destruct (data !! i) as [b|]; [|reflexivity]. cbn.
  case_bool_decide; [rewrite flip_twice|]; reflexivity.
Qed.

(** X6. The byte-flipping loop of the tamper scenario, on any byte string
    that reaches [hi]: it keeps the length, changes every byte at
    positions [lo, hi) and no other, keeps bytes below 256, and applied a
    second time it gives the first string back. *)
Theorem flipping_is_an_involution (lo hi : nat) (data : bytes) :
  (lo <= hi <= length data)%nat ->
  exists t,
    flip_bytes data (range lo hi) = Ok t /\
    length t = length data /\
    (forall i b, data !! i = Some b ->
       t !! i = Some (if bool_decide (lo <= i < hi)%nat then N.lxor b 255 else b)) /\
    (forall i, (lo <= i < hi)%nat -> t !! i <> data !! i) /\
    (Forall (fun b => (b < 256)%N) data -> Forall (fun b => (b < 256)%N) t) /\
    flip_bytes t (range lo hi) = Ok data.
Proof.
  intros H. exists (flipped lo hi data).
  assert (Hlen : length (flipped lo hi data) = length data) by apply length_imap.
  assert (Hlook : forall i b, data !! i = Some b ->
            flipped lo hi data !! i
            = Some (if bool_decide (lo <= i < hi)%nat then N.lxor b 255 else b)).
  { intros i b Hb. unfold flipped. rewrite list_lookup_imap, Hb. reflexivity. }
  split; [apply flip_bytes_range; exact H|]. split; [exact Hlen|].
  split; [exact Hlook|]. split; [|split].
  - intros i Hi. destruct (lookup_lt_is_Some_2 data i ltac:(lia)) as [b Hb].
    rewrite (Hlook i b Hb), Hb, bool_decide_eq_true_2 by exact Hi.
    intros [= Heq]. exact (flip_changes b Heq).
  - intros Hall. apply Forall_lookup. intros i x Hx.
    destruct (lookup_lt_is_Some_2 data i) as [b Hb].
    { rewrite <- Hlen. eapply lookup_lt_Some. exact Hx. }
    rewrite (Hlook i b Hb) in Hx. injection Hx as <-.
    pose proof (proj1 (Forall_lookup _ _) Hall i b Hb) as Hlt. cbn in Hlt.
    case_bool_decide; [apply flip_stays_a_byte|]; exact Hlt.
  - rewrite flip_bytes_range by (rewrite Hlen; exact H).
    rewrite flipped_twice. reflexivity.
Qed.

Lemma flipping_is_an_involution_witness :
  exists t,
    flip_bytes legitimate_data (range 10 20) = Ok t /\
    length t = length legitimate_data /\
    (forall i b, legitimate_data !! i = Some b ->
       t !! i = Some (if bool_decide (10 <= i < 20)%nat then N.lxor b 255 else b)) /\
    (forall i, (10 <= i < 20)%nat -> t !! i <> legitimate_data !! i) /\
    (Forall (fun b => (b < 256)%N) legitimate_data -> Forall (fun b => (b < 256)%N) t) /\
    flip_bytes t (range 10 20) = Ok legitimate_data.
Proof. apply (flipping_is_an_involution 10 20 legitimate_data). cbn. lia. Defined.

Lemma flip_bytes_seq_short (n lo : nat) (data : bytes) :
  (0 < n)%nat -> (length data < lo + n)%nat ->
  flip_bytes data (seq lo n) = Raise IndexError.
Proof.
  revert lo data. induction n as [|n IH]; intros lo data Hn Hlen; [lia|].
  cbn [seq flip_bytes]. unfold index.
  destruct (data !! lo) as [b|] eqn:Hb; [|reflexivity].
  cbn [mbind result_bind]. apply lookup_lt_Some in Hb.
  apply IH; [|rewrite length_insert]; lia.
Qed.

(** X7. On a byte string shorter than [hi] the loop raises [IndexError]
    (for a range that is not empty), as an index assignment past the end
    of a bytearray does. *)
Theorem flipping_needs_the_bytes (lo hi : nat) (data : bytes) :
  (lo < hi)%nat -> (length data < hi)%nat ->
  flip_bytes data (range lo hi) = Raise IndexError.
Proof.
  intros Hlo Hlen. unfold range. apply flip_bytes_seq_short; lia.
Qed.

Lemma flipping_needs_the_bytes_witness :
  flip_bytes (bytes_of_string "too short") (range 10 20) = Raise IndexError.
Proof.
  apply (flipping_needs_the_bytes 10 20 (bytes_of_string "too short")); cbn; lia.
Defined.

End SimulatorMore.

Section ReplayMore.

Import Simulator.

Implicit Types (env : environment) (w : world).

(** X8. Whatever the server answers, the replay scenario makes at most
    five requests: the login, the initial upload of the 30-byte
    payload, and up to three replays. Only the first replay carries the
    payload: the third request, when it is made, is an upload of the
    same 30 bytes, and every request after it is an upload of no
    bytes. *)
Theorem one_replay_carries_the_payload env w :
  truthy (token_in (network env (sent w ++ [login_request env])%list)) = true ->
  exists new,
    sent (replay_attack_demo env w).2 = (sent w ++ new)%list /\
    (length new <= 5)%nat /\
    (forall rq, new !! 1%nat = Some rq ->
       sent_payload rq = FileBody "initial_upload.txt" test_content "text/plain") /\
    (forall rq, new !! 2%nat = Some rq ->
       sent_payload rq = FileBody "replay_attack.txt" test_content "text/plain") /\
    (forall rq, rq ∈ drop 3 new ->
       sent_payload rq = FileBody "replay_attack.txt" [] "text/plain") /\
    length test_content = 30%nat.
Proof.
  intros Htr. destruct (replay_uploads env w Htr) as (rest & Hsent & Hrest).
  set (token := token_in (network env (sent w ++ [login_request env])%list)) in *.
  exists ([login_request env;
           upload_request env token "initial_upload.txt" test_content "text/plain"]
          ++ rest)%list.
  split; [exact Hsent|].
  destruct Hrest as [->|(n & Hn & ->)].
  - split; [cbn; lia|]. split; [intros rq [= <-]; reflexivity|].
    split; [intros rq [=]|]. split; [|reflexivity].
    cbn. intros rq H. inversion H.
  - split; [cbn; rewrite length_replicate; lia|].
    split; [intros rq [= <-]; reflexivity|].
    split; [intros rq [= <-]; reflexivity|]. split; [|reflexivity].
    cbn [app drop]. intros rq H. apply elem_of_replicate in H as [-> _]. reflexivity.
Qed.

Lemma one_replay_carries_the_payload_witness :
  exists new,
    sent (replay_attack_demo lenient start).2 = (sent start ++ new)%list /\
    (length new <= 5)%nat /\
    (forall rq, new !! 1%nat = Some rq ->
       sent_payload rq = FileBody "initial_upload.txt" test_content "text/plain") /\
    (forall rq, new !! 2%nat = Some rq ->
       sent_payload rq = FileBody "replay_attack.txt" test_content "text/plain") /\
    (forall rq, rq ∈ drop 3 new ->
       sent_payload rq = FileBody "replay_attack.txt" [] "text/plain") /\
    length test_content = 30%nat.
Proof. apply (one_replay_carries_the_payload lenient start). reflexivity. Defined.

(** X9. When the answer to the first replay carries an error message with
    "replay" or "nonce" in it, in any letter case, the scenario passes at
    once: no further replay is made. *)
Theorem replay_detected_at_once env w (r0 r1 : response)
    (d : list (string * json)) (msg : string) :
  let token := token_in (network env (sent w ++ [login_request env])%list) in
  let initial := upload_request env token "initial_upload.txt" test_content "text/plain" in
  let replay := replay_request env token test_content in
  truthy token = true ->
  network env (sent w ++ [login_request env; initial])%list = Ok r0 ->
  network env (sent w ++ [login_request env; initial; replay])%list = Ok r1 ->
  body r1 = JsonText (JDict d) ->
  assoc "error" d = Some (JStr msg) ->
  contains "replay" (lower_string msg) || contains "nonce" (lower_string msg) = true ->
  (replay_attack_demo env w).1 = Ok true /\
  sent (replay_attack_demo env w).2
  = (sent w ++ [login_request env; initial; replay])%list.
Proof.
  intros token initial replay Htr H0 H1 Hbody Herr Hmsg.
  enough (exists w', replay_attack_demo env w = (Ok true, w') /\
            sent w' = (sent w ++ [login_request env; initial; replay])%list)
    as (w' & -> & Hs); [split; [reflexivity | exact Hs]|].
  unfold replay_attack_demo.
  rewrite run_ask, run_get_auth_token. fold token. rewrite Htr. cbn [negb].
  unfold try_except. rewrite run_fresh_upload. cbv zeta.
  fold (upload_request env token "initial_upload.txt" test_content "text/plain").
  fold initial.
  unfold logged at 1. cbn [sent]. rewrite <- app_assoc. cbn [app]. rewrite H0.
  set (w1 := uploaded (logged w [login_request env]) initial test_content).
  assert (Hs1 : sent w1 = (sent w ++ [login_request env; initial])%list).
  { unfold w1, uploaded, logged. cbn [sent]. rewrite <- app_assoc. reflexivity. }
  unfold mbind at 1, M_bind at 1, new_BytesIO. cbv zeta.
  set (w2 := {| sent := sent w1;
                heap := (heap w1 ++ [{| buffer := test_content; position := 0 |}])%list;
                drawn := drawn w1; tally := tally w1 |}).
  assert (Hio : heap w2 !! length (heap w1)
                = Some {| buffer := test_content; position := 0 |}).
  { unfold w2. cbn [heap]. apply list_lookup_middle. reflexivity. }
  unfold range. cbn [Nat.sub seq]. rewrite replay_loop_cons.
  unfold mbind at 1, M_bind at 1.
  rewrite (run_post_files _ _ _ _ _ _ _ _ _ _ Hio). cbv zeta.
  cbn [position buffer]. rewrite drop_0.
  fold (upload_request env token "replay_attack.txt" test_content "text/plain").
  fold (replay_request env token test_content). fold replay.
  assert (Hs2 : (sent w2 ++ [replay])%list
                = (sent w ++ [login_request env; initial; replay])%list).
  { unfold w2. cbn [sent]. rewrite Hs1, <- app_assoc. reflexivity. }
  rewrite Hs2, H1. rewrite run_lift. unfold json_or_empty, has_text, json_of.
  rewrite Hbody. rewrite run_lift. cbn [get]. rewrite Herr. cbn [default id].
  rewrite run_lift. cbn [lower]. rewrite Hmsg. cbn [fst snd mret M_ret].
  eexists. split; [reflexivity|]. unfold logged, read_to_end. cbn [sent]. exact Hs2.
Qed.

End ReplayMore.

Section BruteForceMore.

Import Simulator.

Implicit Types (env : environment) (w : world).

Lemma classify_step (o : observation) (c : counters) :
  (failed_count (classify o c) + success_count (classify o c)
   <= S (failed_count c + success_count c))%nat /\
  (suspicious_count (classify o c) + failed_count c
   <= failed_count (classify o c) + suspicious_count c)%nat /\
  (suspicious_count c <= suspicious_count (classify o c))%nat.
Proof.
  destruct o as [| | | |st s]; cbn; try lia.
  destruct (bool_decide (st = 200%Z /\ (s <= lit_0_5)%Qc)) eqn:E1;
    destruct (bool_decide (lit_0_5 < s)%Qc) eqn:E2; try lia.
  apply bool_decide_eq_true in E1 as [_ Hle]. apply bool_decide_eq_true in E2.
  exfalso. exact (Qcle_not_lt _ _ Hle E2).
Qed.

Lemma counters_after_attempts (n : nat) (token : json) env w :
  let c := tally w in
  let c' := tally (after_attempts n env token w) in
  (failed_count c' + success_count c' <= failed_count c + success_count c + n)%nat /\
  (suspicious_count c' + failed_count c <= failed_count c' + suspicious_count c)%nat /\
  (suspicious_count c <= suspicious_count c')%nat /\
  drawn (after_attempts n env token w) = (drawn w + 32 * n)%nat.
Proof.
  revert w. induction n as [|n IH]; intros w; cbn zeta.
  - cbn [after_attempts]. lia.
  - cbn [after_attempts]. specialize (IH (attempt token env w).2). cbn zeta in IH.
    rewrite attempt_run in IH |- *. cbn [snd attempted tally drawn] in IH |- *.
    pose proof (classify_step (observe env token w) (tally w)). lia.
Qed.

(** X10. Whatever the server answers, after the brute-force loop the
    failures and successes together are at most the number of attempts,
    every attempt counted as suspicious is also counted as failed, and the
    loop has drawn 32 random bytes per attempt. *)
Theorem bruteforce_counters_bounded (attempts : nat) env w :
  truthy (token_in (network env (sent w ++ [login_request env])%list)) = true ->
  let w' := (bruteforce_handshake attempts env w).2 in
  (failed_count (tally w') + success_count (tally w') <= attempts)%nat /\
  (suspicious_count (tally w') <= failed_count (tally w'))%nat /\
  drawn w' = (drawn w + 32 * attempts)%nat.
Proof.
  intros Htr. rewrite (bruteforce_run attempts env w Htr). cbn [snd]. cbv zeta.
  pose proof (counters_after_attempts attempts
                (token_in (network env (sent w ++ [login_request env])%list))
                env (loop_start env w)) as H.
  cbn zeta in H. cbn [loop_start tally drawn zero failed_count success_count
                      suspicious_count] in H. lia.
Qed.

Lemma bruteforce_counters_bounded_witness :
  (failed_count (tally (bruteforce_handshake 50 strict start).2)
   + success_count (tally (bruteforce_handshake 50 strict start).2) <= 50)%nat /\
  (suspicious_count (tally (bruteforce_handshake 50 strict start).2)
   <= failed_count (tally (bruteforce_handshake 50 strict start).2))%nat /\
  drawn (bruteforce_handshake 50 strict start).2 = (drawn start + 32 * 50)%nat.
Proof. apply (bruteforce_counters_bounded 50 strict start). vm_compute. reflexivity. Defined.

(** A server that never answers an init request with status 200. *)
Lemma rejected_attempts (n : nat) (token : json) env w (c : counters) :
  (forall log rq r, is_init env rq -> network env (log ++ [rq])%list = Ok r ->
                    status_code r <> 200%Z) ->
  tally w = c ->
  tally (after_attempts n env token w)
  = {| failed_count := failed_count c + n;
       success_count := success_count c;
       suspicious_count := suspicious_count c |} /\
  length (sent (after_attempts n env token w)) = (length (sent w) + n)%nat.
Proof.
  intros Hrej. revert w c. induction n as [|n IH]; intros w c Hc.
  - cbn [after_attempts]. rewrite Hc, !Nat.add_0_r. destruct c; auto.
  - cbn [after_attempts].
    assert (Hobs : (attempt token env w).2
                   = attempted w [init_request env token (next_bytes env w 32) 2]
                       {| failed_count := S (failed_count c);
                          success_count := success_count c;
                          suspicious_count := suspicious_count c |}).
    { rewrite attempt_run. cbn [snd]. unfold attempt_requests, observe.
      destruct (network env _) as [r|e] eqn:Hnet.
      - apply Hrej in Hnet; [|reflexivity].
        rewrite bool_decide_eq_false_2 by exact Hnet. cbn [andb classify].
        rewrite Hc. reflexivity.
      - cbn [classify]. rewrite Hc. reflexivity. }
    rewrite Hobs.
    destruct (IH (attempted w [init_request env token (next_bytes env w 32) 2]
                    {| failed_count := S (failed_count c);
                       success_count := success_count c;
                       suspicious_count := suspicious_count c |}) _ eq_refl)
      as [Ht Hl].
    rewrite Ht, Hl.
    cbn [attempted sent tally failed_count success_count suspicious_count].
    rewrite length_app. cbn [length]. split; [f_equal|]; lia.
Qed.

(** X11. Against a server that answers no init request with status 200
    (it rejects, or the transport fails), every one of the 50 attempts is a
    failure, no validate request is made, and the scenario passes. *)
Theorem bruteforce_passes_when_init_is_refused env w :
  truthy (token_in (network env (sent w ++ [login_request env])%list)) = true ->
  (forall log rq r, is_init env rq -> network env (log ++ [rq])%list = Ok r ->
                    status_code r <> 200%Z) ->
  (bruteforce_handshake 50 env w).1 = Ok true /\
  tally (bruteforce_handshake 50 env w).2
  = {| failed_count := 50; success_count := 0; suspicious_count := 0 |} /\
  length (sent (bruteforce_handshake 50 env w).2) = (length (sent w) + 51)%nat.
Proof.
  intros Htr Hrej. rewrite (bruteforce_run 50 env w Htr). cbn [fst snd].
  destruct (rejected_attempts 50
              (token_in (network env (sent w ++ [login_request env])%list))
              env (loop_start env w) zero Hrej eq_refl) as [Ht Hl].
  rewrite Ht, Hl. cbn [failed_count suspicious_count zero Nat.add].
  split; [|split; [reflexivity|]].
  - rewrite many_failures_of_50 by lia. reflexivity.
  - cbn [loop_start sent]. rewrite length_app. cbn [length]. lia.
Qed.

Lemma bruteforce_passes_when_init_is_refused_witness :
  (bruteforce_handshake 50 strict start).1 = Ok true /\
  tally (bruteforce_handshake 50 strict start).2
  = {| failed_count := 50; success_count := 0; suspicious_count := 0 |} /\
  length (sent (bruteforce_handshake 50 strict start).2) = (length (sent start) + 51)%nat.
Proof.
  apply (bruteforce_passes_when_init_is_refused strict start).
  - vm_compute. reflexivity.
  - intros log rq r Hinit Hnet. unfold strict, local_config in Hnet.
    cbn [network] in Hnet. rewrite last_snoc in Hnet.
    unfold is_init in Hinit. cbn [SERVER_URL strict local_config] in Hinit.
    rewrite Hinit in Hnet. cbn in Hnet. injection Hnet as <-. discriminate.
Defined.

End BruteForceMore.

Section BruteForceSilent.

Import Simulator.

Implicit Types (env : environment) (w : world).

Lemma unanswered_attempts (n : nat) (token : json) env w :
  (forall log rq, is_init env rq ->
     exists d, network env (log ++ [rq])%list
               = Ok {| status_code := 200; body := JsonText (JDict d) |} /\
               truthy (default JNull (assoc "handshakeId" d)) = false) ->
  tally (after_attempts n env token w) = tally w.
Proof.
  intros Hsilent. revert w. induction n as [|n IH]; intros w; [reflexivity|].
  cbn [after_attempts]. rewrite IH, attempt_run. cbn [snd attempted tally].
  unfold observe.
  destruct (Hsilent (sent w) (init_request env token (next_bytes env w 32) 2) eq_refl)
    as (d & -> & Hd).
  cbn [status_code body]. rewrite bool_decide_eq_true_2 by reflexivity.
  rewrite Hd. reflexivity.
Qed.

(** X12. Against a server that answers every init request with status 200
    and a JSON object without a handshake id, no attempt is counted in any
    class: the three counters stay at zero and the scenario fails. *)
Theorem bruteforce_fails_without_handshake_ids env w :
  truthy (token_in (network env (sent w ++ [login_request env])%list)) = true ->
  (forall log rq, is_init env rq ->
     exists d, network env (log ++ [rq])%list
               = Ok {| status_code := 200; body := JsonText (JDict d) |} /\
               truthy (default JNull (assoc "handshakeId" d)) = false) ->
  (bruteforce_handshake 50 env w).1 = Ok false /\
  tally (bruteforce_handshake 50 env w).2 = zero.
Proof.
  intros Htr Hsilent. rewrite (bruteforce_run 50 env w Htr). cbn [fst snd].
  rewrite (unanswered_attempts 50 _ env (loop_start env w) Hsilent).
  cbn [loop_start tally]. split; [|reflexivity].
  rewrite many_failures_of_50 by (cbn; lia). reflexivity.
Qed.

Lemma bruteforce_fails_without_handshake_ids_witness :
  (bruteforce_handshake 50 lenient start).1 = Ok false /\
  tally (bruteforce_handshake 50 lenient start).2 = zero.
Proof.
  apply (bruteforce_fails_without_handshake_ids lenient start).
  - vm_compute. reflexivity.
  - intros log rq Hinit. exists [("message", JStr "ok")].
    unfold lenient, local_config. cbn [network]. rewrite last_snoc.
    unfold is_init in Hinit. cbn [SERVER_URL lenient local_config] in Hinit.
    rewrite Hinit. split; reflexivity.
Defined.

End BruteForceSilent.

(** ** The test harness *)

Section HarnessMore.

Import Harness.

(** X13. [run_test] reports a pass exactly when the child exits with
    status 0 within the ceiling; a child that exceeds the ceiling and a
    child that cannot be started are both reported with code -1; in every
    case the script is the one launch added. *)
Theorem run_test_passes_on_exit_0 (h : host) (n s d : string) (l : list string) :
  ((run_test h n s d l).1.1 = true <->
   exists seconds, program h s = Exits seconds 0 /\ (seconds <= 300)%Z) /\
  (exceeds_ceiling (program h s) 300 \/ program h s = CannotStart ->
   (run_test h n s d l).1 = (false, (-1)%Z)) /\
  (run_test h n s d l).2 = (l ++ [s])%list.
Proof.
  unfold run_test, subprocess_run, exceeds_ceiling.
  destruct (program h s) as [seconds rc| |].
  - destruct (bool_decide (300 < seconds)%Z) eqn:E; cbn [fst snd].
    + apply bool_decide_eq_true in E. split; [|split; [reflexivity|reflexivity]].
      split; [discriminate|]. intros (sec & [= <- _] & Hle). lia.
    + apply bool_decide_eq_false in E. split; [|split; [|reflexivity]].
      * split.
        -- intros H. apply bool_decide_eq_true in H. subst rc.
           exists seconds. split; [reflexivity | lia].
        -- intros (sec & [= _ ->] & _). reflexivity.
      * intros [H|[=]]. contradiction.
  - cbn [fst snd]. split; [|split; reflexivity].
    split; [discriminate|]. intros (sec & [=] & _).
  - cbn [fst snd]. split; [|split; reflexivity].
    split; [discriminate|]. intros (sec & [=] & _).
Qed.

Lemma check_prerequisites_all (h : host) :
  check_prerequisites h = true <->
  forall s, s ∈ required_scripts -> path_exists h s = true.
Proof.
  unfold check_prerequisites, required_scripts. cbv zeta.
  rewrite bool_decide_eq_true.
  split.
  - intros Hnil s Hs. destruct (path_exists h s) eqn:E; [reflexivity|].
    exfalso. assert (Hin : s ∈ filter (fun script => path_exists h script = false)
      ["client/client.py"; "attack_simulator.py"; "upload_corrupted_file.py"]).
    { apply list_elem_of_filter. split; assumption. }
    rewrite Hnil in Hin. inversion Hin.
  - intros Hall.
    rewrite !filter_cons_False; [reflexivity|..];
      rewrite Hall; first [discriminate | repeat constructor].
Qed.

End HarnessMore.

Section HarnessExit.

Import Harness.

Lemma run_test_passed (h : host) (s : string) :
  (run_test h "" s "" []).1.1 = true <->
  exists seconds, program h s = Exits seconds 0 /\ (seconds <= 300)%Z.
Proof.
  unfold run_test, subprocess_run.
  destruct (program h s) as [seconds rc| |]; cbn [fst snd].
  - destruct (bool_decide (300 < seconds)%Z) eqn:E; cbn [fst snd].
    + apply bool_decide_eq_true in E.
      split; [discriminate|]. intros (sec & [= <- _] & Hle). lia.
    + apply bool_decide_eq_false in E. split.
      * intros H. apply bool_decide_eq_true in H. subst rc.
        exists seconds. split; [reflexivity | lia].
      * intros (sec & [= _ ->] & _). reflexivity.
  - split; [discriminate|]. intros (sec & [=] & _).
  - split; [discriminate|]. intros (sec & [=] & _).
Qed.

Lemma main_stops_early (h : host) :
  operator h <> Enter \/ check_prerequisites h = false ->
  (main h).2 = [] /\ exit_code (main h).1 = 1%Z.
Proof.
  intros H. unfold main. destruct (operator h); [|split; reflexivity..].
  destruct H as [H|H]; [congruence|]. rewrite H. split; reflexivity.
Qed.

(** X14. The suite exits with status 0 exactly when the operator pressed
    Enter at the prompt, the three scripts are in place, and each of the
    three exits with status 0 within the 300 seconds it is given. *)
Theorem suite_exits_0_iff (h : host) :
  run_full_security_tests_py h = 0%Z <->
  operator h = Enter /\
  forall s, s ∈ required_scripts ->
    path_exists h s = true /\
    exists seconds, program h s = Exits seconds 0 /\ (seconds <= 300)%Z.
Proof.
  unfold run_full_security_tests_py.
  assert (Hdec : operator h = Enter \/ operator h <> Enter)
    by (destruct (operator h); auto; right; discriminate).
  destruct Hdec as [Hop|Hop].
  2:{ split; [|tauto]. intros H.
      destruct (main_stops_early h (or_introl Hop)) as [_ H1]. congruence. }
  destruct (check_prerequisites h) eqn:Hpre.
  2:{ split.
      - intros H. destruct (main_stops_early h (or_intror Hpre)) as [_ H1]. congruence.
      - intros [_ Hall].
        assert (check_prerequisites h = true); [|congruence].
        apply check_prerequisites_all. intros s Hs. exact (proj1 (Hall s Hs)). }
  rewrite (main_runs_all h Hop Hpre). cbn [fst exit_code].
  pose proof (proj1 (check_prerequisites_all h) Hpre) as Hex.
  pose proof (run_test_passed h "client/client.py") as H1.
  pose proof (run_test_passed h "attack_simulator.py") as H2.
  pose proof (run_test_passed h "upload_corrupted_file.py") as H3.
  destruct ((run_test h "" "client/client.py" "" []).1.1);
    destruct ((run_test h "" "attack_simulator.py" "" []).1.1);
    destruct ((run_test h "" "upload_corrupted_file.py" "" []).1.1);
    cbn [andb].
  1:{ split; [|reflexivity]. intros _. split; [exact Hop|]. intros s Hs.
      split; [exact (Hex s Hs)|]. unfold required_scripts in Hs.
      apply elem_of_cons in Hs as [->|Hs]; [tauto|].
      apply elem_of_cons in Hs as [->|Hs]; [tauto|].
      apply elem_of_cons in Hs as [->|Hs]; [tauto | inversion Hs]. }
  all: split; [discriminate|]; intros [_ Hall]; exfalso.
  all: assert (Hc : "client/client.py" ∈ required_scripts) by repeat constructor.
  all: assert (Ha : "attack_simulator.py" ∈ required_scripts) by repeat constructor.
  all: assert (Hu : "upload_corrupted_file.py" ∈ required_scripts) by repeat constructor.
  all: pose proof (proj2 (Hall _ Hc)); pose proof (proj2 (Hall _ Ha));
       pose proof (proj2 (Hall _ Hu)).
  all: assert (false = true) by tauto; discriminate.
Qed.

(** X15. When the operator leaves the prompt with Ctrl-C or end of input,
    or when one of the three scripts is missing, the suite launches
    nothing and exits with status 1. *)
Theorem nothing_runs_without_prerequisites (h : host) :
  operator h <> Enter \/ (exists s, s ∈ required_scripts /\ path_exists h s = false) ->
  (main h).2 = [] /\ run_full_security_tests_py h = 1%Z.
Proof.
  intros H. apply main_stops_early.
  destruct H as [H|(s & Hs & Hmiss)]; [left; exact H | right].
  destruct (check_prerequisites h) eqn:Hpre; [|reflexivity].
  rewrite (proj1 (check_prerequisites_all h) Hpre s Hs) in Hmiss. discriminate.
Qed.

End HarnessExit.

Section ConnectionFacts.

Import Simulator.
Import Connection.

Variable get : list string -> result response.

Lemma answers_200_dec (tried : list string) :
  answers_200 get tried \/ ~ answers_200 get tried.
Proof.
  unfold answers_200. destruct (get tried) as [r|e].
  - destruct (decide (status_code r = 200%Z)) as [H|H].
    + left. eauto.
    + right. intros (r' & [= <-] & H'). contradiction.
  - right. intros (r' & [=] & _).
Qed.

Lemma probe_none (urls tried : list string) :
  (forall m, m < length urls -> ~ answers_200 get (tried ++ take (S m) urls)) ->
  probe get tried urls = (false, (tried ++ urls)%list).
Proof.
  revert tried. induction urls as [|url rest IH]; intros tried Hnone.
  - cbn. rewrite app_nil_r. reflexivity.
  - assert (H0 : ~ answers_200 get (tried ++ [url])).
    { apply (Hnone 0). cbn. lia. }
    assert (Hrest : probe get (tried ++ [url]) rest = (false, (tried ++ url :: rest)%list)).
    { rewrite IH.
      - rewrite <- app_assoc. reflexivity.
      - intros m Hm. rewrite <- app_assoc. apply (Hnone (S m)). cbn. lia. }
    cbn [probe]. destruct (get (tried ++ [url])) as [r|e] eqn:Hget; [|exact Hrest].
    case_bool_decide as Hst; [|exact Hrest].
    exfalso. apply H0. exists r. split; [exact Hget | exact Hst].
Qed.

Lemma probe_first (urls tried : list string) (n : nat) :
  n < length urls ->
  answers_200 get (tried ++ take (S n) urls) ->
  (forall m, m < n -> ~ answers_200 get (tried ++ take (S m) urls)) ->
  probe get tried urls = (true, (tried ++ take (S n) urls)%list).
Proof.
  revert tried n. induction urls as [|url rest IH]; intros tried n Hn Hyes Hno.
  - cbn in Hn. lia.
  - destruct n as [|n].
    + cbn [take] in Hyes. rewrite take_0 in Hyes. destruct Hyes as (r & Hget & Hst).
      cbn [probe]. rewrite Hget. rewrite bool_decide_eq_true_2 by exact Hst.
      cbn [take]. rewrite take_0. reflexivity.
    + assert (H0 : ~ answers_200 get (tried ++ [url])).
      { apply (Hno 0). lia. }
      assert (Hrest : probe get (tried ++ [url]) rest
                      = (true, (tried ++ take (S (S n)) (url :: rest))%list)).
      { rewrite (IH (tried ++ [url])%list n).
        - rewrite <- app_assoc. reflexivity.
        - cbn in Hn. lia.
        - rewrite <- app_assoc. exact Hyes.
        - intros m Hm. rewrite <- app_assoc. apply (Hno (S m)). lia. }
      cbn [probe]. destruct (get (tried ++ [url])) as [r|e] eqn:Hget; [|exact Hrest].
      case_bool_decide as Hst; [|exact Hrest].
      exfalso. apply H0. exists r. split; [exact Hget | exact Hst].
Qed.

Lemma some_200_or_none (urls : list string) (n : nat) :
  (exists m, m < n /\ answers_200 get (take (S m) urls))
  \/ forall m, m < n -> ~ answers_200 get (take (S m) urls).
Proof.
  induction n as [|n IHn].
  - right. intros m Hm. lia.
  - destruct IHn as [(m & Hm & H)|Hnone].
    + left. exists m. split; [lia | exact H].
    + destruct (answers_200_dec (take (S n) urls)) as [H|H].
      * left. exists n. split; [lia | exact H].
      * right. intros m Hm. destruct (decide (m = n)) as [->|Hne]; [exact H|].
        apply Hnone. lia.
Qed.

(** The least request that is answered with a 200, if there is one. *)
Lemma first_200 (urls : list string) (n : nat) :
  answers_200 get (take (S n) urls) ->
  exists k, k <= n /\ answers_200 get (take (S k) urls)
            /\ forall m, m < k -> ~ answers_200 get (take (S m) urls).
Proof.
  induction n as [n IH] using lt_wf_ind. intros Hn.
  destruct (some_200_or_none urls n) as [(m & Hm & H)|Hnone].
  - destruct (IH m Hm H) as (k & Hk & Hyes & Hno).
    exists k. split; [lia | split; assumption].
  - exists n. split; [lia | split; assumption].
Qed.

(** X16 (test_server_connection.py, test_connection and the script's last
    lines): the script exits with status 0 exactly when one of the four
    health URLs, requested in the order of the list, is answered with
    status 200; an answer with another status, a connection error, a
    timeout or any other exception only moves on to the next URL. *)
Theorem connection_test_exits_0_iff :
  test_server_connection_py get = 0%Z
  <-> exists n, n < 4 /\ answers_200 get (take (S n) test_urls).
Proof.
  unfold test_server_connection_py, test_connection. split.
  - intros Hexit.
    destruct (some_200_or_none test_urls 4) as [H|H]; [exact H|].
    rewrite (probe_none test_urls []) in Hexit; [discriminate|].
    intros m Hm. apply H. exact Hm.
  - intros (n & Hn & Hyes).
    destruct (first_200 test_urls n Hyes) as (k & Hk & Hk200 & Hnone).
    rewrite (probe_first test_urls [] k); [reflexivity| | |].
    + cbn. lia.
    + exact Hk200.
    + exact Hnone.
Qed.

(** X17 (test_server_connection.py, test_connection): the loop stops at
    the first URL that is answered with status 200: the function returns
    True, and the URLs after that one are never requested. *)
Theorem connection_test_stops_at_first_200 (n : nat) :
  n < 4 ->
  answers_200 get (take (S n) test_urls) ->
  (forall m, m < n -> ~ answers_200 get (take (S m) test_urls)) ->
  test_connection get = (true, take (S n) test_urls).
Proof.
  intros Hn Hyes Hnone. unfold test_connection.
  rewrite (probe_first test_urls [] n); [reflexivity|cbn; lia|exact Hyes|exact Hnone].
Qed.

(** X18 (test_server_connection.py, test_connection): when no URL is
    answered with status 200, each of the four is requested once, in the
    order of the list, and the function returns False. *)
Theorem connection_test_tries_all_four :
  (forall m, m < 4 -> ~ answers_200 get (take (S m) test_urls)) ->
  test_connection get = (false, test_urls).
Proof.
  intros Hnone. unfold test_connection.
  rewrite (probe_none test_urls []); [reflexivity|]. exact Hnone.
Qed.

End ConnectionFacts.

Lemma connection_test_stops_at_first_200_witness :
  Connection.test_connection Connection.loopback_only
  = (true, ["http://localhost:5000/api/health"; "http://127.0.0.1:5000/api/health"]).
Proof.
  apply (connection_test_stops_at_first_200 Connection.loopback_only 1).
  - lia.
  - eexists. split; [vm_compute; reflexivity | reflexivity].
  - intros m Hm. assert (m = 0) as -> by lia.
    intros (r & Hget & _). vm_compute in Hget. discriminate.
Defined.

Lemma connection_test_tries_all_four_witness :
  Connection.test_connection Connection.down = (false, Connection.test_urls).
Proof.
  apply (connection_test_tries_all_four Connection.down).
  intros m _ (r & Hget & _). discriminate.
Defined.

Section DiskSteps.

Import Simulator.
Import Disk.

Context {A B : Type}.
Implicit Types (s : setting) (d : machine).

(** How the computations of these scripts run, one step at a time. *)

Lemma run_setting_of (k : setting -> F A) s d : (setting_of ≫= k) s d = k s s d.
Proof. reflexivity. Qed.

Lemma run_return (a : A) (k : A -> F B) s d : (mret a ≫= k) s d = k a s d.
Proof. reflexivity. Qed.

Lemma run_pure (r : result A) (k : A -> F B) s d :
  (pure r ≫= k) s d
  = match r with Ok a => k a s d | Raise e => (Raise e, d) end.
Proof. destruct r; reflexivity. Qed.

Lemma run_path_exists (path : string) (k : bool -> F A) s d :
  (path_exists path ≫= k) s d = k (bool_decide (is_Some (files d !! path))) s d.
Proof. reflexivity. Qed.

Lemma run_read_file (path : string) (k : bytes -> F A) s d :
  (read_file path ≫= k) s d
  = match files d !! path with
    | Some data => k data s d
    | None => (Raise OSError, d)
    end.
Proof.
  unfold mbind, F_bind, read_file. destruct (files d !! path); reflexivity.
Qed.

Lemma run_online_send (rq : request) (k : response -> F A) s d :
  (online (send rq) ≫= k) s d
  = match network (base s) (sent (web d) ++ [rq])%list with
    | Ok r => k r s (requested d rq)
    | Raise e => (Raise e, requested d rq)
    end.
Proof.
  unfold mbind, F_bind, online, send, requested, logged.
  destruct (network (base s) _); reflexivity.
Qed.

End DiskSteps.

(** Runs the steps of a script of this kind that involve no request. *)
Ltac disk_steps :=
  repeat first
    [ rewrite run_pure
    | rewrite run_return
    | progress cbn [Simulator.get default Simulator.isinstance_dict Simulator.gt
                    Simulator.le Simulator.number Simulator.format_2f Disk.lt
                    Simulator.lower Simulator.truthy Disk.sliced Disk.is_text
                    mbind result_bind mret result_ret fst snd
                    Simulator.json_or_empty Simulator.has_text Simulator.json_of
                    Simulator.body Simulator.status_code] ].

Section CorruptedFacts.

Import Simulator.
Import Disk.
Import Corrupted.

Implicit Types (s : setting) (d : machine) (token : json).

Lemma upload_file_missing (filepath : string) token (expected_rejection : bool) s d :
  files d !! filepath = None ->
  upload_file filepath token expected_rejection s d
  = (Ok (false, JDict [("error", JStr "File not found")]), d).
Proof.
  intros Hfile. unfold upload_file.
  rewrite run_setting_of, run_path_exists, Hfile.
  rewrite bool_decide_eq_false_2 by (intros [x [=]]). reflexivity.
Qed.

Lemma upload_file_outcome (filepath : string) token s d (content : bytes) :
  files d !! filepath = Some content ->
  exists (passed : bool) (details : list (string * json)),
    upload_file filepath token true s d
    = (Ok (passed, JDict details), requested d (upload_request s token filepath content))
    /\ (passed = true ->
        exists r a q,
          network (base s) (sent (web d) ++ [upload_request s token filepath content])%list
          = Ok r
          /\ (status_code r = 400 \/ status_code r = 403)%Z
          /\ assoc "anomaly_score" details = Some a
          /\ number a = Ok q /\ fits_float q = true).
Proof.
  intros Hfile. unfold upload_file.
  rewrite run_setting_of, run_path_exists, Hfile.
  rewrite bool_decide_eq_true_2 by eauto. cbn [negb].
  unfold attempt_or. rewrite run_read_file, Hfile.
  fold (upload_request s token filepath content).
  rewrite run_online_send.
  destruct (network (base s) _) as [r|e] eqn:Hnet.
  2:{ eexists false, _. split; [reflexivity | discriminate]. }
  generalize (match json_or_empty r with
              | Ok data => data
              | Raise _ => JDict [("raw_response", JStr (prefix_of 200 (raw_text r)))]
              end).
  intros data.
  assert (Hfail : forall e, exists (passed : bool) (details : list (string * json)),
            (let (r0, d') := (@Raise (bool * json) e,
                               requested d (upload_request s token filepath content)) in
             match r0 with
             | Ok a => (Ok a, d')
             | Raise e0 => (mret (false, JDict [("error", JStr (str s e0))]) : F _) s d'
             end)
            = (Ok (passed, JDict details),
               requested d (upload_request s token filepath content))
            /\ (passed = true ->
                exists r' a q,
                  Ok r = Ok r'
                  /\ (status_code r' = 400 \/ status_code r' = 403)%Z
                  /\ assoc "anomaly_score" details = Some a
                  /\ number a = Ok q /\ fits_float q = true)).
  { intros e. eexists false, _. split; [reflexivity | discriminate]. }
  case_bool_decide as Hst.
  - repeat (rewrite run_pure;
            match goal with
            | |- context [match ?x with Ok _ => _ | Raise _ => _ end] =>
                destruct x eqn:?; [|apply Hfail]
            end).
    eexists true, _. split; [reflexivity|]. intros _.
    unfold format_2f in *. destruct (number a2) as [q|] eqn:Hq; [|discriminate].
    cbn [mbind result_bind] in *.
    destruct (fits_float q) eqn:Hfit; [|discriminate].
    exists r, a2, q. split; [reflexivity|]. split.
    { rewrite !elem_of_cons in Hst. destruct Hst as [H|[H|H]]; auto.
      apply elem_of_nil in H. contradiction. }
    split; [reflexivity | split; [exact Hq | exact Hfit]].
  - repeat (rewrite run_pure;
            match goal with
            | |- context [match ?x with Ok _ => _ | Raise _ => _ end] =>
                destruct x eqn:?; [|apply Hfail]
            end).
    eexists false, _. split; [reflexivity | discriminate].
Qed.

(** X19 (upload_corrupted_file.py, upload_file): a corrupted-file upload
    is counted as passed only if the server answered the upload of the
    file's bytes with status 400 or 403; an accepted upload (200), a
    server error (500), a transport error and a missing file are all
    counted as failed. Whatever happens, the function returns: no
    exception leaves it. *)
Theorem corrupted_upload_passes_only_on_400_403 (filepath : string) token s d :
  exists (passed : bool) (details : json) (d' : machine),
    upload_file filepath token true s d = (Ok (passed, details), d')
    /\ (passed = true ->
        exists content r,
          files d !! filepath = Some content
          /\ network (base s)
               (sent (web d) ++ [upload_request s token filepath content])%list = Ok r
          /\ (status_code r = 400 \/ status_code r = 403)%Z).
Proof.
  destruct (files d !! filepath) as [content|] eqn:Hfile.
  - destruct (upload_file_outcome filepath token s d content Hfile)
      as (passed & details & Hrun & Hpass).
    exists passed, (JDict details). eexists. split; [exact Hrun|].
    intros Hp. destruct (Hpass Hp) as (r & a & q & Hnet & Hst & _).
    exists content, r. auto.
  - rewrite (upload_file_missing _ _ _ _ _ Hfile).
    eexists false, _, _. split; [reflexivity | discriminate].
Qed.

(** X20 (upload_corrupted_file.py, upload_file): a rejection whose body is
    not JSON (the plain-text error page of a framework) still counts: the
    inner [except] replaces the body by a dictionary, and the test passes
    with anomaly score 0. *)
Theorem plain_text_rejection_passes (filepath : string) token s d
    (content : bytes) (status : Z) (text : string) :
  files d !! filepath = Some content ->
  (status = 400 \/ status = 403)%Z ->
  network (base s) (sent (web d) ++ [upload_request s token filepath content])%list
  = answer status (OtherText text) ->
  upload_file filepath token true s d
  = (Ok (true, JDict [("status", int status); ("anomaly_score", JNum 0);
                      ("verdict", JStr ""); ("error", JStr "")]),
     requested d (upload_request s token filepath content)).
Proof.
  intros Hfile Hst Hnet. unfold upload_file.
  rewrite run_setting_of, run_path_exists, Hfile.
  rewrite bool_decide_eq_true_2 by eauto. cbn [negb].
  unfold attempt_or. rewrite run_read_file, Hfile.
  fold (upload_request s token filepath content).
  rewrite run_online_send, Hnet. unfold answer.
  disk_steps. cbn [assoc]. disk_steps.
  rewrite bool_decide_eq_true_2.
  2:{ rewrite !elem_of_cons. tauto. }
  disk_steps.
  repeat (match goal with
          | |- context [decide (?a = ?b)] =>
              destruct (decide (a = b)) as [?|_]; [discriminate|]
          end; disk_steps; cbn [assoc]).
  repeat match goal with
         | |- context [bool_decide ?P] => destruct (bool_decide P)
         end; reflexivity.
Qed.

Lemma upload_file_keeps_files (filepath : string) token s d :
  exists (passed : bool) (details : list (string * json)) (w : world),
    upload_file filepath token true s d
    = (Ok (passed, JDict details), {| web := w; files := files d |})
    /\ (passed = true -> exists a q,
          assoc "anomaly_score" details = Some a /\ number a = Ok q
          /\ fits_float q = true).
Proof.
  destruct (files d !! filepath) as [content|] eqn:Hfile.
  - destruct (upload_file_outcome filepath token s d content Hfile)
      as (passed & details & Hrun & Hpass).
    exists passed, details. eexists. split; [exact Hrun|].
    intros Hp. destruct (Hpass Hp) as (r & a & q & _ & _ & Ha & Hq & Hfit). eauto.
  - rewrite (upload_file_missing _ _ _ _ _ Hfile).
    exists false. eexists. exists (web d). split; [destruct d; reflexivity | discriminate].
Qed.

(** What the callers do with the outcome of [upload_file] never raises:
    the score of a passed upload can be formatted, and the details are a
    dictionary. *)
Lemma report_outcome (passed : bool) (details : list (string * json)) s d :
  (passed = true -> exists a q,
     assoc "anomaly_score" details = Some a /\ number a = Ok q
     /\ fits_float q = true) ->
  (if passed
   then score ← pure (get (JDict details) "anomaly_score" (JNum 0));
        _ ← pure (format_2f score);
        (mret (true, JDict details) : F (bool * json))
   else _ ← pure (get (JDict details) "error" (JStr "Unknown error"));
        mret (false, JDict details)) s d
  = (Ok (passed, JDict details), d).
Proof.
  intros Hpass. destruct passed.
  - destruct (Hpass eq_refl) as (a & q & Ha & Hq & Hfit).
    rewrite run_pure. cbn [get]. rewrite Ha. cbn [default id].
    rewrite run_pure. unfold format_2f. rewrite Hq. cbn [mbind result_bind].
    rewrite Hfit. reflexivity.
  - reflexivity.
Qed.

(** X21 (upload_corrupted_file.py, test_corrupted_png): when
    [corrupted_png.png] exists it alone decides the test: the test does
    what [upload_file] does on that file and returns its outcome, and
    [corrupted_image.jpg] is not tried, even if the upload of the PNG
    fails. The JPEG is a fallback for a missing PNG only. *)
Theorem png_test_uploads_first_existing_file token s d :
  truthy token = true ->
  is_Some (files d !! in_test_files "corrupted_png.png") ->
  test_corrupted_png token s d
  = upload_file (in_test_files "corrupted_png.png") token true s d.
Proof.
  intros Htoken Hfile. unfold test_corrupted_png. rewrite Htoken. cbn [negb].
  cbn [first_candidate]. rewrite run_path_exists.
  rewrite bool_decide_eq_true_2 by exact Hfile.
  destruct (upload_file_keeps_files (in_test_files "corrupted_png.png") token s d)
    as (passed & details & w & Hrun & Hpass).
  unfold mbind at 1. unfold F_bind. rewrite Hrun. cbn [fst snd].
  apply report_outcome. exact Hpass.
Qed.

(** Creating the PDF fixture: the directory, then the file. *)
Lemma run_create_fixture {A : Type} (k : unit -> F A) s d :
  let path := in_test_files "corrupted_document.pdf" in
  ((_ ← mkdir_exist_ok TEST_FILES_DIR; write_file path corrupted_data) ≫= k) s d
  = if bool_decide (files d !! TEST_FILES_DIR = None)
       && returns (grants s TEST_FILES_DIR) && returns (grants s path)
    then k tt s {| web := web d; files := <[path := corrupted_data]> (files d) |}
    else (Raise (match files d !! TEST_FILES_DIR with
                 | Some _ => OSError
                 | None =>
                     match grants s TEST_FILES_DIR with
                     | Raise e => e
                     | Ok _ => match grants s path with Raise e => e | Ok _ => OSError end
                     end
                 end), d).
Proof.
  intros path. unfold mbind, F_bind, mkdir_exist_ok, write_file.
  destruct (files d !! TEST_FILES_DIR) as [x|]; [reflexivity|].
  rewrite bool_decide_eq_true_2 by reflexivity.
  destruct (grants s TEST_FILES_DIR) as [[]|e]; [|reflexivity].
  destruct (grants s path) as [[]|e]; reflexivity.
Qed.

Lemma run_upload_file {A : Type} (filepath : string) token (k : bool * json -> F A) s d
    (passed : bool) (details : json) (d' : machine) :
  upload_file filepath token true s d = (Ok (passed, details), d') ->
  (upload_file filepath token true ≫= k) s d = k (passed, details) s d'.
Proof. intros Hrun. unfold mbind, F_bind. rewrite Hrun. reflexivity. Qed.

(** The PDF test after its fixture is in place. *)
Lemma pdf_test_upload token s d (data : bytes) :
  files d !! in_test_files "corrupted_document.pdf" = Some data ->
  exists (out : bool * json),
    (outcome ← upload_file (in_test_files "corrupted_document.pdf") token true;
     if (outcome.1 : bool) then
       score ← pure (get outcome.2 "anomaly_score" (JNum 0));
       _ ← pure (format_2f score);
       mret outcome
     else
       _ ← pure (get outcome.2 "error" (JStr "Unknown error"));
       (mret outcome : F (bool * json))) s d
    = (Ok out,
       requested d (upload_request s token (in_test_files "corrupted_document.pdf") data)).
Proof.
  intros Hfile.
  destruct (upload_file_outcome _ token s d data Hfile)
    as (passed & details & Hrun & Hpass).
  rewrite (run_upload_file _ _ _ _ _ _ _ _ Hrun). cbn [fst snd].
  exists (passed, JDict details). destruct passed.
  - destruct Hpass as (r & a & q & _ & _ & Ha & Hq & Hfit); [reflexivity|].
    rewrite run_pure. cbn [get]. rewrite Ha. cbn [default id].
    rewrite run_pure. unfold format_2f. rewrite Hq. cbn [mbind result_bind].
    rewrite Hfit. reflexivity.
  - reflexivity.
Qed.

(** What the PDF test does, with a token. *)
Lemma pdf_test_run token s d :
  truthy token = true ->
  let path := in_test_files "corrupted_document.pdf" in
  let data := default corrupted_data (files d !! path) in
  if fixture_ready s d then
    exists out : bool * json,
      test_corrupted_pdf token s d
      = (Ok out,
         requested {| web := web d; files := <[path := data]> (files d) |}
           (upload_request s token path data))
  else exists e, test_corrupted_pdf token s d = (Raise e, d).
Proof.
  intros Htoken path data. unfold test_corrupted_pdf, fixture_ready.
  rewrite Htoken. cbn [negb]. rewrite run_path_exists. fold path.
  destruct (files d !! path) as [content|] eqn:Hfile.
  - rewrite bool_decide_eq_true_2 by eauto. cbn [orb]. rewrite run_return.
    destruct (pdf_test_upload token s d content Hfile) as (out & Hrun).
    fold path in Hrun. exists out. rewrite Hrun. subst data. cbn [default id].
    rewrite insert_id by exact Hfile. destruct d; reflexivity.
  - rewrite bool_decide_eq_false_2 by (intros [x [=]]). cbn [orb].
    rewrite run_create_fixture. fold path.
    destruct (bool_decide (files d !! TEST_FILES_DIR = None)
              && returns (grants s TEST_FILES_DIR) && returns (grants s path)).
    + set (d1 := {| web := web d; files := <[path := corrupted_data]> (files d) |}).
      assert (Hfile1 : files d1 !! path = Some corrupted_data)
        by apply lookup_insert_eq.
      destruct (pdf_test_upload token s d1 corrupted_data Hfile1) as (out & Hrun).
      fold path in Hrun. exists out. exact Hrun.
    + eexists. reflexivity.
Qed.

(** X22 (upload_corrupted_file.py, test_corrupted_pdf): with a token, and
    with the fixture in place or the means to create it (no regular file
    at [test_files], and the operating system letting the script create
    the directory and the file), the PDF test uploads
    [test_files/corrupted_document.pdf], once: the bytes of the file
    when it exists, and otherwise the 553 bytes of the generated
    fixture, which it writes to that path first and leaves there; no
    other file is touched. When the fixture is missing and cannot be
    created, the test raises before any request is made. *)
Theorem pdf_test_uploads_or_creates_the_fixture token s d :
  truthy token = true ->
  let path := in_test_files "corrupted_document.pdf" in
  let data := default corrupted_data (files d !! path) in
  (fixture_ready s d = true ->
   exists (out : bool * json) (d' : machine),
     test_corrupted_pdf token s d = (Ok out, d')
     /\ files d' = <[path := data]> (files d)
     /\ sent (web d') = (sent (web d) ++ [upload_request s token path data])%list
     /\ length corrupted_data = 553) /\
  (fixture_ready s d = false ->
   exists e, test_corrupted_pdf token s d = (Raise e, d)).
Proof.
  intros Htoken path data. pose proof (pdf_test_run token s d Htoken) as Hrun.
  cbv zeta in Hrun. fold path in Hrun. fold data in Hrun.
  destruct (fixture_ready s d).
  - split; [intros _ | discriminate]. destruct Hrun as (out & Hrun).
    exists out. eexists. split; [exact Hrun|].
    split; [reflexivity|]. split; [reflexivity | vm_compute; reflexivity].
  - split; [discriminate | intros _; exact Hrun].
Qed.

Lemma optional_upload_absent (label name : string) token
    (results : list (string * bool)) s d :
  files d !! in_test_files name = None ->
  optional_upload label name token results s d = (Ok results, d).
Proof.
  intros Hfile. unfold optional_upload. rewrite run_path_exists, Hfile.
  rewrite bool_decide_eq_false_2 by (intros [x [=]]). reflexivity.
Qed.

(** X23 (upload_corrupted_file.py, test_other_corrupted_files): when none
    of the three optional files exists, nothing is uploaded and the test
    is reported as failed, although no file was accepted. *)
Theorem no_optional_file_is_a_failure token s d :
  files d !! in_test_files "excessive_nulls.bin" = None ->
  files d !! in_test_files "repeated_pattern.bin" = None ->
  files d !! in_test_files "suspicious_encrypted.bin" = None ->
  test_other_corrupted_files token s d = (Ok false, d).
Proof.
  intros H1 H2 H3. unfold test_other_corrupted_files.
  destruct (truthy token); cbn [negb]; [|reflexivity].
  unfold mbind at 1, F_bind at 1. rewrite optional_upload_absent by exact H1.
  unfold mbind at 1, F_bind at 1. rewrite optional_upload_absent by exact H2.
  unfold mbind at 1, F_bind at 1. rewrite optional_upload_absent by exact H3.
  reflexivity.
Qed.

Lemma run_online_get_auth_token {A : Type} (k : json -> F A) s d :
  (online Simulator.get_auth_token ≫= k) s d
  = k (token_in (network (base s) (sent (web d) ++ [login_request (base s)])%list)) s
      (requested d (login_request (base s))).
Proof.
  unfold mbind, F_bind, online. rewrite get_auth_token_spec. reflexivity.
Qed.

Lemma first_candidate_returns (candidates : list string) token s d :
  exists (out : bool * json) (w : world),
    first_candidate candidates token s d = (Ok out, {| web := w; files := files d |}).
Proof.
  induction candidates as [|filepath rest IH].
  - eexists _, (web d). destruct d; reflexivity.
  - cbn [first_candidate]. rewrite run_path_exists.
    destruct (bool_decide (is_Some (files d !! filepath))); [|exact IH].
    destruct (upload_file_keeps_files filepath token s d)
      as (passed & details & w & Hrun & Hpass).
    rewrite (run_upload_file _ _ _ _ _ _ _ _ Hrun). cbn [fst snd].
    rewrite (report_outcome passed details s _ Hpass). eexists _, _. reflexivity.
Qed.

Lemma test_corrupted_png_returns token s d :
  exists (out : bool * json) (w : world),
    test_corrupted_png token s d = (Ok out, {| web := w; files := files d |}).
Proof.
  unfold test_corrupted_png. destruct (truthy token); cbn [negb].
  - apply first_candidate_returns.
  - eexists _, (web d). destruct d; reflexivity.
Qed.

Lemma optional_upload_returns (label name : string) token
    (results : list (string * bool)) s d :
  exists (results' : list (string * bool)) (d' : machine),
    optional_upload label name token results s d = (Ok results', d').
Proof.
  unfold optional_upload. rewrite run_path_exists.
  destruct (bool_decide (is_Some (files d !! in_test_files name))).
  - destruct (upload_file_keeps_files (in_test_files name) token s d)
      as (passed & details & w & Hrun & _).
    rewrite (run_upload_file _ _ _ _ _ _ _ _ Hrun). eexists _, _. reflexivity.
  - eexists _, _. reflexivity.
Qed.

Lemma test_other_corrupted_files_returns token s d :
  exists (out : bool) (d' : machine),
    test_other_corrupted_files token s d = (Ok out, d').
Proof.
  unfold test_other_corrupted_files. destruct (truthy token); cbn [negb].
  2:{ eexists _, _. reflexivity. }
  destruct (optional_upload_returns "Excessive Nulls" "excessive_nulls.bin" token [] s d)
    as (r1 & d1 & H1).
  unfold mbind at 1, F_bind at 1. rewrite H1.
  destruct (optional_upload_returns "Repeated Pattern" "repeated_pattern.bin" token r1 s d1)
    as (r2 & d2 & H2).
  unfold mbind at 1, F_bind at 1. rewrite H2.
  destruct (optional_upload_returns "Suspicious Encrypted" "suspicious_encrypted.bin"
              token r2 s d2) as (r3 & d3 & H3).
  unfold mbind at 1, F_bind at 1. rewrite H3.
  destruct (bool_decide (r3 = [])); eexists _, _; reflexivity.
Qed.

(** X24 (upload_corrupted_file.py, the script body): the exit status is 0
    exactly when the login gave a token and the PDF fixture is in place
    or can be created; it is 1 when the login gave no token, and 1 as
    well when the PDF test cannot create its fixture, which ends the
    script on an exception that nothing catches. What the three tests
    find never changes the exit status: no upload raises, and the
    summary is only printed. *)
Theorem corrupted_script_exit_status s d :
  upload_corrupted_file_py s d
  = if truthy (token_in (network (base s) (sent (web d) ++ [login_request (base s)])%list))
    then (if fixture_ready s d then 0%Z else 1%Z)
    else 1%Z.
Proof.
  unfold upload_corrupted_file_py, main, get_auth_token.
  rewrite run_online_get_auth_token.
  destruct (truthy (token_in _)) eqn:Htoken; cbn [negb]; [|reflexivity].
  match goal with
  | |- context [test_corrupted_png ?t ≫= _] =>
      match goal with
      | |- context [(_ ≫= _) s ?d0] =>
          destruct (test_corrupted_png_returns t s d0) as (png & w1 & Hpng);
          unfold mbind at 1, F_bind at 1; rewrite Hpng;
          pose proof (pdf_test_run t s {| web := w1; files := files d0 |} Htoken) as Hpdf
      end
  end.
  cbv zeta in Hpdf. unfold fixture_ready in *. cbn [files requested] in *.
  match type of Hpdf with
  | if ?c then _ else _ => destruct c
  end.
  - destruct Hpdf as (pdf & Hpdf).
    unfold mbind at 1, F_bind at 1. rewrite Hpdf.
    match goal with
    | |- context [test_other_corrupted_files ?t ≫= _] =>
        match goal with
        | |- context [(_ ≫= _) s ?d2] =>
            destruct (test_other_corrupted_files_returns t s d2) as (other & d3 & Hother);
            unfold mbind at 1, F_bind at 1; rewrite Hother
        end
    end.
    reflexivity.
  - destruct Hpdf as (e & Hpdf).
    unfold mbind at 1, F_bind at 1. rewrite Hpdf. reflexivity.
Qed.

End CorruptedFacts.

Section ClientFacts.

Import Simulator.
Import Disk.
Import Client.

Implicit Types (s : setting) (d : machine) (token : json).

Lemma fresh_upload (data : bytes) (u name ctype : string) token (t : Z)
    (env : environment) (w : world) :
  (new_BytesIO data ≫= fun fp => post_files u name fp ctype (Some token) t) env w
  = let rq := {| url := u; sent_payload := FileBody name data ctype;
                 bearer := Some token; timeout := t |} in
    (network env (sent w ++ [rq])%list, uploaded w rq data).
Proof.
  unfold mbind at 1, M_bind at 1, new_BytesIO. cbv zeta.
  unfold post_files.
  unfold mbind at 1, M_bind at 1, read. cbn [heap sent drawn tally].
  rewrite list_lookup_middle by reflexivity.
  cbn [buffer position drop Nat.max].
  rewrite insert_app_r_alt by reflexivity. rewrite Nat.sub_diag. cbn [list_insert insert].
  unfold send, uploaded. cbn [sent heap drawn tally drop]. reflexivity.
Qed.

Lemma run_online_fresh_upload {A : Type} (data : bytes) (u name ctype : string) token (t : Z)
    (k : response -> F A) s d :
  (online (new_BytesIO data ≫= fun fp => post_files u name fp ctype (Some token) t) ≫= k) s d
  = let rq := {| url := u; sent_payload := FileBody name data ctype;
                 bearer := Some token; timeout := t |} in
    let d' := {| web := uploaded (web d) rq data; files := files d |} in
    match network (base s) (sent (web d) ++ [rq])%list with
    | Ok r => k r s d'
    | Raise e => (Raise e, d')
    end.
Proof.
  unfold mbind at 1, F_bind at 1, online. rewrite fresh_upload. cbv zeta.
  destruct (network (base s) _); reflexivity.
Qed.

(** The machine after the upload of a fresh buffer. *)
Lemma secure_upload_outcome token (filename : string) s d :
  let rq := upload_request (base s) token filename default_content "text/plain" in
  let d' := {| web := uploaded (web d) rq default_content; files := files d |} in
  exists (passed : bool) (details : list (string * json)),
    upload_file_securely token None None filename s d = (Ok (passed, JDict details), d')
    /\ (passed = true ->
        exists r a q,
          network (base s) (sent (web d) ++ [rq])%list = Ok r
          /\ status_code r = 200%Z
          /\ assoc "anomaly_score" details = Some a
          /\ number a = Ok q /\ fits_float q = true).
Proof.
  intros rq d'. unfold upload_file_securely.
  rewrite run_setting_of. unfold attempt_or. rewrite run_return.
  rewrite run_online_fresh_upload. cbv zeta.
  fold (upload_request (base s) token filename default_content "text/plain").
  fold rq. fold d'.
  destruct (network (base s) _) as [r|e] eqn:Hnet.
  2:{ eexists false, _. split; [reflexivity | discriminate]. }
  generalize (match json_or_empty r with
              | Ok data => data
              | Raise _ => JDict [("raw_response", JStr (prefix_of 200 (raw_text r)))]
              end).
  intros data.
  assert (Hfail : forall e, exists (passed : bool) (details : list (string * json)),
            (let (r0, d'0) := (@Raise (bool * json) e, d') in
             match r0 with
             | Ok a => (Ok a, d'0)
             | Raise e0 => (mret (false, JDict [("error", JStr (str s e0))]) : F _) s d'0
             end)
            = (Ok (passed, JDict details), d')
            /\ (passed = true ->
                exists r' a q,
                  Ok r = Ok r' /\ status_code r' = 200%Z
                  /\ assoc "anomaly_score" details = Some a /\ number a = Ok q
                  /\ fits_float q = true)).
  { intros e. eexists false, _. split; [reflexivity | discriminate]. }
  case_bool_decide as Hst.
  - repeat (rewrite run_pure;
            match goal with
            | |- context [match ?x with Ok _ => _ | Raise _ => _ end] =>
                destruct x eqn:?; [|apply Hfail]
            end).
    match goal with
    | H : format_2f ?a = Ok _ |- _ =>
        unfold format_2f in H; destruct (number a) as [q|] eqn:Hq; [|discriminate];
        cbn [mbind result_bind] in H;
        destruct (fits_float q) eqn:Hfit; [|discriminate];
        assert (Hdone : exists r' a' q', Ok r = Ok r' /\ status_code r' = 200%Z
                          /\ Some a = Some a' /\ number a' = Ok q'
                          /\ fits_float q' = true)
          by (exists r, a, q; auto)
    end.
    repeat match goal with
           | |- context [if ?b then _ else _] => is_var b; destruct b
           | |- _ => rewrite run_pure;
                     match goal with
                     | |- context [match ?x with Ok _ => _ | Raise _ => _ end] =>
                         destruct x eqn:?; [|apply Hfail]
                     end
           end;
    (eexists true, _; split; [reflexivity | intros _; exact Hdone]).
  - repeat (rewrite run_pure;
            match goal with
            | |- context [match ?x with Ok _ => _ | Raise _ => _ end] =>
                destruct x eqn:?; [|apply Hfail]
            end).
    eexists false, _. split; [reflexivity | discriminate].
Qed.

(** X25 (client/client.py, upload_file_securely): the client's upload is
    reported as successful only if the server answered it with status
    200; it makes one request, with the 420 bytes of the default content
    when neither a path nor a content is given, and never raises. *)
Theorem secure_upload_succeeds_only_on_200 token (filename : string) s d :
  let rq := upload_request (base s) token filename default_content "text/plain" in
  exists (passed : bool) (details : json) (d' : machine),
    upload_file_securely token None None filename s d = (Ok (passed, details), d')
    /\ sent (web d') = (sent (web d) ++ [rq])%list
    /\ length default_content = 420
    /\ (passed = true ->
        exists r, network (base s) (sent (web d) ++ [rq])%list = Ok r
                  /\ status_code r = 200%Z).
Proof.
  intros rq.
  destruct (secure_upload_outcome token filename s d) as (passed & details & Hrun & Hpass).
  exists passed, (JDict details). eexists. split; [exact Hrun|].
  split; [reflexivity|]. split; [vm_compute; reflexivity|].
  intros Hp. destruct (Hpass Hp) as (r & a & q & Hnet & Hst & _). eauto.
Qed.

(** X26 (client/client.py, upload_file_securely): an upload answered with
    status 200 is a success whatever anomaly score the server reports
    for it, even one above 0.5, as long as the score can be formatted
    (a float, or an int below [2^1024 - 2^970] in magnitude): the score
    only chooses the message and the warning in the returned details.
    An int that is too large for a float makes the formatting raise,
    and the upload is reported as failed. *)
Theorem secure_upload_ignores_the_score token (filename : string) s d
    (b det : list (string * json)) (q : Qc) :
  let rq := upload_request (base s) token filename default_content "text/plain" in
  network (base s) (sent (web d) ++ [rq])%list = answer 200 (JsonText (JDict b)) ->
  assoc "details" b = Some (JDict det) ->
  assoc "anomaly_score" det = Some (JNum q) ->
  (fits_float q = true ->
   exists (details : list (string * json)) (d' : machine),
     upload_file_securely token None None filename s d = (Ok (true, JDict details), d')
     /\ assoc "anomaly_score" details = Some (JNum q)) /\
  (fits_float q = false ->
   exists d' : machine,
     upload_file_securely token None None filename s d
     = (Ok (false, JDict [("error", JStr (str s OverflowError))]), d')).
Proof.
  intros rq Hnet Hdetails Hscore. unfold upload_file_securely.
  rewrite run_setting_of. unfold attempt_or. rewrite run_return.
  rewrite run_online_fresh_upload. cbv zeta.
  fold (upload_request (base s) token filename default_content "text/plain").
  fold rq. rewrite Hnet. unfold answer. disk_steps.
  rewrite bool_decide_eq_true_2 by reflexivity.
  disk_steps. rewrite Hdetails. cbn [default id]. disk_steps.
  rewrite Hscore. cbn [default id]. disk_steps.
  destruct (fits_float q).
  - split; [intros _ | discriminate].
    repeat (match goal with
            | |- context [bool_decide ?P] => destruct (bool_decide P)
            end; disk_steps);
    eexists _, _; (split; [reflexivity | reflexivity]).
  - split; [discriminate | intros _]. eexists. reflexivity.
Qed.

Lemma run_online_urandom {A : Type} (n : nat) (k : bytes -> F A) s d :
  (online (urandom n) ≫= k) s d
  = k (next_bytes (base s) (web d) n) s
      {| web := {| sent := sent (web d); heap := heap (web d);
                   drawn := drawn (web d) + n; tally := tally (web d) |};
         files := files d |}.
Proof. reflexivity. Qed.

Lemma run_online_post_json {A : Type} (u : string) (j : json) (tok : option json) (t : Z)
    (k : response -> F A) s d :
  (online (post_json u j tok t) ≫= k) s d
  = let rq := {| url := u; sent_payload := JsonBody j; bearer := tok; timeout := t |} in
    match network (base s) (sent (web d) ++ [rq])%list with
    | Ok r => k r s (requested d rq)
    | Raise e => (Raise e, requested d rq)
    end.
Proof. unfold post_json. apply run_online_send. Qed.

(** X27 (client/client.py, perform_normal_handshake): the handshake sends
    the base64 text of 32 fresh random bytes as its public key; when the
    server does not answer the init request with status 200, the
    function returns None and makes no validate request. *)
Theorem handshake_stops_at_refused_init token s d (r : response) :
  let rq := init_request (base s) token (next_bytes (base s) (web d) 32) 5 in
  network (base s) (sent (web d) ++ [rq])%list = Ok r ->
  status_code r <> 200%Z ->
  exists d', perform_normal_handshake token s d = (Ok JNull, d')
             /\ sent (web d') = (sent (web d) ++ [rq])%list.
Proof.
  intros rq Hnet Hst. unfold perform_normal_handshake.
  rewrite run_setting_of. unfold attempt_or.
  rewrite run_online_urandom, run_online_post_json. cbv zeta.
  cbn [web sent].
  fold (init_request (base s) token (next_bytes (base s) (web d) 32) 5). fold rq.
  rewrite Hnet. rewrite bool_decide_eq_false_2 by exact Hst. cbn [negb].
  eexists. split; reflexivity.
Qed.

(** The handshake never raises; what it returns is None, or a dictionary
    whose IDS score has been formatted. *)
Lemma handshake_outcome token s d :
  exists (h : json) (d' : machine),
    perform_normal_handshake token s d = (Ok h, d')
    /\ (h = JNull
        \/ exists hid sk v ids a q,
             h = JDict [("handshake_id", hid); ("session_key", sk);
                        ("verified", v); ("ids_result", ids)]
             /\ (if isinstance_dict ids then get ids "anomaly_score" (JNum 0)
                 else Ok (JNum 0)) = Ok a
             /\ number a = Ok q /\ fits_float q = true).
Proof.
  unfold perform_normal_handshake.
  rewrite run_setting_of. unfold attempt_or.
  rewrite run_online_urandom, run_online_post_json. cbv zeta.
  destruct (network (base s) _) as [r|e].
  2:{ eexists _, _. split; [reflexivity | left; reflexivity]. }
  destruct (negb (bool_decide (status_code r = 200%Z))).
  { eexists _, _. split; [reflexivity | left; reflexivity]. }
  repeat (rewrite run_pure;
          match goal with
          | |- context [match ?x with Ok _ => _ | Raise _ => _ end] =>
              destruct x eqn:?;
              [|eexists _, _; split; [reflexivity | left; reflexivity]]
          end).
  rewrite run_online_post_json. cbv zeta.
  destruct (network (base s) _) as [r'|e].
  2:{ eexists _, _. split; [reflexivity | left; reflexivity]. }
  destruct (negb (bool_decide (status_code r' = 200%Z))).
  { eexists _, _. split; [reflexivity | left; reflexivity]. }
  repeat (rewrite run_pure;
          match goal with
          | |- context [match ?x with Ok _ => _ | Raise _ => _ end] =>
              destruct x eqn:?;
              [|eexists _, _; split; [reflexivity | left; reflexivity]]
          end).
  match goal with
  | H : format_2f ?a = Ok _ |- _ =>
      unfold format_2f in H; destruct (number a) as [q|] eqn:Hq; [|discriminate];
      cbn [mbind result_bind] in H;
      destruct (fits_float q) eqn:Hfit; [|discriminate]
  end.
  eexists _, _. split; [reflexivity|]. right.
  eexists _, _, _, _, _, _. split; [reflexivity|].
  split; [eassumption|]. split; eassumption.
Qed.

(** X28 (client/client.py, main and the script's last lines): the client
    exits with status 0 exactly when the login gave a token, the
    handshake returned a dictionary whose [verified] entry is true, and
    the upload was reported as successful. The IDS scores of the
    handshake and of the upload play no part in it, and no exception
    leaves [main]. *)
Theorem client_exit_status s d :
  let token := token_in (network (base s) (sent (web d) ++ [login_request (base s)])%list) in
  let d0 := requested d (login_request (base s)) in
  client_py s d = 0%Z
  <-> truthy token = true
      /\ exists h d1 details d2,
           perform_normal_handshake token s d0 = (Ok (JDict h), d1)
           /\ truthy (default JNull (assoc "verified" h)) = true
           /\ upload_file_securely token None None "test_secure.txt" s d1
              = (Ok (true, details), d2).
Proof.
  intros token d0. unfold client_py, main, get_auth_token.
  rewrite run_online_get_auth_token. fold token. fold d0.
  destruct (truthy token) eqn:Htoken; cbn [negb].
  2:{ split; [discriminate | intros [[=] _]]. }
  destruct (handshake_outcome token s d0) as (h & d1 & Hh & Hshape).
  unfold mbind at 1, F_bind at 1. rewrite Hh.
  destruct Hshape as [->|(hid & sk & v & ids & a & q & -> & Ha & Hq & Hfit)].
  { cbn [truthy]. rewrite run_return. cbn [negb orb].
    split; [discriminate|]. intros (_ & h & d1' & det & d2 & [=] & _). }
  cbn [truthy]. rewrite bool_decide_eq_false_2 by discriminate. cbn [negb].
  rewrite run_pure. cbn [get].
  repeat match goal with
         | |- context [assoc ?k ?l] =>
             let t := eval vm_compute in (assoc k l) in change (assoc k l) with t
         end.
  cbn [default id orb].
  destruct (truthy v) eqn:Hv; cbn [negb].
  2:{ split; [discriminate|]. intros (_ & h & d1' & det & d2 & [= <- <-] & Hver & _).
      change (truthy v = true) in Hver. congruence. }
  rewrite run_pure. rewrite run_pure, Ha. rewrite run_pure. unfold lt at 1. rewrite Hq.
  cbn [mbind result_bind]. rewrite run_pure. unfold format_2f at 1. rewrite Hq.
  cbn [mbind result_bind]. rewrite Hfit.
  destruct (secure_upload_outcome token "test_secure.txt" s d1)
    as (passed & details & Hup & Hpass).
  unfold mbind at 1, F_bind at 1. rewrite Hup. cbn [fst snd].
  destruct passed.
  - destruct (Hpass eq_refl) as (r & a' & q' & _ & _ & Ha' & Hq' & Hfit').
    rewrite run_pure. cbn [get]. rewrite Ha'. cbn [default id].
    rewrite run_pure. unfold format_2f at 1. rewrite Hq. cbn [mbind result_bind].
    rewrite Hfit.
    rewrite run_pure. unfold format_2f at 1. rewrite Hq'. cbn [mbind result_bind].
    rewrite Hfit'.
    rewrite run_pure. unfold lt at 1. rewrite Hq. cbn [mbind result_bind].
    rewrite run_pure. unfold lt. rewrite Hq'. cbn [mbind result_bind].
    destruct (bool_decide (q < lit_0_3)%Qc); cbn [fst].
    + split; [|reflexivity]. intros _. split; [reflexivity|].
      eexists _, _, _, _. split; [reflexivity|]. split; [exact Hv | exact Hup].
    + split; [|reflexivity]. intros _. split; [reflexivity|].
      eexists _, _, _, _. split; [reflexivity|]. split; [exact Hv | exact Hup].
  - split; [discriminate|].
    intros (_ & h & d1' & det & d2 & [= <- <-] & _ & Hup').
    rewrite Hup in Hup'. discriminate.
Qed.

End ClientFacts.

(** ** The further properties on sample runs *)

Lemma replay_detected_at_once_witness :
  (Simulator.replay_attack_demo detects_replay Simulator.start).1 = Ok true /\
  length (Simulator.sent (Simulator.replay_attack_demo detects_replay Simulator.start).2) = 3.
Proof.
  destruct (replay_detected_at_once detects_replay Simulator.start
              {| Simulator.status_code := 200;
                 Simulator.body :=
                   Simulator.JsonText
                     (Simulator.JDict [("message", Simulator.JStr "stored")]) |}
              {| Simulator.status_code := 409;
                 Simulator.body :=
                   Simulator.JsonText
                     (Simulator.JDict
                        [("error", Simulator.JStr "Replay detected: NONCE reuse")]) |}
              [("error", Simulator.JStr "Replay detected: NONCE reuse")]
              "Replay detected: NONCE reuse") as [Hpass Hsent];
    try reflexivity.
  split; [exact Hpass | rewrite Hsent; reflexivity].
Defined.

Lemma nothing_runs_without_prerequisites_witness :
  (Harness.main unattended).2 = [] /\ Harness.run_full_security_tests_py unattended = 1%Z.
Proof.
  apply (nothing_runs_without_prerequisites unattended). left. discriminate.
Defined.

Lemma plain_text_rejection_passes_witness :
  (Corrupted.upload_file "test_files/corrupted_png.png" (Simulator.JStr "eyJhbGciOi") true
     (Disk.against refuses_in_plain_text)
     (Disk.begin Simulator.start Corrupted.fixtures)).1
  = Ok (true,
        Simulator.JDict [("status", Disk.int 403); ("anomaly_score", Simulator.JNum 0);
                         ("verdict", Simulator.JStr ""); ("error", Simulator.JStr "")]).
Proof.
  rewrite (plain_text_rejection_passes "test_files/corrupted_png.png"
             (Simulator.JStr "eyJhbGciOi") (Disk.against refuses_in_plain_text)
             (Disk.begin Simulator.start Corrupted.fixtures)
             [137; 80; 78; 71; 13; 10; 26; 10]%N 403 "Forbidden").
  - reflexivity.
  - reflexivity.
  - right. reflexivity.
  - reflexivity.
Defined.

Lemma png_test_uploads_first_existing_file_witness :
  Corrupted.test_corrupted_png (Simulator.JStr "eyJhbGciOi")
    (Disk.against Simulator.strict) (Disk.begin Simulator.start Corrupted.fixtures)
  = Corrupted.upload_file "test_files/corrupted_png.png" (Simulator.JStr "eyJhbGciOi") true
      (Disk.against Simulator.strict) (Disk.begin Simulator.start Corrupted.fixtures).
Proof.
  apply (png_test_uploads_first_existing_file (Simulator.JStr "eyJhbGciOi")
           (Disk.against Simulator.strict) (Disk.begin Simulator.start Corrupted.fixtures)).
  - reflexivity.
  - eexists. reflexivity.
Defined.

Lemma pdf_test_uploads_or_creates_the_fixture_witness :
  exists (out : bool * Simulator.json) (d' : Disk.machine),
    Corrupted.test_corrupted_pdf (Simulator.JStr "eyJhbGciOi")
      (Disk.against Simulator.strict) (Disk.begin Simulator.start Corrupted.fixtures)
    = (Ok out, d')
    /\ Disk.files d' !! "test_files/corrupted_document.pdf" = Some Corrupted.corrupted_data.
Proof.
  destruct (proj1 (pdf_test_uploads_or_creates_the_fixture (Simulator.JStr "eyJhbGciOi")
                     (Disk.against Simulator.strict)
                     (Disk.begin Simulator.start Corrupted.fixtures) eq_refl) eq_refl)
    as (out & d' & Hrun & Hfiles & _).
  exists out, d'. split; [exact Hrun|]. rewrite Hfiles. apply lookup_insert_eq.
Defined.

Lemma no_optional_file_is_a_failure_witness :
  Corrupted.test_other_corrupted_files (Simulator.JStr "eyJhbGciOi")
    (Disk.against Simulator.strict) (Disk.begin Simulator.start Corrupted.fixtures)
  = (Ok false, Disk.begin Simulator.start Corrupted.fixtures).
Proof.
  apply (no_optional_file_is_a_failure (Simulator.JStr "eyJhbGciOi")
           (Disk.against Simulator.strict) (Disk.begin Simulator.start Corrupted.fixtures));
    reflexivity.
Defined.

Lemma secure_upload_ignores_the_score_witness :
  exists (details : list (string * Simulator.json)) (d' : Disk.machine),
    Client.upload_file_securely (Simulator.JStr "eyJhbGciOi") None None "test_secure.txt"
      (Disk.against accepts_with_high_score) (Disk.begin Simulator.start ∅)
    = (Ok (true, Simulator.JDict details), d')
    /\ Simulator.assoc "anomaly_score" details = Some (Simulator.JNum (Q2Qc (97 # 100))).
Proof.
  apply (secure_upload_ignores_the_score (Simulator.JStr "eyJhbGciOi") "test_secure.txt"
           (Disk.against accepts_with_high_score) (Disk.begin Simulator.start ∅)
           [("message", Simulator.JStr "File uploaded");
            ("details",
             Simulator.JDict
               [("anomaly_score", Simulator.JNum (Q2Qc (97 # 100)));
                ("verdict", Simulator.JStr "suspicious")])]
           [("anomaly_score", Simulator.JNum (Q2Qc (97 # 100)));
            ("verdict", Simulator.JStr "suspicious")]);
    reflexivity.
Defined.

Lemma handshake_stops_at_refused_init_witness :
  exists d',
    Client.perform_normal_handshake (Simulator.JStr "eyJhbGciOi")
      (Disk.against Simulator.strict) (Disk.begin Simulator.start ∅)
    = (Ok Simulator.JNull, d')
    /\ length (Simulator.sent (Disk.web d')) = 1.
Proof.
  destruct (handshake_stops_at_refused_init (Simulator.JStr "eyJhbGciOi")
              (Disk.against Simulator.strict) (Disk.begin Simulator.start ∅)
              {| Simulator.status_code := 400;
                 Simulator.body :=
                   Simulator.JsonText
                     (Simulator.JDict [("error", Simulator.JStr "Invalid public key")]) |})
    as (d' & Hrun & Hsent).
  - reflexivity.
  - discriminate.
  - exists d'. split; [exact Hrun | rewrite Hsent; reflexivity].
Defined.

(** Where nothing can be created, the script of the corrupted uploads
    gets its token and still exits with status 1: the PDF test raises
    when it tries to create its fixture. *)
Lemma corrupted_script_needs_its_fixture :
  Simulator.truthy
    (Simulator.token_in
       (Simulator.network Simulator.strict [Simulator.login_request Simulator.strict]))
  = true /\
  Corrupted.fixture_ready (Disk.read_only Simulator.strict)
    (Disk.begin Simulator.start Corrupted.fixtures) = false /\
  Corrupted.upload_corrupted_file_py (Disk.read_only Simulator.strict)
    (Disk.begin Simulator.start Corrupted.fixtures) = 1%Z /\
  Corrupted.upload_corrupted_file_py (Disk.against Simulator.strict)
    (Disk.begin Simulator.start Corrupted.fixtures) = 0%Z.
Proof. repeat split; vm_compute; reflexivity. Qed.
